(** * Serverless registration handlers: Zoom registration (two deployment
      variants) and the Zoho relay.

    The handlers of [api/register-zoom.js] (on-demand OAuth token), of the
    static-token [register-zoom.js] and of [pages/api/register-zoho.js] are
    embedded as functions into a small effect monad.  A run yields the
    ordered trace of the effects the handler performs ([fetch] calls,
    [console.error], [res.setHeader], [res.status(..).json(..)] /
    [.send(..)]) together with the way the function body ended.

    What lies outside the repository is kept as an explicit parameter:
    [Date_parse] (the engine's [Date.parse]), [fetch] (the upstream
    services) and [env] ([process.env]). *)

From Stdlib Require Import ZArith List String Ascii Bool Lia.
Import ListNotations.
Open Scope string_scope.
Open Scope list_scope.
Open Scope Z_scope.

Set Warnings "-register-all".

Infix "+++" := String.append (at level 60, right associativity).

(** ** JavaScript data *)

(** Values that reach the handlers are JSON data (request bodies, parsed
    upstream bodies).  Numbers are the integer-valued doubles, [JNum n] for
    an integer [n] that a double holds; an object is the list of its own
    properties, a name listed twice standing for its first entry;
    [undefined] is the absence of a value. *)
Inductive json : Type :=
| JNull
| JBool (b : bool)
| JNum (n : Z)
| JStr (s : string)
| JArr (items : list json)
| JObj (fields : list (string * json)).

Definition val : Type := option json.
Definition undefined : val := None.

(** Numbers the matching code computes with: time values and their
    differences (integer-valued doubles), [Infinity] and [NaN]. *)
Inductive num : Type :=
| NaN
| Infinity
| Num (z : Z).

(** ToBoolean. *)
Definition truthy (v : val) : bool :=
  match v with
  | None => false
  | Some JNull => false
  | Some (JBool b) => b
  | Some (JNum n) => negb (n =? 0)
  | Some (JStr s) => negb (String.eqb s "")
  | Some (JArr _) => true
  | Some (JObj _) => true
  end.

(** [a || b] *)
Definition js_or (a b : val) : val := if truthy a then a else b.

Fixpoint assoc (k : string) (fields : list (string * json)) : val :=
  match fields with
  | [] => None
  | (k', v) :: rest => if String.eqb k k' then Some v else assoc k rest
  end.

(** [o.k] for a base [o] that is neither [null] nor [undefined]: own
    property for objects; the names read by the handlers ([occurrences],
    [start_time], [occurrence_id], [access_token], [join_url],
    [registrant_id], [id], the body fields) exist on no primitive or array
    prototype. *)
Definition get_prop (o : json) (k : string) : val :=
  match o with
  | JObj fields => assoc k fields
  | _ => None
  end.

(** ** Strings *)

Definition code (c : ascii) : Z := Z.of_N (N_of_ascii c).

Fixpoint join (sep : string) (parts : list string) : string :=
  match parts with
  | [] => ""
  | [p] => p
  | p :: rest => p +++ sep +++ join sep rest
  end.

Definition digit_char (d : Z) : string :=
  String (ascii_of_N (Z.to_N (48 + d))) "".

Fixpoint decimal_pos (fuel : nat) (n : Z) : string :=
  match fuel with
  | O => ""
  | S fuel' =>
    if n <? 10 then digit_char n
    else decimal_pos fuel' (n / 10) +++ digit_char (n mod 10)
  end.

(** The decimal digits of an integer. *)
Definition decimal (n : Z) : string :=
  let digits := decimal_pos (S (Z.to_nat (Z.log2 (Z.abs n)))) (Z.abs n) in
  if n <? 0 then "-" +++ digits else digits.

(** Strings are UTF-8 byte strings, the encodings of well-formed text (a
    JavaScript string that holds a lone surrogate has none and is not
    among them).  [lex] cuts one into characters as far
    as the handlers can tell them apart: [Ws] is one code point of the
    regular expression class [\s] (WhiteSpace and LineTerminator: U+0009 to
    U+000D, U+0020, U+00A0, U+1680, U+2000 to U+200A, U+2028, U+2029,
    U+202F, U+205F, U+3000, U+FEFF), [Ch b] a byte of any other code
    point. *)
Inductive jchar : Type :=
| Ws
| Ch (b : ascii).

Definition ascii_ws (k : Z) : bool :=
  ((9 <=? k) && (k <=? 13)) || (k =? 32).

Definition ws3 (a b c : Z) : bool :=
  ((a =? 225) && (b =? 154) && (c =? 128))
  || ((a =? 226) && (b =? 128)
      && (((128 <=? c) && (c <=? 138)) || (c =? 168) || (c =? 169) || (c =? 175)))
  || ((a =? 226) && (b =? 129) && (c =? 159))
  || ((a =? 227) && (b =? 128) && (c =? 128))
  || ((a =? 239) && (b =? 187) && (c =? 191)).

Fixpoint lex (s : string) : list jchar :=
  match s with
  | EmptyString => []
  | String c rest =>
    if ascii_ws (code c) then Ws :: lex rest
    else
      match rest with
      | EmptyString => Ch c :: lex rest
      | String c1 rest1 =>
        if (code c =? 194) && (code c1 =? 160) then Ws :: lex rest1
        else
          match rest1 with
          | EmptyString => Ch c :: lex rest
          | String c2 rest2 =>
            if ws3 (code c) (code c1) (code c2) then Ws :: lex rest2
            else Ch c :: lex rest
          end
      end
  end.

Definition is_ws (c : jchar) : bool :=
  match c with
  | Ws => true
  | Ch _ => false
  end.

Fixpoint trimStart (l : list jchar) : list jchar :=
  match l with
  | Ws :: rest => trimStart rest
  | _ => l
  end.

Fixpoint trimEnd (l : list jchar) : list jchar :=
  match l with
  | [] => []
  | c :: rest =>
    match trimEnd rest with
    | [] => if is_ws c then [] else [c]
    | rest' => c :: rest'
    end
  end.

(** [s.trim()] *)
Definition trim (l : list jchar) : list jchar := trimEnd (trimStart l).

(** [s.split(/\s+/)]: the pieces between the maximal runs of whitespace;
    [in_sep] tells that the scan is inside such a run, [acc] is the piece
    read so far.  A string that starts (ends) with whitespace yields an
    empty first (last) piece, the empty string yields one empty piece. *)
Fixpoint split_ws (in_sep : bool) (acc : string) (l : list jchar) : list string :=
  match l with
  | [] => [acc]
  | Ch b :: rest => split_ws false (acc +++ String b "") rest
  | Ws :: rest =>
    if in_sep then split_ws true acc rest
    else acc :: split_ws true "" rest
  end.

(** The three "Parse name" lines, on a string [s] ([String(fullName)] in
    the OAuth variant, [fullName] itself in the static-token one). *)
Definition nameParts (s : string) : list string :=
  split_ws false "" (trim (lex s)).

Definition str_or_empty (v : option string) : string :=
  match v with
  | Some s => s
  | None => ""
  end.

(** [nameParts[0] || ''] *)
Definition first_name_of (s : string) : string :=
  str_or_empty (nth_error (nameParts s) 0).

(** [nameParts.slice(1).join(' ') || ''] *)
Definition last_name_of (s : string) : string :=
  join " " (skipn 1 (nameParts s)).

(** Whitespace-delimited tokens, as the specification words the split:
    cut at every whitespace character and keep the non-empty fields. *)
Fixpoint fields_of (acc : string) (l : list jchar) : list string :=
  match l with
  | [] => [acc]
  | Ch b :: rest => fields_of (acc +++ String b "") rest
  | Ws :: rest => acc :: fields_of "" rest
  end.

Definition nonempty (s : string) : bool := negb (String.eqb s "").

Definition tokens (s : string) : list string :=
  filter nonempty (fields_of "" (lex s)).

(** [encodeURIComponent]: every byte outside [A-Z a-z 0-9 - _ . ! ~ * ' ( )]
    is percent-escaped; on well-formed text, which is what the strings
    are, it does not throw. *)
Definition hex_digit (d : Z) : string :=
  String (ascii_of_N (Z.to_N (if d <? 10 then 48 + d else 55 + d))) "".

Definition uri_unreserved (k : Z) : bool :=
  ((48 <=? k) && (k <=? 57)) || ((65 <=? k) && (k <=? 90))
  || ((97 <=? k) && (k <=? 122))
  || (k =? 45) || (k =? 95) || (k =? 46) || (k =? 33) || (k =? 126)
  || (k =? 42) || (k =? 39) || (k =? 40) || (k =? 41).

Fixpoint encodeURIComponent (s : string) : string :=
  match s with
  | EmptyString => ""
  | String c rest =>
    (if uri_unreserved (code c) then String c ""
     else "%" +++ hex_digit (code c / 16) +++ hex_digit (code c mod 16))
    +++ encodeURIComponent rest
  end.

(** [Buffer.from(s).toString('base64')] *)
Definition b64_alphabet : string :=
  "ABCDEFGHIJKLMNOPQRSTUVWXYZabcdefghijklmnopqrstuvwxyz0123456789+/".

Definition b64_char (i : Z) : string :=
  match String.get (Z.to_nat i) b64_alphabet with
  | Some c => String c ""
  | None => ""
  end.

Fixpoint base64 (s : string) : string :=
  match s with
  | EmptyString => ""
  | String a EmptyString =>
    b64_char (code a / 4) +++ b64_char (code a mod 4 * 16) +++ "=="
  | String a (String b EmptyString) =>
    b64_char (code a / 4) +++ b64_char (code a mod 4 * 16 + code b / 16)
    +++ b64_char (code b mod 16 * 4) +++ "="
  | String a (String b (String c rest)) =>
    b64_char (code a / 4) +++ b64_char (code a mod 4 * 16 + code b / 16)
    +++ b64_char (code b mod 16 * 4 + code c / 64) +++ b64_char (code c mod 64)
    +++ base64 rest
  end.

(** ** Numbers and dates *)

(** Round-to-nearest, ties-to-even, of an integer to the 53-bit
    significand of a double. *)
Definition round_double (x : Z) : Z :=
  let a := Z.abs x in
  let e := Z.log2 a in
  if e <? 53 then x
  else
    let sh := e - 52 in
    let q := Z.shiftr a sh in
    let r := a - Z.shiftl q sh in
    let half := Z.shiftl 1 (sh - 1) in
    let q' := if (half <? r) || ((r =? half) && Z.odd q) then q + 1 else q in
    Z.sgn x * Z.shiftl q' sh.

(** The number of decimal digits of [x >= 1]. *)
Fixpoint digits_count (fuel : nat) (x : Z) : Z :=
  match fuel with
  | O => 0
  | S fuel' => if x <? 10 then 1 else 1 + digits_count fuel' (x / 10)
  end.

(** [s * 10^e] with the trailing zeros of [s] moved into the exponent. *)
Fixpoint strip_zeros (fuel : nat) (s e : Z) : Z * Z :=
  match fuel with
  | O => (s, e)
  | S fuel' =>
    if (0 <? s) && (s mod 10 =? 0) then strip_zeros fuel' (s / 10) (e + 1) else (s, e)
  end.

(** The shortest decimal significand of a double [x >= 2^53]: the pair
    [(s, e)] with the fewest digits in [s] for which [s * 10^e] rounds to
    [x]; of two such, the one nearer to [x], the even one when they are as
    near.  [e] runs down from the number of digits of [x] less one. *)
Fixpoint shortest (fuel : nat) (x e : Z) : Z * Z :=
  match fuel with
  | O => (x, 0)
  | S fuel' =>
    if e <=? 0 then (x, 0)
    else
      let p := 10 ^ e in
      let lo := x / p in
      let ok_lo := (0 <? lo) && (round_double (lo * p) =? x) in
      let ok_hi := round_double ((lo + 1) * p) =? x in
      if ok_lo && ok_hi then
        if (x - lo * p <? (lo + 1) * p - x)
           || ((x - lo * p =? (lo + 1) * p - x) && Z.even lo)
        then (lo, e) else (lo + 1, e)
      else if ok_lo then (lo, e)
      else if ok_hi then (lo + 1, e)
      else shortest fuel' x (e - 1)
  end.

Fixpoint zeros (k : nat) : string :=
  match k with
  | O => ""
  | S k' => "0" +++ zeros k'
  end.

(** Number::toString of a positive integer-valued double: below 2^53 the
    digits of the integer; from there on the shortest digits that read
    back as the same double, followed by zeros up to 21 digits in all and
    in exponent notation beyond. *)
Definition Number_toString_pos (x : Z) : string :=
  if x <? 2 ^ 53 then decimal x
  else
    let n0 := digits_count (S (Z.to_nat (Z.log2 x))) x in
    let '(s0, e0) := shortest (Z.to_nat n0) x (n0 - 1) in
    let '(s, e) := strip_zeros (Z.to_nat n0) s0 e0 in
    let digits := decimal s in
    let n := Z.of_nat (String.length digits) + e in
    if n <=? 21 then digits +++ zeros (Z.to_nat e)
    else
      match digits with
      | String d EmptyString => String d "e+" +++ decimal (n - 1)
      | String d rest => String d "." +++ rest +++ "e+" +++ decimal (n - 1)
      | EmptyString => ""
      end.

(** Number::toString. *)
Definition Number_toString (n : Z) : string :=
  let x := round_double n in
  if x <? 0 then "-" +++ Number_toString_pos (- x) else Number_toString_pos x.

(** [a < b] on numbers: false as soon as one side is [NaN]. *)
Definition num_ltb (a b : num) : bool :=
  match a, b with
  | Num x, Num y => x <? y
  | Num _, Infinity => true
  | _, _ => false
  end.

(** [a > b] *)
Definition num_gtb (a b : num) : bool := num_ltb b a.

(** A time value is an integer number of milliseconds or [NaN] ([None]);
    [Number.isFinite] on it is [isSome]. *)
Definition timeval : Type := option Z.

Definition isFinite (t : timeval) : bool :=
  match t with
  | Some _ => true
  | None => false
  end.

(** TimeClip *)
Definition time_clip (t : Z) : timeval :=
  if Z.abs t <=? 8640000000000000 then Some t else None.

(** [Math.abs(occTime - targetTime)] *)
Definition abs_diff (occTime targetTime : timeval) : num :=
  match occTime, targetTime with
  | Some a, Some b => Num (Z.abs (round_double (a - b)))
  | _, _ => NaN
  end.

Definition MAX_DIFF_MS : Z := 6 * 60 * 60 * 1000.

(** ** Effects *)

(** Thrown values are [Error] objects. *)
Record exn : Type := Error { message : string }.

(** Computations that may throw and have no other effect. *)
Definition E (A : Type) : Type := (exn + A)%type.

(** The messages of engine-raised TypeErrors are engine text; they are
    fixed here to one wording each. *)
Definition TypeError (what : string) : exn := Error what.

(** Reading a property throws on [null] and [undefined]. *)
Definition prop (o : val) (k : string) : E val :=
  match o with
  | None => inl (TypeError ("Cannot read properties of undefined (reading '" +++ k +++ "')"))
  | Some JNull => inl (TypeError ("Cannot read properties of null (reading '" +++ k +++ "')"))
  | Some j => inr (get_prop j k)
  end.

(** ToString on JSON data, as [String(v)], template-literal interpolation
    and [encodeURIComponent(v)] apply it.  An object is converted by
    OrdinaryToPrimitive: an own property [toString] (JSON data, hence not
    callable) hides [Object.prototype.toString], and [valueOf] yields no
    primitive, so the conversion throws; without one the result is
    "[object Object]".  An array is joined with commas, each element
    converted in turn ([null] giving the empty string), and throws when
    an element does. *)
Fixpoint to_string (j : json) : E string :=
  match j with
  | JNull => inr "null"
  | JBool true => inr "true"
  | JBool false => inr "false"
  | JNum n => inr (Number_toString n)
  | JStr s => inr s
  | JArr items =>
    let fix elements (l : list json) : E (list string) :=
      match l with
      | [] => inr []
      | e :: rest =>
        match (match e with
               | JNull => inr ""
               | _ => to_string e
               end) with
        | inl err => inl err
        | inr s =>
          match elements rest with
          | inl err => inl err
          | inr parts => inr (s :: parts)
          end
        end
      end in
    match elements items with
    | inl err => inl err
    | inr parts => inr (join "," parts)
    end
  | JObj fields =>
    match assoc "toString" fields with
    | Some _ => inl (TypeError "Cannot convert object to primitive value")
    | None => inr "[object Object]"
    end
  end.

Definition val_to_string (v : val) : E string :=
  match v with
  | None => inr "undefined"
  | Some j => to_string j
  end.

(** [`Bearer ${token}`] *)
Definition bearer (token : val) : E string :=
  match val_to_string token with
  | inl e => inl e
  | inr s => inr ("Bearer " +++ s)
  end.

(** Object destructuring [const { .. } = o] throws on [null] and
    [undefined] before any property is read. *)
Definition destructure (o : val) : E json :=
  match o with
  | None => inl (TypeError "Cannot destructure 'req.body' as it is undefined.")
  | Some JNull => inl (TypeError "Cannot destructure 'req.body' as it is null.")
  | Some j => inr j
  end.

(** An outbound [fetch(url, init)]; [rq_body] is the JSON text of
    [JSON.stringify(..)], held as the value it denotes. *)
Record http_request : Type := {
  rq_url : string;
  rq_method : string;
  rq_headers : list (string * string);
  rq_body : option json
}.

(** What [fetch] resolves to: the status and the two readings of the body,
    [.text()] and [.json()], each of which may reject. *)
Record response : Type := {
  status : Z;
  text : E string;
  json_body : E json
}.

(** [r.ok] *)
Definition ok (r : response) : bool := (200 <=? status r) && (status r <=? 299).

(** The object literal given to [res.json], which sends it as
    [JSON.stringify] writes it (see [stringify_props]), or the text given
    to [res.send]. *)
Inductive payload : Type :=
| BJson (props : list (string * val))
| BText (s : string).

Inductive event : Type :=
| EFetch (rq : http_request)
| EConsoleError (label : string)
| ESetHeader (name value : string)
| ESend (code : Z) (body : payload).

(** How a function body ends: with a value to go on with, by the
    [return] of the handler, or by a throw. *)
Inductive res (A : Type) : Type :=
| Val (a : A)
| Returned
| Thrown (e : exn).
Arguments Val {A} a.
Arguments Returned {A}.
Arguments Thrown {A} e.

Definition M (A : Type) : Type := (list event * res A)%type.

Definition ret {A} (a : A) : M A := ([], Val a).

Definition bind {A B} (m : M A) (k : A -> M B) : M B :=
  match snd m with
  | Val a => (fst m ++ fst (k a), snd (k a))
  | Returned => (fst m, Returned)
  | Thrown e => (fst m, Thrown e)
  end.

Notation "x <- m ;; k" := (bind m (fun x => k))
  (at level 61, m at next level, right associativity).
Notation "m ;;; k" := (bind m (fun _ => k))
  (at level 61, right associativity).

Definition lift {A} (c : E A) : M A :=
  match c with
  | inl e => ([], Thrown e)
  | inr a => ([], Val a)
  end.

Definition throw {A} (e : exn) : M A := ([], Thrown e).

Definition emit (ev : event) : M unit := ([ev], Val tt).

Definition console_error (label : string) : M unit := emit (EConsoleError label).

(** [return res.status(code).json(props)] *)
Definition return_json {A} (code : Z) (props : list (string * val)) : M A :=
  ([ESend code (BJson props)], Returned).

(** [return res.status(code).send(s)] *)
Definition return_send {A} (code : Z) (s : string) : M A :=
  ([ESend code (BText s)], Returned).

(** [try { m } catch (e) { h e }] *)
Definition try_catch {A} (m : M A) (h : exn -> M A) : M A :=
  match snd m with
  | Thrown e => (fst m ++ fst (h e), snd (h e))
  | _ => m
  end.

(** [for (const x of l) { step }] over the loop variables [st]. *)
Fixpoint for_of {S X} (step : S -> X -> E S) (l : list X) (st : S) : E S :=
  match l with
  | [] => inr st
  | x :: rest =>
    match step st x with
    | inl e => inl e
    | inr st' => for_of step rest st'
    end
  end.

(** ** The request and the deployment configuration *)

Record request : Type := {
  req_method : string;
  req_body : val
}.

(** [process.env] *)
Record environment : Type := {
  ZOOM_MEETING_ID : option string;
  ZOOM_ACCOUNT_ID : option string;
  ZOOM_CLIENT_ID : option string;
  ZOOM_CLIENT_SECRET : option string;
  ZOOM_ACCESS_TOKEN : option string;
  ZOHO_URL : option string
}.

Definition env_val (v : option string) : val := option_map JStr v.

(** The text of a configuration value, a string or [undefined], where it
    is interpolated into a template or given to [encodeURIComponent]. *)
Definition env_text (v : option string) : string :=
  match v with
  | Some s => s
  | None => "undefined"
  end.

Definition str (s : string) : val := Some (JStr s).
Definition boolean (b : bool) : val := Some (JBool b).

(** The properties an object literal contributes to [JSON.stringify]:
    those whose value is defined. *)
Fixpoint stringify_props (props : list (string * val)) : list (string * json) :=
  match props with
  | [] => []
  | (k, Some j) :: rest => (k, j) :: stringify_props rest
  | (_, None) :: rest => stringify_props rest
  end.

Section Upstream.

(** [Date.parse] of the engine, the upstream services behind [fetch]. *)
Variable Date_parse : string -> option Z.
Variable fetch : http_request -> E response.

(** [new Date(v).getTime()]: a string is parsed; an array or object is
    first converted to a primitive, its string, which throws where
    [to_string] does; everything else goes through ToNumber; the result is
    clipped to the range of time values. *)
Definition Date_getTime (v : val) : E timeval :=
  match v with
  | None => inr None
  | Some JNull => inr (time_clip 0)
  | Some (JBool b) => inr (time_clip (if b then 1 else 0))
  | Some (JNum n) => inr (time_clip n)
  | Some j =>
    match to_string j with
    | inl e => inl e
    | inr s =>
      inr match Date_parse s with
          | Some t => time_clip t
          | None => None
          end
    end
  end.

(** [await fetch(..)] *)
Definition do_fetch (rq : http_request) : M response :=
  match fetch rq with
  | inl e => ([EFetch rq], Thrown e)
  | inr r => ([EFetch rq], Val r)
  end.

End Upstream.

(** The loop variables of the matching loop: [bestOccurrence] ([null]
    until an occurrence is taken) and [bestDiff]. *)
Record best : Type := {
  bestOccurrence : val;
  bestDiff : num
}.

Definition best_init : best :=
  {| bestOccurrence := Some JNull; bestDiff := Infinity |}.

(** The constants a handler holds once the meeting has been fetched
    (validation, configuration, name parsing, token and "Step 1" done),
    under the names the source gives them. *)
Record locals : Type := {
  email : val;
  role : val;
  sessionTimeSelected : val;
  first_name : string;
  last_name : string;
  MEETING_ID : option string;
  TOKEN : val;
  meetingData : json
}.

Definition missing_fields : list (string * val) :=
  [("success", boolean false);
   ("error", str "Missing required fields: fullName, email, sessionTimeSelected")].

Definition failure (msg : string) : list (string * val) :=
  [("success", boolean false); ("error", str msg)].

(** [regBody], as given to [JSON.stringify]. *)
Definition regBody (c : locals) : json :=
  JObj (stringify_props
          ([("email", email c); ("first_name", str (first_name c));
            ("last_name", str (last_name c))]
           ++ (if truthy (role c) then
                 [("custom_questions",
                   Some (JArr [JObj (stringify_props
                                       [("title", str "Role"); ("value", role c)])]))]
               else []))).

(** The request of "Step 1". *)
Definition meeting_request (url Authorization : string) : http_request :=
  {| rq_url := url;
     rq_method := "GET";
     rq_headers := [("Authorization", Authorization)];
     rq_body := None |}.

(** The request of "Step 3". *)
Definition registration_request (regUrl Authorization : string) (body : json) : http_request :=
  {| rq_url := regUrl;
     rq_method := "POST";
     rq_headers := [("Authorization", Authorization);
                    ("Content-Type", "application/json")];
     rq_body := Some body |}.

(** The [catch (err)] block of both Zoom handlers. *)
Definition handler_catch (err : exn) : M unit :=
  console_error "register-zoom error:" ;;;
  return_json 500
    [("success", boolean false);
     ("error", js_or (str (message err)) (str "Internal server error"))].

(** ** [api/register-zoom.js]: token obtained on demand (OAuth variant) *)

Module RegisterZoom.
Section Handler.

Variable Date_parse : string -> option Z.
Variable fetch : http_request -> E response.
Variable env : environment.

Definition token_request (accountId clientId clientSecret : string) : http_request :=
  let basic := base64 (clientId +++ ":" +++ clientSecret) in
  {| rq_url := "https://zoom.us/oauth/token?grant_type=account_credentials&account_id="
               +++ encodeURIComponent accountId;
     rq_method := "POST";
     rq_headers := [("Authorization", "Basic " +++ basic);
                    ("Content-Type", "application/x-www-form-urlencoded")];
     rq_body := None |}.

Definition getZoomAccessToken (accountId clientId clientSecret : string) : M val :=
  tokenRes <- do_fetch fetch (token_request accountId clientId clientSecret) ;;
  if negb (ok tokenRes) then
    errText <- lift (text tokenRes) ;;
    throw (Error ("Zoom token error: " +++ Number_toString (status tokenRes) +++ " "
                  +++ errText))
  else
    tokenData <- lift (json_body tokenRes) ;;
    access_token <- lift (prop (Some tokenData) "access_token") ;;
    if negb (truthy access_token) then
      throw (Error "Zoom token response missing access_token")
    else ret access_token.

(** One turn of the matching loop. *)
Definition match_step (targetTime : timeval) (st : best) (occ : json) : E best :=
  match prop (Some occ) "start_time" with
  | inl e => inl e
  | inr start_time =>
    match Date_getTime Date_parse start_time with
    | inl e => inl e
    | inr occTime =>
      if negb (isFinite occTime) then inr st
      else
        let diff := abs_diff occTime targetTime in
        if num_ltb diff (bestDiff st) then
          inr {| bestOccurrence := Some occ; bestDiff := diff |}
        else inr st
    end
  end.

Definition match_occurrence (targetTime : timeval) (occurrences : list json) : E best :=
  for_of (match_step targetTime) occurrences best_init.

Definition meeting_url (MEETING_ID : option string) : string :=
  "https://api.zoom.us/v2/meetings/" +++ encodeURIComponent (env_text MEETING_ID).

Definition registrants_url (MEETING_ID : option string) : string :=
  "https://api.zoom.us/v2/meetings/" +++ encodeURIComponent (env_text MEETING_ID)
  +++ "/registrants".

(** [Array.isArray(meetingData.occurrences) ? meetingData.occurrences : []];
    the property is read on data that is not [null]. *)
Definition occurrences (listed : val) : list json :=
  match listed with
  | Some (JArr items) => items
  | _ => []
  end.

(** The [try] block up to the parsed answer of "Step 1". *)
Definition handler_prepare (req : request) : M locals :=
  b <- lift (destructure (js_or (req_body req) (Some (JObj [])))) ;;
  let fullName := get_prop b "fullName" in
  let email := get_prop b "email" in
  let role := get_prop b "role" in
  let sessionTimeSelected := get_prop b "sessionTimeSelected" in
  if negb (truthy fullName) || negb (truthy email) || negb (truthy sessionTimeSelected) then
    return_json 400 missing_fields
  else
  let MEETING_ID := ZOOM_MEETING_ID env in
  let ACCOUNT_ID := ZOOM_ACCOUNT_ID env in
  let CLIENT_ID := ZOOM_CLIENT_ID env in
  let CLIENT_SECRET := ZOOM_CLIENT_SECRET env in
  if negb (truthy (env_val MEETING_ID)) || negb (truthy (env_val ACCOUNT_ID))
     || negb (truthy (env_val CLIENT_ID)) || negb (truthy (env_val CLIENT_SECRET)) then
    console_error "Missing Zoom env vars" ;;;
    return_json 500 (failure "Server configuration error")
  else
  name <- lift (val_to_string fullName) ;;
  let first_name := first_name_of name in
  let last_name := last_name_of name in
  TOKEN <- getZoomAccessToken (env_text ACCOUNT_ID) (env_text CLIENT_ID)
             (env_text CLIENT_SECRET) ;;
  Authorization <- lift (bearer TOKEN) ;;
  meetingRes <- do_fetch fetch (meeting_request (meeting_url MEETING_ID) Authorization) ;;
  if negb (ok meetingRes) then
    errText <- lift (text meetingRes) ;;
    console_error "Zoom GET meeting failed:" ;;;
    return_json 500 (failure "Failed to fetch Zoom meeting details")
  else
  meetingData <- lift (json_body meetingRes) ;;
  ret {| email := email; role := role; sessionTimeSelected := sessionTimeSelected;
         first_name := first_name; last_name := last_name;
         MEETING_ID := MEETING_ID; TOKEN := TOKEN; meetingData := meetingData |}.

(** The rest of the [try] block: "Step 2" (matching and guardrail) and
    "Step 3" (registration and answer). *)
Definition handler_register (c : locals) : M unit :=
  listed <- lift (prop (Some (meetingData c)) "occurrences") ;;
  let occurrences := occurrences listed in
  targetTime <- lift (Date_getTime Date_parse (sessionTimeSelected c)) ;;
  if negb (isFinite targetTime) then
    return_json 400 (failure "Invalid sessionTimeSelected timestamp")
  else
  st <- lift (match_occurrence targetTime occurrences) ;;
  if truthy (bestOccurrence st) && num_gtb (bestDiff st) (Num MAX_DIFF_MS) then
    best_start <- lift (prop (bestOccurrence st) "start_time") ;;
    console_error "Occurrence match too far from target" ;;;
    return_json 400 (failure "Selected session time does not match any Zoom occurrence")
  else
  best_id <- (if truthy (bestOccurrence st)
              then lift (prop (bestOccurrence st) "occurrence_id")
              else ret undefined) ;;
  regUrl <- (if truthy (bestOccurrence st) && truthy best_id then
               id <- lift (val_to_string best_id) ;;
               ret (registrants_url (MEETING_ID c) +++ "?occurrence_ids="
                    +++ encodeURIComponent id)
             else ret (registrants_url (MEETING_ID c))) ;;
  Authorization <- lift (bearer (TOKEN c)) ;;
  regRes <- do_fetch fetch (registration_request regUrl Authorization (regBody c)) ;;
  if negb (ok regRes) then
    errText <- lift (text regRes) ;;
    console_error "Zoom registration failed:" ;;;
    return_json 500 (failure "Zoom registration failed")
  else
  regData <- lift (json_body regRes) ;;
  join_url <- lift (prop (Some regData) "join_url") ;;
  registrant_id <- lift (prop (Some regData) "registrant_id") ;;
  id <- (if truthy registrant_id then ret undefined else lift (prop (Some regData) "id")) ;;
  occurrence_id <- (if truthy (bestOccurrence st)
                    then lift (prop (bestOccurrence st) "occurrence_id")
                    else ret (str "")) ;;
  matched_start_time <- (if truthy (bestOccurrence st)
                         then lift (prop (bestOccurrence st) "start_time")
                         else ret (str "")) ;;
  return_json 200
    [("success", boolean true);
     ("join_url", js_or join_url (str ""));
     ("registrant_id", js_or (js_or registrant_id id) (str ""));
     ("occurrence_id", occurrence_id);
     ("matched_start_time", matched_start_time)].

Definition handler_try (req : request) : M unit :=
  c <- handler_prepare req ;;
  handler_register c.

Definition handler (req : request) : M unit :=
  if negb (String.eqb (req_method req) "POST") then
    return_json 405 (failure "Method not allowed")
  else
    try_catch (handler_try req) handler_catch.

End Handler.
End RegisterZoom.

(** ** [register-zoom.js]: token read from the configuration (static-token
       variant) *)

Module RegisterZoomStatic.
Section Handler.

Variable Date_parse : string -> option Z.
Variable fetch : http_request -> E response.
Variable env : environment.

(** The receiver of [fullName.trim()]: JSON data other than a string has
    no [trim] to call. *)
Definition trim_receiver (fullName : val) : E string :=
  match fullName with
  | Some (JStr s) => inr s
  | Some JNull | None => inl (TypeError "Cannot read properties of null (reading 'trim')")
  | Some _ => inl (TypeError "fullName.trim is not a function")
  end.

(** What [for (const occ of occurrences)] runs over: the items of an
    array, the characters of a string (one string each; a turn of the
    loop on a string leaves the loop variables as they are, so that the
    cut into bytes instead of code points is not observable); anything
    else is not iterable. *)
Definition iterate (occurrences : val) : E (list json) :=
  match occurrences with
  | Some (JArr items) => inr items
  | Some (JStr s) => inr (map (fun c => JStr (String c "")) (list_ascii_of_string s))
  | _ => inl (TypeError "occurrences is not iterable")
  end.

(** One turn of the matching loop. *)
Definition match_step (targetTime : timeval) (st : best) (occ : json) : E best :=
  match prop (Some occ) "start_time" with
  | inl e => inl e
  | inr start_time =>
    match Date_getTime Date_parse start_time with
    | inl e => inl e
    | inr occTime =>
      let diff := abs_diff occTime targetTime in
      if num_ltb diff (bestDiff st) then
        inr {| bestOccurrence := Some occ; bestDiff := diff |}
      else inr st
    end
  end.

Definition match_occurrence (targetTime : timeval) (occurrences : list json) : E best :=
  for_of (match_step targetTime) occurrences best_init.

Definition meeting_url (MEETING_ID : option string) : string :=
  "https://api.zoom.us/v2/meetings/" +++ env_text MEETING_ID.

Definition registrants_url (MEETING_ID : option string) : string :=
  "https://api.zoom.us/v2/meetings/" +++ env_text MEETING_ID +++ "/registrants".

(** [meetingData.occurrences || []] *)
Definition occurrences (listed : val) : val := js_or listed (Some (JArr [])).

(** The [try] block up to the parsed answer of "Step 1". *)
Definition handler_prepare (req : request) : M locals :=
  b <- lift (destructure (req_body req)) ;;
  let fullName := get_prop b "fullName" in
  let email := get_prop b "email" in
  let role := get_prop b "role" in
  let sessionTimeSelected := get_prop b "sessionTimeSelected" in
  if negb (truthy fullName) || negb (truthy email) || negb (truthy sessionTimeSelected) then
    return_json 400 missing_fields
  else
  let MEETING_ID := ZOOM_MEETING_ID env in
  let TOKEN := env_val (ZOOM_ACCESS_TOKEN env) in
  if negb (truthy (env_val MEETING_ID)) || negb (truthy TOKEN) then
    console_error "Missing ZOOM_MEETING_ID or ZOOM_ACCESS_TOKEN env vars" ;;;
    return_json 500 (failure "Server configuration error")
  else
  name <- lift (trim_receiver fullName) ;;
  let first_name := first_name_of name in
  let last_name := last_name_of name in
  Authorization <- lift (bearer TOKEN) ;;
  meetingRes <- do_fetch fetch (meeting_request (meeting_url MEETING_ID) Authorization) ;;
  if negb (ok meetingRes) then
    errText <- lift (text meetingRes) ;;
    console_error "Zoom GET meeting failed:" ;;;
    return_json 500 (failure "Failed to fetch Zoom meeting details")
  else
  meetingData <- lift (json_body meetingRes) ;;
  ret {| email := email; role := role; sessionTimeSelected := sessionTimeSelected;
         first_name := first_name; last_name := last_name;
         MEETING_ID := MEETING_ID; TOKEN := TOKEN; meetingData := meetingData |}.

(** The rest of the [try] block: "Step 2" (matching) and "Step 3"
    (registration and answer). *)
Definition handler_register (c : locals) : M unit :=
  listed <- lift (prop (Some (meetingData c)) "occurrences") ;;
  let occurrences := occurrences listed in
  targetTime <- lift (Date_getTime Date_parse (sessionTimeSelected c)) ;;
  items <- lift (iterate occurrences) ;;
  st <- lift (match_occurrence targetTime items) ;;
  regUrl <- (if truthy (bestOccurrence st) then
               best_id <- lift (prop (bestOccurrence st) "occurrence_id") ;;
               id <- lift (val_to_string best_id) ;;
               ret (registrants_url (MEETING_ID c) +++ "?occurrence_ids=" +++ id)
             else ret (registrants_url (MEETING_ID c))) ;;
  Authorization <- lift (bearer (TOKEN c)) ;;
  regRes <- do_fetch fetch (registration_request regUrl Authorization (regBody c)) ;;
  if negb (ok regRes) then
    errText <- lift (text regRes) ;;
    console_error "Zoom registration failed:" ;;;
    return_json 500 (failure "Zoom registration failed")
  else
  regData <- lift (json_body regRes) ;;
  join_url <- lift (prop (Some regData) "join_url") ;;
  registrant_id <- lift (prop (Some regData) "registrant_id") ;;
  id <- (if truthy registrant_id then ret undefined else lift (prop (Some regData) "id")) ;;
  occurrence_id <- (if truthy (bestOccurrence st)
                    then lift (prop (bestOccurrence st) "occurrence_id")
                    else ret (str "")) ;;
  return_json 200
    [("success", boolean true);
     ("join_url", js_or join_url (str ""));
     ("registrant_id", js_or (js_or registrant_id id) (str ""));
     ("occurrence_id", occurrence_id)].

Definition handler_try (req : request) : M unit :=
  c <- handler_prepare req ;;
  handler_register c.

Definition handler (req : request) : M unit :=
  if negb (String.eqb (req_method req) "POST") then
    return_json 405 (failure "Method not allowed")
  else
    try_catch (handler_try req) handler_catch.

End Handler.
End RegisterZoomStatic.

(** ** [pages/api/register-zoho.js]: the relay *)

Module RegisterZoho.
Section Handler.

Variable fetch : http_request -> E response.
Variable env : environment.

(** The body of the [try] block; [r.text().catch(() => "")] turns a
    rejected body read into the empty text. *)
Definition handler_try (zohoUrl : string) (req : request) : M unit :=
  r <- do_fetch fetch
    {| rq_url := zohoUrl;
       rq_method := "POST";
       rq_headers := [("Content-Type", "application/json")];
       rq_body := req_body req |} ;;
  let text := match text r with
              | inl _ => ""
              | inr t => t
              end in
  return_send (status r) (if String.eqb text "" then "ok" else text).

(** The [catch (e)] block. *)
Definition handler_catch (e : exn) : M unit :=
  return_json 500 [("error", js_or (str (message e)) (str "Zoho proxy error"))].

Definition handler (req : request) : M unit :=
  if negb (String.eqb (req_method req) "POST") then
    emit (ESetHeader "Allow" "POST") ;;;
    return_json 405 [("error", str "Method not allowed")]
  else
    let zohoUrl := ZOHO_URL env in
    if negb (truthy (env_val zohoUrl)) then
      return_json 500 [("error", str "ZOHO_URL is not set")]
    else try_catch (handler_try (env_text zohoUrl) req) handler_catch.

End Handler.
End RegisterZoho.

(** ** A concrete world for the examples *)

(** An instance of [Date.parse]: the UTC date-time form
    [YYYY-MM-DDTHH:MM:SSZ]; every other string is taken as unparsable. *)
Fixpoint number_of (acc : Z) (s : string) : option Z :=
  match s with
  | EmptyString => Some acc
  | String c rest =>
    if (48 <=? code c) && (code c <=? 57) then number_of (10 * acc + (code c - 48)) rest
    else None
  end.

Definition days_from_civil (y m d : Z) : Z :=
  let y' := if m <=? 2 then y - 1 else y in
  let era := y' / 400 in
  let yoe := y' - era * 400 in
  let doy := (153 * (if 2 <? m then m - 3 else m + 9) + 2) / 5 + d - 1 in
  let doe := yoe * 365 + yoe / 4 - yoe / 100 + doy in
  era * 146097 + doe - 719468.

Definition iso_utc_parse (s : string) : option Z :=
  if negb (Nat.eqb (String.length s) 20) then None
  else if negb (String.eqb (substring 4 1 s) "-" && String.eqb (substring 7 1 s) "-"
                && String.eqb (substring 10 1 s) "T" && String.eqb (substring 13 1 s) ":"
                && String.eqb (substring 16 1 s) ":" && String.eqb (substring 19 1 s) "Z")
  then None
  else
    match number_of 0 (substring 0 4 s), number_of 0 (substring 5 2 s),
          number_of 0 (substring 8 2 s), number_of 0 (substring 11 2 s),
          number_of 0 (substring 14 2 s), number_of 0 (substring 17 2 s) with
    | Some y, Some m, Some d, Some h, Some mi, Some sec =>
      if (1 <=? m) && (m <=? 12) && (1 <=? d) && (d <=? 31)
         && (h <=? 23) && (mi <=? 59) && (sec <=? 59)
      then Some ((((days_from_civil y m d * 24 + h) * 60 + mi) * 60 + sec) * 1000)
      else None
    | _, _, _, _, _, _ => None
    end.

Definition sample_env : environment :=
  {| ZOOM_MEETING_ID := Some "123";
     ZOOM_ACCOUNT_ID := Some "acct";
     ZOOM_CLIENT_ID := Some "cid";
     ZOOM_CLIENT_SECRET := Some "secret";
     ZOOM_ACCESS_TOKEN := Some "static-token";
     ZOHO_URL := Some "https://flow.zoho.example/hook" |}.

Definition json_response (code : Z) (raw : string) (j : json) : response :=
  {| status := code; text := inr raw; json_body := inr j |}.

Definition token_granted : response :=
  json_response 200 "{..}" (JObj [("access_token", JStr "tok"); ("expires_in", JNum 3599)]).

(** Upstream services that answer every call: the token endpoint with
    [tokenRes], the meeting endpoint with the given meeting data, every
    other call (the registration, the webhook) with [other]. *)
Definition sample_fetch (tokenRes : response) (meetingData : json) (other : response)
    (rq : http_request) : E response :=
  if String.prefix "https://zoom.us/oauth/token" (rq_url rq) then inr tokenRes
  else if String.eqb (rq_method rq) "GET" then inr (json_response 200 "{..}" meetingData)
  else inr other.

(** Upstream services that cannot be reached. *)
Definition unreachable (rq : http_request) : E response :=
  inl (Error "fetch failed").

Definition occurrence (id start : string) : json :=
  JObj [("occurrence_id", JStr id); ("start_time", JStr start)].

Definition meeting (occs : list json) : json :=
  JObj [("id", JNum 123); ("occurrences", JArr occs)].

Definition registered : response :=
  json_response 201 "{..}"
    (JObj [("registrant_id", JStr "r-1"); ("join_url", JStr "https://zoom.example/j/1")]).

Definition post (fullName email sessionTimeSelected : string) : request :=
  {| req_method := "POST";
     req_body := Some (JObj [("fullName", JStr fullName); ("email", JStr email);
                             ("sessionTimeSelected", JStr sessionTimeSelected)]) |}.

Definition ann_lee : request := post "Ann Lee" "a@x.com" "2024-05-01T10:00:00Z".

Definition two_occurrences : list json :=
  [occurrence "1" "2024-05-01T09:59:00Z"; occurrence "2" "2024-05-02T10:00:00Z"].

(** ** Notions used in the statements *)

Definition starts_ch (l : list jchar) : bool :=
  match l with
  | Ch _ :: _ => true
  | _ => false
  end.

Fixpoint ends_ch (l : list jchar) : bool :=
  match l with
  | [] => false
  | [c] => negb (is_ws c)
  | _ :: rest => ends_ch rest
  end.

Section Matching.

Variable Date_parse : string -> option Z.

(** A turn of the loop on the entry goes through: the entry is not [null]
    (reading [occ.start_time] would throw) and its start time is converted
    without a throw. *)
Definition readable (occ : json) : bool :=
  match occ with
  | JNull => false
  | _ =>
    match Date_getTime Date_parse (get_prop occ "start_time") with
    | inl _ => false
    | inr _ => true
    end
  end.

(** [new Date(occ.start_time).getTime()] of a list entry; [NaN] also
    where the conversion throws. *)
Definition occTime_of (occ : json) : timeval :=
  match Date_getTime Date_parse (get_prop occ "start_time") with
  | inl _ => None
  | inr t => t
  end.

(** The entry's start time parses: it is converted without a throw, to a
    time value. *)
Definition parses (occ : json) : bool := isFinite (occTime_of occ).

(** [Math.abs(occTime - targetTime)] of a list entry. *)
Definition diff_of (targetTime : timeval) (occ : json) : num :=
  abs_diff (occTime_of occ) targetTime.

(** Entry [i] of [occs] is [occ], at distance [d] from the target; no
    entry is closer, and every earlier entry is strictly farther. *)
Definition closest (target : Z) (occs : list json) (i : nat) (occ : json) (d : Z) : Prop :=
  nth_error occs i = Some occ
  /\ diff_of (Some target) occ = Num d
  /\ forall (j : nat) (occ' : json),
       nth_error occs j = Some occ' ->
       exists d', diff_of (Some target) occ' = Num d'
                  /\ d <= d' /\ ((j < i)%nat -> d < d').

(** The loop variables once the entries [pre] have been visited. *)
Definition visited (target : Z) (pre : list json) (st : best) : Prop :=
  match pre with
  | [] => st = best_init
  | _ => exists i occ d,
           st = {| bestOccurrence := Some occ; bestDiff := Num d |}
           /\ closest target pre i occ d
  end.

End Matching.

(** The field [k] of the request body, as the destructuring reads it. *)
Definition field_of (req : request) (k : string) : val :=
  match req_body req with
  | Some b => get_prop b k
  | None => None
  end.

(** The property [k] of an object literal. *)
Fixpoint field (k : string) (props : list (string * val)) : val :=
  match props with
  | [] => None
  | (k', v) :: rest => if String.eqb k k' then v else field k rest
  end.

Definition is_send (ev : event) : bool :=
  match ev with
  | ESend _ _ => true
  | _ => false
  end.

(** The responses in a trace. *)
Definition sends (tr : list event) : list event := filter is_send tr.

Definition is_fetch (ev : event) : bool :=
  match ev with
  | EFetch _ => true
  | _ => false
  end.

(** The upstream calls in a trace. *)
Definition fetches (tr : list event) : list event := filter is_fetch tr.

(** The URL has a query part. *)
Fixpoint has_query (url : string) : bool :=
  match url with
  | EmptyString => false
  | String c rest => (code c =? 63) || has_query rest
  end.

(** A run that has sent nothing unless it has returned, and that has
    returned only by sending one JSON response accepted by [good], as its
    last effect; [V] and [T] tell whether the run may end with a value,
    with a throw. *)
Definition run_ok {A} (good : Z -> list (string * val) -> Prop) (V T : Prop) (m : M A) : Prop :=
  match snd m with
  | Val _ => sends (fst m) = [] /\ V
  | Thrown _ => sends (fst m) = [] /\ T
  | Returned =>
    exists pre code props,
      fst m = pre ++ [ESend code (BJson props)] /\ sends pre = [] /\ good code props
  end.

(** The responses of a Zoom handler: the success object under status 200,
    with the property names [keys], or [{ success: false, error }] under
    400, 405 or 500. *)
Definition zoom_response (keys : list string) (code : Z) (props : list (string * val)) : Prop :=
  (code = 200 /\ map fst props = keys /\ field "success" props = boolean true)
  \/ ((code = 400 \/ code = 405 \/ code = 500)
      /\ map fst props = ["success"; "error"] /\ field "success" props = boolean false).

Definition success_keys : list string :=
  ["success"; "join_url"; "registrant_id"; "occurrence_id"].

(** Further upstream worlds and requests of the examples. *)
Definition token_denied : response :=
  {| status := 401; text := inr "unauthorized"; json_body := inr (JObj [("reason", JStr "Invalid client")]) |}.

(** The meeting endpoint answers 404, the token endpoint grants. *)
Definition meeting_not_found (rq : http_request) : E response :=
  if String.prefix "https://zoom.us/oauth/token" (rq_url rq) then inr token_granted
  else inr {| status := 404; text := inr "not found"; json_body := inl (Error "Unexpected token") |}.



Definition with_unparsable : list json :=
  [occurrence "0" "next tuesday"; occurrence "1" "2024-05-01T09:59:00Z";
   JObj [("occurrence_id", JStr "9")]].

Definition garbage_time : request := post "Ann Lee" "a@x.com" "garbage".

Definition no_session_time : request :=
  {| req_method := "POST";
     req_body := Some (JObj [("fullName", JStr "Ann Lee"); ("email", JStr "a@x.com")]) |}.

Definition oauth_world (occs : list json) : http_request -> E response :=
  sample_fetch token_granted (meeting occs) registered.

(** The URLs called, in order. *)
Fixpoint urls (tr : list event) : list string :=
  match tr with
  | [] => []
  | EFetch rq :: rest => rq_url rq :: urls rest
  | _ :: rest => urls rest
  end.

(** ** Notions used in the further properties *)

(** Every byte of [s] passes [p]. *)
Fixpoint all_bytes (p : Z -> bool) (s : string) : bool :=
  match s with
  | EmptyString => true
  | String c rest => p (code c) && all_bytes p rest
  end.

(** How often the byte [k] occurs in [s]. *)
Fixpoint count_byte (k : Z) (s : string) : nat :=
  match s with
  | EmptyString => O
  | String c rest => ((if (code c =? k)%Z then 1 else 0) + count_byte k rest)%nat
  end.

(** An unreserved byte or the percent sign. *)
Definition uri_safe (k : Z) : bool := uri_unreserved k || (k =? 37).

(** The number of upstream calls in a trace. *)
Definition upstream_calls (tr : list event) : nat := List.length (fetches tr).

(** A run that makes at most [n] upstream calls. *)
Definition calls_le {A} (n : nat) (m : M A) : Prop := (upstream_calls (fst m) <= n)%nat.

(** [v.k] for a value that may be [undefined]. *)
Definition val_prop (v : val) (k : string) : val :=
  match v with
  | Some j => get_prop j k
  | None => None
  end.

(** An effect that is neither a call with a body (the registration call)
    nor a response with status 200. *)
Definition quiet (ev : event) : Prop :=
  match ev with
  | EFetch rq => rq_body rq = None
  | ESend code _ => code <> 200
  | _ => True
  end.

(** The registration call [rq] or the reading of its answer throws [e]:
    the call itself, the reading of the text of a non-success answer, the
    reading of the JSON of a success answer, or the first property read
    on a JSON body that is [null]. *)
Definition registration_throws (fetch : http_request -> E response) (rq : http_request)
    (e : exn) : Prop :=
  fetch rq = inl e
  \/ exists r,
       fetch rq = inr r
       /\ ((ok r = false /\ text r = inl e)
           \/ (ok r = true
               /\ (json_body r = inl e
                   \/ (json_body r = inr JNull
                       /\ e = TypeError "Cannot read properties of null (reading 'join_url')")))).

(** How "Step 3" runs from the registration call [rq] on: the call and
    the success response, with the object [props_of regData] for the
    registration data, the call having resolved with a success status;
    the call and "Zoom registration failed", the call having resolved
    with another status; or the call and a throw. *)
Definition register_outcome (fetch : http_request -> E response) (rq : http_request)
    (props_of : json -> list (string * val)) (run : M unit) : Prop :=
  (exists r regData,
      fetch rq = inr r /\ ok r = true /\ json_body r = inr regData /\ regData <> JNull
      /\ run = ([EFetch rq; ESend 200 (BJson (props_of regData))], Returned))
  \/ (exists r errText,
         fetch rq = inr r /\ ok r = false /\ text r = inr errText
         /\ run = ([EFetch rq; EConsoleError "Zoom registration failed:";
                    ESend 500 (BJson (failure "Zoom registration failed"))], Returned))
  \/ (exists e, run = ([EFetch rq], Thrown e) /\ registration_throws fetch rq e).

(** How a handler ends once the registration call [rq] is made, [tail]
    being its effects after the call: with the success response; with
    "Zoom registration failed"; or in the catch block. *)
Definition after_registration (fetch : http_request -> E response) (rq : http_request)
    (props_of : json -> list (string * val)) (tail : list event) : Prop :=
  (exists r regData,
      fetch rq = inr r /\ ok r = true /\ json_body r = inr regData /\ regData <> JNull
      /\ tail = [ESend 200 (BJson (props_of regData))])
  \/ (exists r errText,
         fetch rq = inr r /\ ok r = false /\ text r = inr errText
         /\ tail = [EConsoleError "Zoom registration failed:";
                    ESend 500 (BJson (failure "Zoom registration failed"))])
  \/ (exists e,
         tail = [EConsoleError "register-zoom error:";
                 ESend 500 (BJson [("success", boolean false);
                                   ("error", str (if String.eqb (message e) ""
                                                  then "Internal server error"
                                                  else message e))])]
         /\ registration_throws fetch rq e).

(** The registration URL of the OAuth variant for the loop result [st];
    building it throws when the occurrence id has no string. *)
Definition oauth_regUrl (c : locals) (st : best) : E string :=
  if truthy (bestOccurrence st) && truthy (val_prop (bestOccurrence st) "occurrence_id") then
    match val_to_string (val_prop (bestOccurrence st) "occurrence_id") with
    | inl e => inl e
    | inr id =>
      inr (RegisterZoom.registrants_url (MEETING_ID c) +++ "?occurrence_ids="
           +++ encodeURIComponent id)
    end
  else inr (RegisterZoom.registrants_url (MEETING_ID c)).

(** The registration URL of the static-token variant for the loop result
    [st], likewise. *)
Definition static_regUrl (c : locals) (st : best) : E string :=
  if truthy (bestOccurrence st) then
    match val_to_string (val_prop (bestOccurrence st) "occurrence_id") with
    | inl e => inl e
    | inr id =>
      inr (RegisterZoomStatic.registrants_url (MEETING_ID c) +++ "?occurrence_ids=" +++ id)
    end
  else inr (RegisterZoomStatic.registrants_url (MEETING_ID c)).

(** The [occurrence_id] property of the success object for the loop
    result [st]. *)
Definition occurrence_id_of (st : best) : val :=
  if truthy (bestOccurrence st) then val_prop (bestOccurrence st) "occurrence_id"
  else str "".

(** The success object of the static-token variant, as given to
    [res.json], for the registration data [regData] and the loop result
    [st]. *)
Definition success_props (regData : json) (st : best) : list (string * val) :=
  [("success", boolean true);
   ("join_url", js_or (get_prop regData "join_url") (str ""));
   ("registrant_id",
    js_or (js_or (get_prop regData "registrant_id")
                 (if truthy (get_prop regData "registrant_id")
                  then undefined else get_prop regData "id"))
          (str ""));
   ("occurrence_id", occurrence_id_of st)].

(** The fifth property of the success object of the OAuth variant. *)
Definition matched_start_time_of (st : best) : val :=
  if truthy (bestOccurrence st) then val_prop (bestOccurrence st) "start_time"
  else str "".

(** The success object of the OAuth variant. *)
Definition oauth_success_props (regData : json) (st : best) : list (string * val) :=
  success_props regData st ++ [("matched_start_time", matched_start_time_of st)].

(** Further requests, configurations and upstream answers of the
    examples. *)
Definition get_request : request := {| req_method := "GET"; req_body := None |}.

Definition post_no_body : request := {| req_method := "POST"; req_body := None |}.

Definition numeric_name : request :=
  {| req_method := "POST";
     req_body := Some (JObj [("fullName", JNum 42); ("email", JStr "a@x.com");
                             ("sessionTimeSelected", JStr "2024-05-01T10:00:00Z")]) |}.

Definition ann_lee_teacher : request :=
  {| req_method := "POST";
     req_body := Some (JObj [("fullName", JStr "Ann Lee"); ("email", JStr "a@x.com");
                             ("role", JStr "Teacher");
                             ("sessionTimeSelected", JStr "2024-05-01T10:00:00Z")]) |}.

Definition unconfigured : environment :=
  {| ZOOM_MEETING_ID := Some "123";
     ZOOM_ACCOUNT_ID := None;
     ZOOM_CLIENT_ID := Some "cid";
     ZOOM_CLIENT_SECRET := Some "";
     ZOOM_ACCESS_TOKEN := None;
     ZOHO_URL := None |}.



Definition with_null : list json := [occurrence "1" "2024-05-01T09:59:00Z"; JNull].

(** The constants of the OAuth handler on [ann_lee], given the meeting
    data. *)
Definition ann_lee_locals (token : string) (data : json) : locals :=
  {| email := str "a@x.com"; role := undefined;
     sessionTimeSelected := str "2024-05-01T10:00:00Z";
     first_name := "Ann"; last_name := "Lee";
     MEETING_ID := Some "123"; TOKEN := str token;
     meetingData := data |}.

(** Meeting data whose [occurrences] is an object. *)
Definition odd_meeting : json := JObj [("id", JNum 123); ("occurrences", JObj [])].

Definition odd_world : http_request -> E response :=
  sample_fetch token_granted odd_meeting registered.


(** A value that no conversion turns into a string. *)
Definition no_string : json := JObj [("toString", JNum 0)].

(** An entry whose start time throws when it is converted. *)
Definition odd_start_time : list json :=
  [occurrence "1" "2024-05-01T09:59:00Z";
   JObj [("occurrence_id", JStr "2"); ("start_time", no_string)]].

(** An entry without occurrence id. *)
Definition without_id : list json := [JObj [("start_time", JStr "2024-05-01T09:59:00Z")]].


(** The token endpoint answers 200 with an empty [access_token], with a
    numeric one. *)
Definition token_empty : response :=
  json_response 200 "{..}" (JObj [("access_token", JStr ""); ("expires_in", JNum 3599)]).

Definition token_numeric : response :=
  json_response 200 "{..}" (JObj [("access_token", JNum 42)]).

Definition odd_name : request :=
  {| req_method := "POST";
     req_body := Some (JObj [("fullName", no_string); ("email", JStr "a@x.com");
                             ("sessionTimeSelected", JStr "2024-05-01T10:00:00Z")]) |}.

Definition odd_session_time : request :=
  {| req_method := "POST";
     req_body := Some (JObj [("fullName", JStr "Ann Lee"); ("email", JStr "a@x.com");
                             ("sessionTimeSelected", no_string)]) |}.

(** * Properties *)

(** ** Name parsing *)

Lemma nonempty_snoc (acc : string) (b : ascii) : nonempty (acc +++ String b "") = true.
Proof. destruct acc; reflexivity. Qed.

Lemma filter_all {A} (p : A -> bool) (l : list A) :
  Forall (fun x => p x = true) l -> filter p l = l.
Proof.
  induction 1 as [|x l Hx _ IH]; simpl; [reflexivity|].
  now rewrite Hx, IH.
Qed.

Lemma split_ws_fields (l : list jchar) :
  forall (in_sep : bool) (acc : string),
    (in_sep = true -> acc = "") ->
    filter nonempty (split_ws in_sep acc l) = filter nonempty (fields_of acc l).
Proof.
  induction l as [|c l IH]; intros in_sep acc Hacc; simpl; [reflexivity|].
  destruct c as [|b].
  - destruct in_sep.
    + rewrite (Hacc eq_refl). simpl. now apply IH.
    + simpl. destruct (nonempty acc); [f_equal|]; now apply IH.
  - apply IH. discriminate.
Qed.

Lemma trimStart_fields (l : list jchar) :
  filter nonempty (fields_of "" (trimStart l)) = filter nonempty (fields_of "" l).
Proof.
  induction l as [|c l IH]; simpl; [reflexivity|].
  destruct c; simpl; [exact IH | reflexivity].
Qed.

Lemma trimEnd_fields (l : list jchar) :
  forall acc : string,
    filter nonempty (fields_of acc (trimEnd l)) = filter nonempty (fields_of acc l).
Proof.
  induction l as [|c l IH]; intros acc; [reflexivity|].
  cbn [trimEnd]. destruct (trimEnd l) as [|c' l'] eqn:Hl.
  - destruct c as [|b]; cbn [is_ws fields_of].
    + cbn [filter]. rewrite <- (IH ""). reflexivity.
    + now rewrite <- IH.
  - destruct c as [|b].
    + change (filter nonempty (acc :: fields_of "" (c' :: l'))
              = filter nonempty (acc :: fields_of "" l)).
      cbn [filter]. now rewrite IH.
    + change (filter nonempty (fields_of (acc +++ String b "") (c' :: l'))
              = filter nonempty (fields_of (acc +++ String b "") l)).
      apply IH.
Qed.

Lemma trimStart_shape (l : list jchar) :
  trimStart l = [] \/ starts_ch (trimStart l) = true.
Proof.
  induction l as [|c l IH]; simpl; [now left|].
  destruct c; [exact IH | now right].
Qed.

Lemma trimEnd_shape (l : list jchar) :
  trimEnd l = [] \/ ends_ch (trimEnd l) = true.
Proof.
  induction l as [|c l IH]; [now left|].
  cbn [trimEnd]. destruct (trimEnd l) as [|c' l'] eqn:Hl.
  - destruct c; simpl; [now left | now right].
  - right. destruct IH as [IH|IH]; [discriminate|]. exact IH.
Qed.

Lemma trimEnd_starts (l : list jchar) :
  starts_ch l = true -> starts_ch (trimEnd l) = true.
Proof.
  destruct l as [|c l]; [discriminate|].
  destruct c; [discriminate|]. intros _.
  cbn [trimEnd]. now destruct (trimEnd l).
Qed.

Lemma trim_shape (l : list jchar) :
  trim l = [] \/ (starts_ch (trim l) = true /\ ends_ch (trim l) = true).
Proof.
  unfold trim. destruct (trimStart_shape l) as [H|H].
  - left. now rewrite H.
  - destruct (trimEnd_shape (trimStart l)) as [H'|H']; [now left|].
    right. split; [now apply trimEnd_starts | exact H'].
Qed.

Lemma trim_fields (l : list jchar) :
  filter nonempty (fields_of "" (trim l)) = filter nonempty (fields_of "" l).
Proof. unfold trim. now rewrite trimEnd_fields, trimStart_fields. Qed.

Lemma split_ws_nonempty (l : list jchar) :
  forall (in_sep : bool) (acc : string),
    ends_ch l = true \/ (l = [] /\ nonempty acc = true) ->
    (in_sep = false -> nonempty acc = true \/ starts_ch l = true) ->
    Forall (fun s => nonempty s = true) (split_ws in_sep acc l).
Proof.
  induction l as [|c l IH]; intros in_sep acc Hend Hstart.
  - destruct Hend as [Hend|[_ Hacc]]; [discriminate|]. now constructor.
  - assert (Hl : ends_ch l = true \/ l = []).
    { destruct Hend as [Hend|[Hend _]]; [|discriminate].
      destruct l; [now right | now left]. }
    destruct c as [|b]; cbn [split_ws].
    + assert (Hl' : ends_ch l = true).
      { destruct Hl as [Hl|Hl]; [exact Hl|]. subst l.
        destruct Hend as [Hend|[Hend _]]; discriminate. }
      destruct in_sep.
      * apply IH; [now left | discriminate].
      * constructor.
        -- destruct (Hstart eq_refl) as [H|H]; [exact H | discriminate].
        -- apply IH; [now left | discriminate].
    + apply IH.
      * destruct Hl as [Hl|Hl]; [now left | right].
        split; [exact Hl | apply nonempty_snoc].
      * intros _. left. apply nonempty_snoc.
Qed.

Lemma nameParts_tokens (s : string) :
  trim (lex s) <> [] -> nameParts s = tokens s.
Proof.
  intros Hne. unfold nameParts, tokens.
  destruct (trim_shape (lex s)) as [H|[Hs He]]; [contradiction|].
  rewrite <- trim_fields, <- (split_ws_fields _ false "") by discriminate.
  symmetry. apply filter_all. apply split_ws_nonempty; [now left | now right].
Qed.

Lemma nameParts_blank (s : string) :
  trim (lex s) = [] -> nameParts s = [""] /\ tokens s = [].
Proof.
  intros H. unfold nameParts, tokens. rewrite <- trim_fields, H. now split.
Qed.

(** C5: for every string [s] given as fullName, the first name is the first
    whitespace-delimited token of [s] and the last name is the remaining
    tokens joined with single spaces, empty when there is at most one
    token; both variants hand a string fullName to the split as it is
    ([String(s)] is [s], [s.trim()] is called on [s]); "Jane Q Public"
    gives "Jane" and "Q Public", "Solo" gives the last name "". *)
Theorem name_split_tokens :
  (forall s : string,
      first_name_of s = hd "" (tokens s)
      /\ last_name_of s = join " " (tl (tokens s))
      /\ val_to_string (Some (JStr s)) = inr s
      /\ RegisterZoomStatic.trim_receiver (Some (JStr s)) = inr s)
  /\ first_name_of "Jane Q Public" = "Jane"
  /\ last_name_of "Jane Q Public" = "Q Public"
  /\ first_name_of "Solo" = "Solo"
  /\ last_name_of "Solo" = "".
Proof.
  split; [|repeat split; reflexivity].
  intros s. unfold first_name_of, last_name_of.
  destruct (trim (lex s)) as [|c t] eqn:Ht.
  - destruct (nameParts_blank s Ht) as [Hp Hk]. rewrite Hp, Hk. now repeat split.
  - rewrite (nameParts_tokens s) by (rewrite Ht; discriminate).
    destruct (tokens s); now repeat split.
Qed.


(** ** Differences of time values *)

Lemma round_double_exact (x : Z) : Z.abs x < 2 ^ 53 -> round_double x = x.
Proof.
  intros Hx. unfold round_double.
  destruct (Z.ltb_spec (Z.log2 (Z.abs x)) 53) as [_|Hge]; [reflexivity|].
  exfalso. destruct (Z.eq_dec (Z.abs x) 0) as [H0|H0].
  - rewrite H0 in Hge. cbn in Hge. lia.
  - assert (Hpos : 0 < Z.abs x) by lia.
    apply (Z.log2_lt_pow2 _ 53 Hpos) in Hx. lia.
Qed.

(** Below 2^53 ms (some 285 000 years) the computed distance is the exact
    one. *)
Lemma abs_diff_exact (a b : Z) :
  Z.abs (a - b) < 2 ^ 53 -> abs_diff (Some a) (Some b) = Num (Z.abs (a - b)).
Proof. intros H. cbn [abs_diff]. now rewrite round_double_exact. Qed.

(** ** The matching loop *)

Section MatchingLoop.

Variable Date_parse : string -> option Z.

Lemma for_of_ext {S X} (f g : S -> X -> E S) (l : list X) :
  (forall st x, f st x = g st x) -> forall st, for_of f l st = for_of g l st.
Proof.
  intros Hfg. induction l as [|x l IH]; intros st; simpl; [reflexivity|].
  rewrite Hfg. destruct (g st x); [reflexivity | apply IH].
Qed.

Lemma for_of_app {S X} (f : S -> X -> E S) (l1 l2 : list X) (st : S) :
  for_of f (l1 ++ l2) st
  = match for_of f l1 st with
    | inl e => inl e
    | inr st' => for_of f l2 st'
    end.
Proof.
  revert st. induction l1 as [|x l1 IH]; intros st; simpl; [reflexivity|].
  destruct (f st x); [reflexivity | apply IH].
Qed.

(** The explicit finiteness test changes nothing: a [NaN] difference
    never passes [diff < bestDiff]. *)
Lemma match_step_agree (targetTime : timeval) (st : best) (occ : json) :
  RegisterZoom.match_step Date_parse targetTime st occ
  = RegisterZoomStatic.match_step Date_parse targetTime st occ.
Proof.
  unfold RegisterZoom.match_step, RegisterZoomStatic.match_step.
  destruct (prop (Some occ) "start_time") as [e|start_time]; [reflexivity|].
  destruct (Date_getTime Date_parse start_time) as [e|[t|]]; reflexivity.
Qed.

Lemma match_occurrence_agree (targetTime : timeval) (occs : list json) :
  RegisterZoom.match_occurrence Date_parse targetTime occs
  = RegisterZoomStatic.match_occurrence Date_parse targetTime occs.
Proof. apply for_of_ext. intros; apply match_step_agree. Qed.

Lemma prop_not_null (occ : json) (k : string) :
  occ <> JNull -> prop (Some occ) k = inr (get_prop occ k).
Proof. destruct occ; intros H; [contradiction | reflexivity ..]. Qed.

Lemma readable_not_null (occ : json) : readable Date_parse occ = true -> occ <> JNull.
Proof. intros H ->. discriminate. Qed.

(** On a readable entry the conversion of the start time yields the
    entry's time. *)
Lemma readable_time (occ : json) :
  readable Date_parse occ = true ->
  Date_getTime Date_parse (get_prop occ "start_time") = inr (occTime_of Date_parse occ).
Proof.
  unfold readable, occTime_of.
  destruct occ; try discriminate;
    destruct (Date_getTime Date_parse _); (discriminate || reflexivity).
Qed.

Lemma parses_not_null (occ : json) : parses Date_parse occ = true -> occ <> JNull.
Proof. intros H ->. discriminate. Qed.

Lemma parses_readable (occ : json) :
  parses Date_parse occ = true -> readable Date_parse occ = true.
Proof.
  unfold parses, readable, occTime_of.
  destruct occ; try discriminate;
    destruct (Date_getTime Date_parse _); (discriminate || reflexivity).
Qed.

(** An entry whose start time parses is an object, hence truthy. *)
Lemma parses_truthy (occ : json) : parses Date_parse occ = true -> truthy (Some occ) = true.
Proof. destruct occ; try discriminate; reflexivity. Qed.

(** A turn on an entry whose start time parses. *)
Lemma match_step_parsed (target : Z) (st : best) (occ : json) :
  parses Date_parse occ = true ->
  exists d, diff_of Date_parse (Some target) occ = Num d
    /\ RegisterZoom.match_step Date_parse (Some target) st occ
       = inr (if num_ltb (Num d) (bestDiff st)
              then {| bestOccurrence := Some occ; bestDiff := Num d |}
              else st).
Proof.
  intros Hp. unfold RegisterZoom.match_step.
  rewrite (prop_not_null occ) by now apply parses_not_null.
  rewrite (readable_time occ) by now apply parses_readable.
  unfold parses, diff_of in *.
  destruct (occTime_of Date_parse occ) as [t|]; [|discriminate].
  cbn [isFinite negb abs_diff]. eexists; split; [reflexivity|].
  now destruct (num_ltb _ (bestDiff st)).
Qed.

(** A turn on a readable entry whose start time does not parse. *)
Lemma match_step_skipped (targetTime : timeval) (st : best) (occ : json) :
  readable Date_parse occ = true -> parses Date_parse occ = false ->
  RegisterZoom.match_step Date_parse targetTime st occ = inr st.
Proof.
  intros Hr Hp. unfold RegisterZoom.match_step.
  rewrite (prop_not_null occ) by now apply readable_not_null.
  rewrite (readable_time occ Hr). unfold parses in Hp.
  now destruct (occTime_of Date_parse occ).
Qed.

(** A turn on an entry that is not readable throws. *)
Lemma match_step_unreadable (targetTime : timeval) (st : best) (occ : json) :
  readable Date_parse occ = false ->
  exists e, RegisterZoom.match_step Date_parse targetTime st occ = inl e.
Proof.
  unfold readable, RegisterZoom.match_step.
  destruct occ; cbn [prop get_prop]; try (intros _; eexists; reflexivity);
    destruct (Date_getTime Date_parse _) as [e|t]; try discriminate;
    intros _; now exists e.
Qed.

Lemma closest_single (target : Z) (occ : json) (d : Z) :
  diff_of Date_parse (Some target) occ = Num d ->
  closest Date_parse target [occ] 0 occ d.
Proof.
  intros Hd. repeat split; [exact Hd|].
  intros j occ' Hj. destruct j as [|j]; simpl in Hj.
  - injection Hj as <-. exists d. repeat split; [exact Hd | lia | lia].
  - now destruct j.
Qed.

Lemma closest_keep (target : Z) (pre : list json) (i : nat) (o : json) (d : Z)
    (occ : json) (d_new : Z) :
  closest Date_parse target pre i o d ->
  diff_of Date_parse (Some target) occ = Num d_new ->
  d <= d_new ->
  closest Date_parse target (pre ++ [occ]) i o d.
Proof.
  intros (Hi & Hd & Hall) Hnew Hle.
  assert (Hlt : (i < List.length pre)%nat) by (apply nth_error_Some; congruence).
  repeat split.
  - now rewrite nth_error_app1.
  - exact Hd.
  - intros j occ' Hj. destruct (Nat.lt_ge_cases j (List.length pre)) as [Hjl|Hjl].
    + rewrite nth_error_app1 in Hj by assumption. now apply Hall.
    + rewrite nth_error_app2 in Hj by assumption.
      destruct (j - List.length pre)%nat as [|k] eqn:Hk; simpl in Hj.
      * injection Hj as <-. exists d_new. repeat split; [exact Hnew | lia | lia].
      * now destruct k.
Qed.

Lemma closest_take (target : Z) (pre : list json) (i : nat) (o : json) (d : Z)
    (occ : json) (d_new : Z) :
  closest Date_parse target pre i o d ->
  diff_of Date_parse (Some target) occ = Num d_new ->
  d_new < d ->
  closest Date_parse target (pre ++ [occ]) (List.length pre) occ d_new.
Proof.
  intros (Hi & Hd & Hall) Hnew Hlt.
  repeat split.
  - rewrite nth_error_app2 by lia. now rewrite Nat.sub_diag.
  - exact Hnew.
  - intros j occ' Hj. destruct (Nat.lt_ge_cases j (List.length pre)) as [Hjl|Hjl].
    + rewrite nth_error_app1 in Hj by assumption.
      destruct (Hall j occ' Hj) as (d' & Hd' & Hle & _).
      exists d'. repeat split; [exact Hd' | lia | lia].
    + rewrite nth_error_app2 in Hj by assumption.
      destruct (j - List.length pre)%nat as [|k] eqn:Hk; simpl in Hj.
      * injection Hj as <-. exists d_new. repeat split; [exact Hnew | lia | lia].
      * now destruct k.
Qed.

Lemma visited_step (target : Z) (pre : list json) (st : best) (occ : json) :
  parses Date_parse occ = true ->
  visited Date_parse target pre st ->
  exists st', RegisterZoom.match_step Date_parse (Some target) st occ = inr st'
              /\ visited Date_parse target (pre ++ [occ]) st'.
Proof.
  intros Hp Hv. destruct (match_step_parsed target st occ Hp) as (d_new & Hnew & Hstep).
  rewrite Hstep. eexists; split; [reflexivity|].
  destruct pre as [|p pre].
  - simpl in Hv. subst st. simpl.
    exists 0%nat, occ, d_new. split; [reflexivity | now apply closest_single].
  - destruct Hv as (i & o & d & -> & Hc).
    cbn [bestDiff num_ltb].
    change ((p :: pre) ++ [occ]) with (p :: (pre ++ [occ])). cbn [visited].
    change (p :: (pre ++ [occ])) with ((p :: pre) ++ [occ]).
    destruct (Z.ltb_spec d_new d) as [Hlt|Hge].
    + exists (List.length (p :: pre)), occ, d_new. split; [reflexivity|].
      eapply closest_take; eassumption.
    + exists i, o, d. split; [reflexivity|].
      eapply closest_keep; eassumption.
Qed.

Lemma visited_loop (target : Z) (l : list json) :
  Forall (fun occ => parses Date_parse occ = true) l ->
  forall (pre : list json) (st : best),
    visited Date_parse target pre st ->
    exists st', for_of (RegisterZoom.match_step Date_parse (Some target)) l st = inr st'
                /\ visited Date_parse target (pre ++ l) st'.
Proof.
  induction 1 as [|occ l Hocc _ IH]; intros pre st Hv.
  - exists st. rewrite app_nil_r. now split.
  - destruct (visited_step target pre st occ Hocc Hv) as (st1 & Hstep & Hv1).
    destruct (IH (pre ++ [occ]) st1 Hv1) as (st' & Hloop & Hv').
    exists st'. simpl. rewrite Hstep. split; [exact Hloop|].
    now rewrite <- app_assoc in Hv'.
Qed.

Lemma closest_unique (target : Z) (occs : list json) (i1 i2 : nat)
    (o1 o2 : json) (d1 d2 : Z) :
  closest Date_parse target occs i1 o1 d1 ->
  closest Date_parse target occs i2 o2 d2 ->
  i1 = i2 /\ o1 = o2 /\ d1 = d2.
Proof.
  intros (H1 & D1 & A1) (H2 & D2 & A2).
  destruct (A1 i2 o2 H2) as (d & Hd & Hle1 & Hlt1).
  destruct (A2 i1 o1 H1) as (d' & Hd' & Hle2 & Hlt2).
  assert (d = d2) by congruence. assert (d' = d1) by congruence. subst d d'.
  assert (i1 = i2) by (destruct (Nat.lt_trichotomy i1 i2) as [H|[H|H]]; [lia | exact H | lia]).
  subst i2. repeat split; [congruence | lia].
Qed.

(** C2: over a list whose start times all parse and a parsable target, the
    matching loop of either variant ends (it does not throw) with the first
    entry among those at the least [Math.abs(occTime - targetTime)]: no
    entry is closer and every earlier entry is strictly farther; the entry
    so described is unique, and nothing is selected from the empty list.
    The distance of an entry is the double the code computes, which is
    the exact |occTime - targetTime| whenever that is below 2^53 ms. *)
Theorem match_selects_first_closest (target : Z) (occs : list json) :
  Forall (fun occ => parses Date_parse occ = true) occs ->
  RegisterZoomStatic.match_occurrence Date_parse (Some target) occs
  = RegisterZoom.match_occurrence Date_parse (Some target) occs
  /\ (forall occ t, occTime_of Date_parse occ = Some t -> Z.abs (t - target) < 2 ^ 53 ->
      diff_of Date_parse (Some target) occ = Num (Z.abs (t - target)))
  /\ match occs with
     | [] => RegisterZoom.match_occurrence Date_parse (Some target) occs = inr best_init
     | _ =>
       exists i occ d,
         RegisterZoom.match_occurrence Date_parse (Some target) occs
         = inr {| bestOccurrence := Some occ; bestDiff := Num d |}
         /\ closest Date_parse target occs i occ d
         /\ forall i' occ' d', closest Date_parse target occs i' occ' d' ->
                               i' = i /\ occ' = occ /\ d' = d
     end.
Proof.
  intros Hall. split; [symmetry; apply match_occurrence_agree|].
  split; [intros occ t Ht Hlt; unfold diff_of; rewrite Ht; now apply abs_diff_exact|].
  destruct (visited_loop target occs Hall [] best_init eq_refl) as (st & Hloop & Hv).
  simpl in Hv. unfold RegisterZoom.match_occurrence.
  destruct occs as [|o occs]; [rewrite Hloop; now rewrite Hv|].
  destruct Hv as (i & occ & d & -> & Hc).
  exists i, occ, d. split; [now rewrite Hloop|]. split; [exact Hc|].
  intros i' occ' d' Hc'. exact (closest_unique _ _ _ _ _ _ _ _ Hc' Hc).
Qed.

Lemma match_step_cases (targetTime : timeval) (st : best) (occ : json) :
  readable Date_parse occ = true ->
  RegisterZoom.match_step Date_parse targetTime st occ = inr st
  \/ (parses Date_parse occ = true
      /\ RegisterZoom.match_step Date_parse targetTime st occ
         = inr {| bestOccurrence := Some occ;
                  bestDiff := diff_of Date_parse targetTime occ |}).
Proof.
  intros Hr. unfold RegisterZoom.match_step, parses, diff_of.
  rewrite (prop_not_null occ) by now apply readable_not_null.
  rewrite (readable_time occ Hr).
  destruct (occTime_of Date_parse occ) as [t|]; [|now left].
  cbn [isFinite negb]. destruct (num_ltb _ (bestDiff st)); [right | left]; now split.
Qed.

Lemma match_loop_filter (targetTime : timeval) (l : list json) :
  Forall (fun occ => readable Date_parse occ = true) l ->
  forall st : best,
    for_of (RegisterZoom.match_step Date_parse targetTime) l st
    = for_of (RegisterZoom.match_step Date_parse targetTime) (filter (parses Date_parse) l) st.
Proof.
  induction 1 as [|occ l Hocc _ IH]; intros st; [reflexivity|].
  cbn [filter]. destruct (parses Date_parse occ) eqn:Hp.
  - cbn [for_of]. destruct (RegisterZoom.match_step _ _ st occ); [reflexivity | apply IH].
  - cbn [for_of]. rewrite match_step_skipped by assumption. apply IH.
Qed.

Lemma match_loop_picks (targetTime : timeval) (all l : list json) :
  (forall occ, In occ l -> In occ all /\ readable Date_parse occ = true) ->
  forall st : best,
    (bestOccurrence st = Some JNull
     \/ exists occ, bestOccurrence st = Some occ /\ In occ all
                    /\ parses Date_parse occ = true) ->
    exists st',
      for_of (RegisterZoom.match_step Date_parse targetTime) l st = inr st'
      /\ (bestOccurrence st' = Some JNull
          \/ exists occ, bestOccurrence st' = Some occ /\ In occ all
                         /\ parses Date_parse occ = true).
Proof.
  induction l as [|occ l IH]; intros Hl st Hst; [now exists st|].
  destruct (Hl occ (or_introl eq_refl)) as [Hin Hn].
  assert (Hl' : forall o, In o l -> In o all /\ readable Date_parse o = true)
    by (intros o Ho; apply Hl; now right).
  cbn [for_of].
  destruct (match_step_cases targetTime st occ Hn) as [Hs|[Hp Hs]]; rewrite Hs.
  - now apply IH.
  - apply IH; [exact Hl'|]. right. exists occ. now repeat split.
Qed.

(** The loop on the readable entries of a list: it ends, as it does on
    the list without the entries that do not parse, on an entry that
    parses if on any. *)
Lemma match_loop_readable (targetTime : timeval) (occs : list json) :
  Forall (fun occ => readable Date_parse occ = true) occs ->
  exists st : best,
    RegisterZoom.match_occurrence Date_parse targetTime occs = inr st
    /\ RegisterZoomStatic.match_occurrence Date_parse targetTime occs = inr st
    /\ RegisterZoom.match_occurrence Date_parse targetTime (filter (parses Date_parse) occs)
       = inr st
    /\ RegisterZoomStatic.match_occurrence Date_parse targetTime
         (filter (parses Date_parse) occs) = inr st
    /\ (bestOccurrence st = Some JNull
        \/ exists occ, bestOccurrence st = Some occ /\ In occ occs
                       /\ parses Date_parse occ = true).
Proof.
  intros Hall.
  destruct (match_loop_picks targetTime occs occs) with (st := best_init)
    as (st & Hloop & Hst).
  - intros occ Hin. split; [exact Hin|]. rewrite Forall_forall in Hall. now apply Hall.
  - now left.
  - exists st. rewrite <- !match_occurrence_agree. unfold RegisterZoom.match_occurrence.
    rewrite <- match_loop_filter by assumption. now repeat split.
Qed.

(** The loop on a list that holds an entry that is not readable throws,
    at that entry or before. *)
Lemma match_loop_unreadable (targetTime : timeval) (l : list json) :
  Exists (fun occ => readable Date_parse occ = false) l ->
  forall st : best,
    exists e, for_of (RegisterZoom.match_step Date_parse targetTime) l st = inl e.
Proof.
  induction 1 as [occ l Hocc|occ l _ IH]; intros st; cbn [for_of].
  - destruct (match_step_unreadable targetTime st occ Hocc) as [e He].
    exists e. now rewrite He.
  - destruct (RegisterZoom.match_step Date_parse targetTime st occ) as [e|st1];
      [now exists e | apply IH].
Qed.

(** Against a target that is [NaN] no entry is ever taken. *)
Lemma match_nan_target (l : list json) :
  Forall (fun occ => readable Date_parse occ = true) l ->
  forall st : best,
    for_of (RegisterZoomStatic.match_step Date_parse None) l st = inr st.
Proof.
  induction 1 as [|occ l Hocc _ IH]; intros st; [reflexivity|].
  cbn [for_of]. unfold RegisterZoomStatic.match_step at 1.
  rewrite (prop_not_null occ) by now apply readable_not_null.
  rewrite (readable_time occ Hocc).
  replace (abs_diff _ None) with NaN by now destruct (occTime_of Date_parse occ).
  apply IH.
Qed.

End MatchingLoop.

(** ** Runs of the handlers *)

Section Runs.

Context {A : Type} (good : Z -> list (string * val) -> Prop).

Lemma sends_app (t1 t2 : list event) : sends (t1 ++ t2) = sends t1 ++ sends t2.
Proof. apply filter_app. Qed.

Lemma run_ok_ret (T : Prop) (a : A) : run_ok good True T (ret a).
Proof. now split. Qed.

Lemma run_ok_throw (V : Prop) (e : exn) : run_ok (A := A) good V True (throw e).
Proof. now split. Qed.

Lemma run_ok_lift (c : E A) : run_ok good True True (lift c).
Proof. destruct c; now split. Qed.

Lemma run_ok_return_json (V T : Prop) (code : Z) (props : list (string * val)) :
  good code props -> run_ok (A := A) good V T (return_json code props).
Proof. intros H. exists [], code, props. now repeat split. Qed.

Lemma run_ok_try_catch (V T : Prop) (m : M A) (h : exn -> M A) :
  run_ok good V True m -> (forall e, run_ok good V T (h e)) ->
  run_ok good V T (try_catch m h).
Proof.
  unfold run_ok, try_catch. destruct m as [tr r]. cbn [fst snd]. intros Hm Hh.
  destruct r as [a| |e]; cbn [fst snd]; try assumption.
  destruct Hm as [Hm _]. specialize (Hh e).
  destruct (snd (h e)) as [a| |e'].
  - rewrite sends_app, Hm. exact Hh.
  - destruct Hh as (pre & code & props & Hf & Hp & Hg).
    exists (tr ++ pre), code, props. rewrite Hf, app_assoc, sends_app, Hm, Hp.
    now repeat split.
  - rewrite sends_app, Hm. exact Hh.
Qed.

End Runs.

Lemma run_ok_bind {A B} (good : Z -> list (string * val) -> Prop) (V T : Prop)
    (m : M A) (k : A -> M B) :
  run_ok good True T m -> (forall a, run_ok good V T (k a)) ->
  run_ok good V T (bind m k).
Proof.
  unfold run_ok, bind. destruct m as [tr r]. cbn [fst snd]. intros Hm Hk.
  destruct r as [a| |e]; cbn [fst snd]; try assumption.
  destruct Hm as [Hm _]. specialize (Hk a).
  destruct (snd (k a)) as [b| |e].
  - rewrite sends_app, Hm. exact Hk.
  - destruct Hk as (pre & code & props & Hf & Hp & Hg).
    exists (tr ++ pre), code, props. rewrite Hf, app_assoc, sends_app, Hm, Hp.
    now repeat split.
  - rewrite sends_app, Hm. exact Hk.
Qed.

Lemma run_ok_console_error (good : Z -> list (string * val) -> Prop) (T : Prop)
    (label : string) :
  run_ok good True T (console_error label).
Proof. now split. Qed.

Lemma run_ok_do_fetch (good : Z -> list (string * val) -> Prop)
    (fetch : http_request -> E response) (rq : http_request) :
  run_ok good True True (do_fetch fetch rq).
Proof. unfold run_ok, do_fetch. destruct (fetch rq); now split. Qed.

Lemma run_ok_end {A} (good : Z -> list (string * val) -> Prop) (m : M A) :
  run_ok good False False m ->
  exists pre code props,
    m = (pre ++ [ESend code (BJson props)], Returned)
    /\ sends pre = [] /\ good code props.
Proof.
  unfold run_ok. destruct m as [tr [a| |e]]; cbn [fst snd]; try tauto.
  intros (pre & code & props & -> & Hp & Hg). now exists pre, code, props.
Qed.

(** One step of a run. *)
Ltac run_step :=
  cbv zeta;
  match goal with
  | |- run_ok _ _ _ (if ?b then _ else _) => destruct b
  | |- run_ok _ _ _ (bind _ _) => apply run_ok_bind; [|intro]
  | |- run_ok _ _ _ (lift _) => apply run_ok_lift
  | |- run_ok _ _ _ (ret _) => apply run_ok_ret
  | |- run_ok _ _ _ (throw _) => apply run_ok_throw
  | |- run_ok _ _ _ (console_error _) => apply run_ok_console_error
  | |- run_ok _ _ _ (do_fetch _ _) => apply run_ok_do_fetch
  | |- run_ok _ _ _ (return_json _ _) =>
    apply run_ok_return_json; unfold zoom_response, failure, missing_fields; cbn; tauto
  end.

Lemma oauth_token_run (good : Z -> list (string * val) -> Prop)
    (fetch : http_request -> E response) (a b c : string) :
  run_ok good True True (RegisterZoom.getZoomAccessToken fetch a b c).
Proof. unfold RegisterZoom.getZoomAccessToken. repeat run_step. Qed.

Lemma handler_catch_run (keys : list string) (e : exn) :
  run_ok (zoom_response keys) False False (handler_catch e).
Proof. unfold handler_catch. repeat run_step. Qed.

Lemma oauth_handler_run (Date_parse : string -> option Z)
    (fetch : http_request -> E response) (env : environment) (req : request) :
  run_ok (zoom_response (success_keys ++ ["matched_start_time"])) False False
    (RegisterZoom.handler Date_parse fetch env req).
Proof.
  unfold RegisterZoom.handler. destruct (negb _); [run_step|].
  apply run_ok_try_catch; [|apply handler_catch_run].
  unfold RegisterZoom.handler_try. apply run_ok_bind; [|intro c].
  - unfold RegisterZoom.handler_prepare.
    repeat first [apply oauth_token_run | run_step].
  - unfold RegisterZoom.handler_register. repeat run_step.
Qed.

Lemma static_handler_run (Date_parse : string -> option Z)
    (fetch : http_request -> E response) (env : environment) (req : request) :
  run_ok (zoom_response success_keys) False False
    (RegisterZoomStatic.handler Date_parse fetch env req).
Proof.
  unfold RegisterZoomStatic.handler. destruct (negb _); [run_step|].
  apply run_ok_try_catch; [|apply handler_catch_run].
  unfold RegisterZoomStatic.handler_try. apply run_ok_bind; [|intro c].
  - unfold RegisterZoomStatic.handler_prepare. repeat run_step.
  - unfold RegisterZoomStatic.handler_register. repeat run_step.
Qed.

(** ** Steps of a run *)

Lemma bind_val_inv {A B} (m : M A) (k : A -> M B) (tr : list event) (b : B) :
  bind m k = (tr, Val b) ->
  exists t1 a t2, m = (t1, Val a) /\ k a = (t2, Val b) /\ tr = t1 ++ t2.
Proof.
  unfold bind. destruct m as [t1 [a| |e]]; cbn [fst snd]; try discriminate.
  intros H. exists t1, a, (fst (k a)). injection H as <- H.
  repeat split. now destruct (k a) as [t2 r]; cbn in *; subst r.
Qed.

Lemma lift_val_inv {A} (c : E A) (tr : list event) (a : A) :
  lift c = (tr, Val a) -> c = inr a /\ tr = [].
Proof. destruct c; cbn; intros H; [discriminate|]. now injection H as <- <-. Qed.

Lemma ret_val_inv {A} (x : A) (tr : list event) (a : A) :
  ret x = (tr, Val a) -> x = a /\ tr = [].
Proof. cbn; intros H. now injection H as <- <-. Qed.

Lemma do_fetch_val_inv (fetch : http_request -> E response) (rq : http_request)
    (tr : list event) (r : response) :
  do_fetch fetch rq = (tr, Val r) -> fetch rq = inr r /\ tr = [EFetch rq].
Proof.
  unfold do_fetch. destruct (fetch rq); intros H; [discriminate|].
  now injection H as <- <-.
Qed.

(** Inversion of a run that ends with a value. *)
Ltac inv_val H :=
  cbv zeta in H;
  lazymatch type of H with
  | bind _ _ = (_, Val _) =>
    let H1 := fresh "Hm" in
    let H2 := fresh "Hk" in
    apply bind_val_inv in H; destruct H as (? & ? & ? & H1 & H2 & ->);
    inv_val H1; inv_val H2
  | (if ?b then _ else _) = (_, Val _) => destruct b eqn:?; inv_val H
  | lift _ = (_, Val _) => apply lift_val_inv in H; destruct H as [H ->]
  | ret _ = (_, Val _) => apply ret_val_inv in H; destruct H as [H ->]
  | do_fetch _ _ = (_, Val _) => apply do_fetch_val_inv in H; destruct H as [H ->]
  | return_json _ _ = (_, Val _) => discriminate H
  | throw _ = (_, Val _) => discriminate H
  | _ => idtac
  end.

Lemma try_catch_returned {A} (tr : list event) (h : exn -> M A) :
  try_catch (tr, Returned) h = (tr, Returned).
Proof. reflexivity. Qed.

Lemma try_catch_prefix {A} (m : M A) (h : exn -> M A) :
  exists rest, fst (try_catch m h) = fst m ++ rest.
Proof.
  unfold try_catch. destruct m as [tr [a| |e]]; cbn [fst snd].
  - exists []. now rewrite app_nil_r.
  - exists []. now rewrite app_nil_r.
  - now exists (fst (h e)).
Qed.

Lemma bind_prefix {A B} (m : M A) (k : A -> M B) :
  exists rest, fst (bind m k) = fst m ++ rest.
Proof.
  unfold bind. destruct m as [tr [a| |e]]; cbn [fst snd].
  - now exists (fst (k a)).
  - exists []. now rewrite app_nil_r.
  - exists []. now rewrite app_nil_r.
Qed.

Lemma bind_lift {A B} (a : A) (k : A -> M B) : bind (lift (inr a)) k = k a.
Proof. unfold bind, lift. cbn [fst snd app]. now destruct (k a). Qed.

Lemma bind_ret {A B} (a : A) (k : A -> M B) : bind (ret a) k = k a.
Proof. unfold bind, ret. cbn [fst snd app]. now destruct (k a). Qed.

Lemma bind_lift_thrown {A B} (e : exn) (k : A -> M B) :
  bind (lift (inl e)) k = ([], Thrown e).
Proof. reflexivity. Qed.

Lemma bind_thrown {A B} (tr : list event) (e : exn) (k : A -> M B) :
  bind (tr, Thrown e) k = (tr, Thrown e).
Proof. reflexivity. Qed.

Lemma bind_returned {A B} (tr : list event) (k : A -> M B) :
  bind (tr, Returned) k = (tr, Returned).
Proof. reflexivity. Qed.

Lemma bind_fetch_first {B} (fetch : http_request -> E response) (rq : http_request)
    (k : response -> M B) :
  exists rest, fst (bind (do_fetch fetch rq) k) = EFetch rq :: rest.
Proof.
  unfold bind, do_fetch. destruct (fetch rq); cbn [fst snd app]; eexists; reflexivity.
Qed.

Lemma bind_fetch_ok {B} (fetch : http_request -> E response) (rq : http_request)
    (r : response) (k : response -> M B) :
  fetch rq = inr r ->
  bind (do_fetch fetch rq) k = (EFetch rq :: fst (k r), snd (k r)).
Proof. intros H. unfold bind, do_fetch. now rewrite H. Qed.

Lemma bind_fetch_thrown {B} (fetch : http_request -> E response) (rq : http_request)
    (e : exn) (k : response -> M B) :
  fetch rq = inl e -> bind (do_fetch fetch rq) k = ([EFetch rq], Thrown e).
Proof. intros H. unfold bind, do_fetch. now rewrite H. Qed.

Lemma if_ret_lift {A} (b : bool) (x y : A) :
  (if b then ret x else lift (inr y)) = ret (if b then x else y).
Proof. now destruct b. Qed.

(** ** Reading properties, conversions *)

Lemma json_eq_null (j : json) : j = JNull \/ j <> JNull.
Proof. destruct j; [now left | right; discriminate ..]. Qed.

Lemma get_prop_some_not_null (j : json) (k : string) (v : json) :
  get_prop j k = Some v -> j <> JNull.
Proof. intros H ->. discriminate. Qed.


Lemma prop_val_prop (v : val) (k : string) :
  truthy v = true -> prop v k = inr (val_prop v k).
Proof. destruct v as [[]|]; try discriminate; reflexivity. Qed.

Lemma if_truthy_prop (v : val) (k : string) (d : val) :
  (if truthy v then lift (prop v k) else ret d)
  = ret (if truthy v then val_prop v k else d).
Proof. destruct (truthy v) eqn:Hv; [now rewrite prop_val_prop|reflexivity]. Qed.

Lemma destructure_not_null (b : json) : b <> JNull -> destructure (Some b) = inr b.
Proof. destruct b; intros H; [contradiction | reflexivity ..]. Qed.

Lemma destructure_body (req : request) :
  exists b, destructure (js_or (req_body req) (Some (JObj []))) = inr b.
Proof.
  unfold js_or, destructure.
  destruct (req_body req) as [[|[]|n|s|l|f]|]; cbn; try (eexists; reflexivity).
  - destruct (n =? 0); cbn; eexists; reflexivity.
  - destruct (String.eqb s ""); cbn; eexists; reflexivity.
Qed.

Lemma field_of_destructure (req : request) (b : json) (k : string) :
  destructure (js_or (req_body req) (Some (JObj []))) = inr b -> get_prop b k = field_of req k.
Proof.
  unfold field_of, js_or, destructure.
  destruct (req_body req) as [[|[]|n|s|l|f]|]; cbn; try discriminate;
    try (intros H; injection H as <-; reflexivity).
  - destruct (n =? 0); cbn; intros H; injection H as <-; reflexivity.
  - destruct (String.eqb s ""); cbn; intros H; injection H as <-; reflexivity.
Qed.

Lemma field_truthy_body (req : request) (k : string) :
  truthy (field_of req k) = true ->
  exists b, req_body req = Some b /\ b <> JNull /\ destructure (req_body req) = inr b.
Proof.
  unfold field_of. destruct (req_body req) as [b|]; [|discriminate].
  intros H. exists b. destruct b; try discriminate; now repeat split.
Qed.

Lemma bearer_inv (v : val) (a : string) :
  bearer v = inr a -> exists s, val_to_string v = inr s /\ a = "Bearer " +++ s.
Proof.
  unfold bearer. destruct (val_to_string v) as [e|s]; [discriminate|].
  intros H. injection H as <-. now exists s.
Qed.

Lemma bearer_text (v : val) (s : string) :
  val_to_string v = inr s -> bearer v = inr ("Bearer " +++ s).
Proof. intros H. unfold bearer. now rewrite H. Qed.

(** A configuration value that is set converts to itself. *)
Lemma env_text_truthy (v : option string) :
  truthy (env_val v) = true -> val_to_string (env_val v) = inr (env_text v).
Proof. destruct v; [reflexivity | discriminate]. Qed.

Lemma bearer_env (v : option string) :
  truthy (env_val v) = true -> bearer (env_val v) = inr ("Bearer " +++ env_text v).
Proof. intros H. apply bearer_text. now apply env_text_truthy. Qed.

Lemma not_post (m : string) : m <> "POST" -> negb (String.eqb m "POST") = true.
Proof. intros H. now destruct (String.eqb_spec m "POST"). Qed.

(** ** The handlers up to the fetched meeting *)

Lemma oauth_token_inv (fetch : http_request -> E response) (a b c : string)
    (tr : list event) (v : val) :
  RegisterZoom.getZoomAccessToken fetch a b c = (tr, Val v) ->
  tr = [EFetch (RegisterZoom.token_request a b c)]
  /\ exists r data,
       fetch (RegisterZoom.token_request a b c) = inr r /\ ok r = true
       /\ json_body r = inr data
       /\ prop (Some data) "access_token" = inr v /\ truthy v = true.
Proof.
  unfold RegisterZoom.getZoomAccessToken. intros H. inv_val H.
  subst. split; [reflexivity|].
  eexists _, _. repeat split; try eassumption.
  - now destruct (ok _).
  - now destruct (truthy _).
Qed.

Lemma oauth_token_trace (fetch : http_request -> E response) (a b c : string) :
  fst (RegisterZoom.getZoomAccessToken fetch a b c) = [EFetch (RegisterZoom.token_request a b c)]
  /\ snd (RegisterZoom.getZoomAccessToken fetch a b c) <> Returned.
Proof.
  destruct (fetch (RegisterZoom.token_request a b c)) as [e|r] eqn:Hf;
    unfold RegisterZoom.getZoomAccessToken.
  - unfold bind, do_fetch. rewrite Hf. split; [reflexivity | discriminate].
  - rewrite (bind_fetch_ok _ _ _ _ Hf). cbn [fst snd]. destruct (ok r); cbn [negb].
    + destruct (json_body r) as [e|data]; [split; [reflexivity | discriminate]|].
      rewrite bind_lift.
      destruct (prop (Some data) "access_token") as [e|v];
        [split; [reflexivity | discriminate]|].
      rewrite bind_lift. destruct (truthy v); split; (reflexivity || discriminate).
    + destruct (text r) as [e|t]; [split; [reflexivity | discriminate]|].
      rewrite bind_lift. split; [reflexivity | discriminate].
Qed.

(** What the OAuth handler holds and has done once the meeting is
    fetched. *)
Lemma oauth_prepare_inv (fetch : http_request -> E response) (env : environment)
    (req : request) (tr : list event) (c : locals) :
  RegisterZoom.handler_prepare fetch env req = (tr, Val c) ->
  email c = field_of req "email"
  /\ role c = field_of req "role"
  /\ sessionTimeSelected c = field_of req "sessionTimeSelected"
  /\ MEETING_ID c = ZOOM_MEETING_ID env
  /\ truthy (email c) = true
  /\ truthy (sessionTimeSelected c) = true
  /\ (exists name,
         val_to_string (field_of req "fullName") = inr name
         /\ first_name c = first_name_of name /\ last_name c = last_name_of name)
  /\ exists auth,
       bearer (TOKEN c) = inr auth
       /\ tr = [EFetch (RegisterZoom.token_request
                          (env_text (ZOOM_ACCOUNT_ID env))
                          (env_text (ZOOM_CLIENT_ID env))
                          (env_text (ZOOM_CLIENT_SECRET env)));
                EFetch (meeting_request (RegisterZoom.meeting_url (MEETING_ID c)) auth)].
Proof.
  unfold RegisterZoom.handler_prepare. intros H. inv_val H.
  apply oauth_token_inv in Hm1. destruct Hm1 as [-> _].
  subst c. cbn [email role sessionTimeSelected first_name last_name MEETING_ID TOKEN].
  rewrite !(field_of_destructure req _ _ Hm) in *.
  apply orb_false_elim in Heqb. destruct Heqb as [Hb Hs].
  apply orb_false_elim in Hb. destruct Hb as [_ He].
  repeat split.
  - now destruct (truthy (field_of req "email")).
  - now destruct (truthy (field_of req "sessionTimeSelected")).
  - eexists. repeat split. exact Hm0.
  - eexists. split; [eassumption | reflexivity].
Qed.

(** The same for the static-token handler. *)
Lemma static_prepare_inv (fetch : http_request -> E response) (env : environment)
    (req : request) (tr : list event) (c : locals) :
  RegisterZoomStatic.handler_prepare fetch env req = (tr, Val c) ->
  email c = field_of req "email"
  /\ role c = field_of req "role"
  /\ sessionTimeSelected c = field_of req "sessionTimeSelected"
  /\ MEETING_ID c = ZOOM_MEETING_ID env
  /\ TOKEN c = env_val (ZOOM_ACCESS_TOKEN env)
  /\ truthy (email c) = true
  /\ truthy (sessionTimeSelected c) = true
  /\ (exists name,
         field_of req "fullName" = Some (JStr name)
         /\ first_name c = first_name_of name /\ last_name c = last_name_of name)
  /\ bearer (TOKEN c) = inr ("Bearer " +++ env_text (ZOOM_ACCESS_TOKEN env))
  /\ tr = [EFetch (meeting_request (RegisterZoomStatic.meeting_url (MEETING_ID c))
                     ("Bearer " +++ env_text (ZOOM_ACCESS_TOKEN env)))].
Proof.
  unfold RegisterZoomStatic.handler_prepare. intros H. inv_val H.
  subst c. cbn [email role sessionTimeSelected first_name last_name MEETING_ID TOKEN].
  assert (Hbody : req_body req = Some x0).
  { revert Hm. destruct (req_body req) as [[]|]; cbn; intros Hm; try discriminate Hm;
      now injection Hm as <-. }
  unfold field_of. rewrite Hbody.
  apply orb_false_elim in Heqb. destruct Heqb as [Hb Hs].
  apply orb_false_elim in Hb. destruct Hb as [_ He].
  apply orb_false_elim in Heqb0. destruct Heqb0 as [_ Ht].
  assert (Htok : truthy (env_val (ZOOM_ACCESS_TOKEN env)) = true)
    by (now destruct (truthy (env_val (ZOOM_ACCESS_TOKEN env)))).
  rewrite (bearer_env _ Htok) in Hm1. injection Hm1 as <-.
  repeat split.
  - now destruct (truthy (get_prop x0 "email")).
  - now destruct (truthy (get_prop x0 "sessionTimeSelected")).
  - destruct (get_prop x0 "fullName") as [[| | |s| |]|]; try discriminate Hm0.
    exists s. injection Hm0 as <-. now repeat split.
  - now apply bearer_env.
Qed.

Lemma oauth_handler_after (Date_parse : string -> option Z)
    (fetch : http_request -> E response) (env : environment) (req : request)
    (tr : list event) (c : locals) :
  req_method req = "POST" ->
  RegisterZoom.handler_prepare fetch env req = (tr, Val c) ->
  RegisterZoom.handler Date_parse fetch env req
  = try_catch (tr ++ fst (RegisterZoom.handler_register Date_parse fetch c),
               snd (RegisterZoom.handler_register Date_parse fetch c)) handler_catch.
Proof.
  intros Hpost Hprep. unfold RegisterZoom.handler, RegisterZoom.handler_try.
  now rewrite Hpost, Hprep.
Qed.

Lemma static_handler_after (Date_parse : string -> option Z)
    (fetch : http_request -> E response) (env : environment) (req : request)
    (tr : list event) (c : locals) :
  req_method req = "POST" ->
  RegisterZoomStatic.handler_prepare fetch env req = (tr, Val c) ->
  RegisterZoomStatic.handler Date_parse fetch env req
  = try_catch (tr ++ fst (RegisterZoomStatic.handler_register Date_parse fetch c),
               snd (RegisterZoomStatic.handler_register Date_parse fetch c)) handler_catch.
Proof.
  intros Hpost Hprep. unfold RegisterZoomStatic.handler, RegisterZoomStatic.handler_try.
  now rewrite Hpost, Hprep.
Qed.

Lemma catch_message (e : exn) :
  js_or (str (message e)) (str "Internal server error")
  = str (if String.eqb (message e) "" then "Internal server error" else message e).
Proof. unfold js_or, str, truthy. now destruct (String.eqb (message e) ""). Qed.

(** A throw inside the [try] block ends in the catch block. *)
Lemma try_catch_thrown (tr : list event) (e : exn) :
  try_catch (tr, Thrown e) handler_catch
  = (tr ++ [EConsoleError "register-zoom error:";
            ESend 500 (BJson [("success", boolean false);
                              ("error", str (if String.eqb (message e) ""
                                             then "Internal server error"
                                             else message e))])],
     Returned).
Proof.
  unfold try_catch, handler_catch. cbn [fst snd]. unfold bind, console_error, emit, return_json.
  cbn [fst snd app]. now rewrite catch_message.
Qed.

Lemma handler_prefix (tr : list event) (R : M unit) (ev : event) (rest : list event) :
  fst R = ev :: rest ->
  exists rest', fst (try_catch (tr ++ fst R, snd R) handler_catch) = tr ++ ev :: rest'.
Proof.
  intros HR. destruct (try_catch_prefix (tr ++ fst R, snd R) handler_catch) as [r Hr].
  exists (rest ++ r). rewrite Hr. cbn [fst]. now rewrite HR, <- app_assoc.
Qed.

(** ** The shape of a run *)

Lemma quiet_bind {A B} (m : M A) (k : A -> M B) :
  Forall quiet (fst m) -> (forall a, Forall quiet (fst (k a))) ->
  Forall quiet (fst (bind m k)).
Proof.
  unfold bind. intros Hm Hk. destruct m as [tr [a| |e]]; cbn [fst snd] in *; try assumption.
  apply Forall_app. split; [exact Hm | apply Hk].
Qed.

Lemma quiet_lift {A} (c : E A) : Forall quiet (fst (lift c)).
Proof. destruct c; constructor. Qed.

Lemma quiet_do_fetch (fetch : http_request -> E response) (rq : http_request) :
  rq_body rq = None -> Forall quiet (fst (do_fetch fetch rq)).
Proof. intros H. unfold do_fetch. destruct (fetch rq); repeat constructor; exact H. Qed.

Lemma quiet_return_json {A} (code : Z) (props : list (string * val)) :
  code <> 200 -> Forall quiet (fst (return_json (A := A) code props)).
Proof. intros H. repeat constructor. exact H. Qed.

(** The quietness of a run, statement by statement. *)
Ltac quiet_run :=
  cbv beta zeta;
  lazymatch goal with
  | |- Forall quiet (fst (bind _ _)) => apply quiet_bind; [quiet_run | intro; quiet_run]
  | |- Forall quiet (fst (if ?b then _ else _)) => destruct b; quiet_run
  | |- Forall quiet (fst (lift _)) => apply quiet_lift
  | |- Forall quiet (fst (ret _)) => constructor
  | |- Forall quiet (fst (throw _)) => constructor
  | |- Forall quiet (fst (console_error _)) => repeat constructor
  | |- Forall quiet (fst (do_fetch _ _)) => apply quiet_do_fetch; reflexivity
  | |- Forall quiet (fst (return_json _ _)) => apply quiet_return_json; discriminate
  end.

Lemma oauth_prepare_quiet (fetch : http_request -> E response) (env : environment)
    (req : request) :
  Forall quiet (fst (RegisterZoom.handler_prepare fetch env req)).
Proof.
  unfold RegisterZoom.handler_prepare, RegisterZoom.getZoomAccessToken. quiet_run.
Qed.

Lemma static_prepare_quiet (fetch : http_request -> E response) (env : environment)
    (req : request) :
  Forall quiet (fst (RegisterZoomStatic.handler_prepare fetch env req)).
Proof. unfold RegisterZoomStatic.handler_prepare. quiet_run. Qed.

(** "Step 3" from the registration call on, for the statements [K] that
    follow the call. *)
Lemma register_outcome_intro (fetch : http_request -> E response) (rq : http_request)
    (props_of : json -> list (string * val)) (K : response -> M unit) :
  (forall r errText, ok r = false -> text r = inr errText ->
     K r = ([EConsoleError "Zoom registration failed:";
             ESend 500 (BJson (failure "Zoom registration failed"))], Returned)) ->
  (forall r e, ok r = false -> text r = inl e -> K r = ([], Thrown e)) ->
  (forall r regData, ok r = true -> json_body r = inr regData -> regData <> JNull ->
     K r = ([ESend 200 (BJson (props_of regData))], Returned)) ->
  (forall r e, ok r = true -> json_body r = inl e -> K r = ([], Thrown e)) ->
  (forall r, ok r = true -> json_body r = inr JNull ->
     K r = ([], Thrown (TypeError "Cannot read properties of null (reading 'join_url')"))) ->
  register_outcome fetch rq props_of (bind (do_fetch fetch rq) K).
Proof.
  intros Hfail Htext Hdone Hjson Hnull. unfold register_outcome, registration_throws.
  destruct (fetch rq) as [e|r] eqn:Hf.
  - right. right. exists e. rewrite (bind_fetch_thrown _ _ _ _ Hf). split; [reflexivity|].
    now left.
  - rewrite (bind_fetch_ok _ _ _ _ Hf). destruct (ok r) eqn:Hok.
    + destruct (json_body r) as [e|regData] eqn:Hj.
      * right. right. exists e. rewrite (Hjson r e Hok Hj). split; [reflexivity|].
        right. exists r. split; [reflexivity|]. right. split; [exact Hok|]. now left.
      * destruct (json_eq_null regData) as [-> | Hn].
        -- right. right. eexists. rewrite (Hnull r Hok Hj). split; [reflexivity|].
           right. exists r. split; [reflexivity|]. right. split; [exact Hok|]. right.
           now split.
        -- left. exists r, regData. rewrite (Hdone r regData Hok Hj Hn). now repeat split.
    + destruct (text r) as [e|errText] eqn:Ht.
      * right. right. exists e. rewrite (Htext r e Hok Ht). split; [reflexivity|].
        right. exists r. split; [reflexivity|]. left. now split.
      * right. left. exists r, errText. rewrite (Hfail r errText Hok Ht). now repeat split.
Qed.

(** The URL of the registration call, as "Step 3" builds it. *)
Lemma oauth_regUrl_run (c : locals) (st : best) :
  (if truthy (bestOccurrence st)
      && truthy (if truthy (bestOccurrence st)
                 then val_prop (bestOccurrence st) "occurrence_id" else undefined)
   then
     id <- lift (val_to_string (if truthy (bestOccurrence st)
                                then val_prop (bestOccurrence st) "occurrence_id"
                                else undefined)) ;;
     ret (RegisterZoom.registrants_url (MEETING_ID c) +++ "?occurrence_ids="
          +++ encodeURIComponent id)
   else ret (RegisterZoom.registrants_url (MEETING_ID c)))
  = lift (oauth_regUrl c st).
Proof.
  unfold oauth_regUrl. destruct (truthy (bestOccurrence st)); [|reflexivity].
  cbn [andb]. destruct (truthy (val_prop (bestOccurrence st) "occurrence_id")); [|reflexivity].
  now destruct (val_to_string (val_prop (bestOccurrence st) "occurrence_id")).
Qed.

Lemma static_regUrl_run (c : locals) (st : best) :
  (if truthy (bestOccurrence st) then
     best_id <- lift (prop (bestOccurrence st) "occurrence_id") ;;
     id <- lift (val_to_string best_id) ;;
     ret (RegisterZoomStatic.registrants_url (MEETING_ID c) +++ "?occurrence_ids=" +++ id)
   else ret (RegisterZoomStatic.registrants_url (MEETING_ID c)))
  = lift (static_regUrl c st).
Proof.
  unfold static_regUrl. destruct (truthy (bestOccurrence st)) eqn:Hsel; [|reflexivity].
  rewrite (prop_val_prop _ _ Hsel), bind_lift.
  now destruct (val_to_string (val_prop (bestOccurrence st) "occurrence_id")).
Qed.

(** A thrown conversion of the registration URL or of the token ends
    "Step 3" before the call. *)
Lemma register_outcome_first (fetch : http_request -> E response) (rq : http_request)
    (props_of : json -> list (string * val)) (run : M unit) :
  register_outcome fetch rq props_of run -> exists rest, fst run = EFetch rq :: rest.
Proof.
  intros [(r & regData & _ & _ & _ & _ & ->)|[(r & t & _ & _ & _ & ->)|(e & -> & _)]];
    eexists; reflexivity.
Qed.

(** The statements after the registration call. *)
Ltac after_call :=
  apply register_outcome_intro;
  [ intros r errText Hok Htext; rewrite Hok; cbn [negb]; now rewrite Htext, bind_lift
  | intros r e Hok Htext; rewrite Hok; cbn [negb]; now rewrite Htext
  | intros r regData Hok Hj Hn; rewrite Hok; cbn [negb];
    rewrite Hj, bind_lift, !(prop_not_null _ _ Hn), !bind_lift, if_ret_lift,
      ?if_truthy_prop, !bind_ret; reflexivity
  | intros r e Hok Hj; rewrite Hok; cbn [negb]; now rewrite Hj
  | intros r Hok Hj; rewrite Hok; cbn [negb]; now rewrite Hj ].

(** "Step 2" and "Step 3" of the OAuth variant once the guardrail is
    passed and the URL and the token have their strings. *)
Lemma oauth_register_outcome (Date_parse : string -> option Z)
    (fetch : http_request -> E response) (c : locals) (target : Z) (st : best)
    (regUrl auth : string) :
  meetingData c <> JNull ->
  Date_getTime Date_parse (sessionTimeSelected c) = inr (Some target) ->
  RegisterZoom.match_occurrence Date_parse (Some target)
    (RegisterZoom.occurrences (get_prop (meetingData c) "occurrences")) = inr st ->
  truthy (bestOccurrence st) && num_gtb (bestDiff st) (Num MAX_DIFF_MS) = false ->
  oauth_regUrl c st = inr regUrl ->
  bearer (TOKEN c) = inr auth ->
  register_outcome fetch (registration_request regUrl auth (regBody c))
    (fun regData => oauth_success_props regData st)
    (RegisterZoom.handler_register Date_parse fetch c).
Proof.
  intros Hmd Ht Hm Hg Hu Ha. unfold RegisterZoom.handler_register.
  rewrite (prop_not_null _ _ Hmd), bind_lift, Ht, bind_lift. cbn [isFinite negb].
  rewrite Hm, bind_lift, Hg. rewrite !if_truthy_prop, bind_ret, oauth_regUrl_run.
  rewrite Hu, bind_lift, Ha, bind_lift.
  after_call.
Qed.

(** "Step 2" and "Step 3" of the static-token variant once the loop has
    ended and the URL and the token have their strings. *)
Lemma static_register_outcome (Date_parse : string -> option Z)
    (fetch : http_request -> E response) (c : locals) (targetTime : timeval)
    (items : list json) (st : best) (regUrl auth : string) :
  meetingData c <> JNull ->
  Date_getTime Date_parse (sessionTimeSelected c) = inr targetTime ->
  RegisterZoomStatic.iterate
    (RegisterZoomStatic.occurrences (get_prop (meetingData c) "occurrences")) = inr items ->
  RegisterZoomStatic.match_occurrence Date_parse targetTime items = inr st ->
  static_regUrl c st = inr regUrl ->
  bearer (TOKEN c) = inr auth ->
  register_outcome fetch (registration_request regUrl auth (regBody c))
    (fun regData => success_props regData st)
    (RegisterZoomStatic.handler_register Date_parse fetch c).
Proof.
  intros Hmd Ht Hit Hm Hu Ha. unfold RegisterZoomStatic.handler_register.
  rewrite (prop_not_null _ _ Hmd), bind_lift, Ht, bind_lift. cbv zeta.
  rewrite Hit, bind_lift, Hm, bind_lift, static_regUrl_run.
  rewrite Hu, bind_lift, Ha, bind_lift.
  after_call.
Qed.

(** "Step 2" and "Step 3" of the OAuth variant: either nothing but quiet
    effects, or the registration call and what follows it. *)
Lemma oauth_register_shape (Date_parse : string -> option Z)
    (fetch : http_request -> E response) (c : locals) :
  Forall quiet (fst (RegisterZoom.handler_register Date_parse fetch c))
  \/ exists target st regUrl auth,
       Date_getTime Date_parse (sessionTimeSelected c) = inr (Some target)
       /\ RegisterZoom.match_occurrence Date_parse (Some target)
            (RegisterZoom.occurrences (get_prop (meetingData c) "occurrences")) = inr st
       /\ truthy (bestOccurrence st) && num_gtb (bestDiff st) (Num MAX_DIFF_MS) = false
       /\ oauth_regUrl c st = inr regUrl
       /\ bearer (TOKEN c) = inr auth
       /\ register_outcome fetch (registration_request regUrl auth (regBody c))
            (fun regData => oauth_success_props regData st)
            (RegisterZoom.handler_register Date_parse fetch c).
Proof.
  destruct (json_eq_null (meetingData c)) as [Hnull|Hmd].
  { left. unfold RegisterZoom.handler_register. rewrite Hnull. cbn [prop].
    rewrite bind_lift_thrown. constructor. }
  destruct (Date_getTime Date_parse (sessionTimeSelected c)) as [e|[target|]] eqn:Ht.
  { left. unfold RegisterZoom.handler_register.
    rewrite (prop_not_null _ _ Hmd), bind_lift, Ht, bind_lift_thrown. constructor. }
  2: { left. unfold RegisterZoom.handler_register.
       rewrite (prop_not_null _ _ Hmd), bind_lift, Ht, bind_lift. cbn [isFinite negb].
       repeat constructor. discriminate. }
  destruct (RegisterZoom.match_occurrence Date_parse (Some target)
              (RegisterZoom.occurrences (get_prop (meetingData c) "occurrences")))
    as [e|st] eqn:Hm.
  { left. unfold RegisterZoom.handler_register.
    rewrite (prop_not_null _ _ Hmd), bind_lift, Ht, bind_lift. cbn [isFinite negb].
    rewrite Hm, bind_lift_thrown. constructor. }
  destruct (truthy (bestOccurrence st) && num_gtb (bestDiff st) (Num MAX_DIFF_MS)) eqn:Hg.
  { left. unfold RegisterZoom.handler_register.
    rewrite (prop_not_null _ _ Hmd), bind_lift, Ht, bind_lift. cbn [isFinite negb].
    rewrite Hm, bind_lift, Hg. apply andb_prop in Hg. destruct Hg as [Hsel _].
    rewrite (prop_val_prop _ _ Hsel), bind_lift. repeat constructor. discriminate. }
  destruct (oauth_regUrl c st) as [e|regUrl] eqn:Hu.
  { left. unfold RegisterZoom.handler_register.
    rewrite (prop_not_null _ _ Hmd), bind_lift, Ht, bind_lift. cbn [isFinite negb].
    rewrite Hm, bind_lift, Hg. rewrite !if_truthy_prop, bind_ret, oauth_regUrl_run.
    rewrite Hu, bind_lift_thrown. constructor. }
  destruct (bearer (TOKEN c)) as [e|auth] eqn:Ha.
  { left. unfold RegisterZoom.handler_register.
    rewrite (prop_not_null _ _ Hmd), bind_lift, Ht, bind_lift. cbn [isFinite negb].
    rewrite Hm, bind_lift, Hg. rewrite !if_truthy_prop, bind_ret, oauth_regUrl_run.
    rewrite Hu, bind_lift, Ha, bind_lift_thrown. constructor. }
  right. exists target, st, regUrl, auth. repeat split; try assumption.
  now apply oauth_register_outcome with (target := target).
Qed.

(** "Step 2" and "Step 3" of the static-token variant, likewise. *)
Lemma static_register_shape (Date_parse : string -> option Z)
    (fetch : http_request -> E response) (c : locals) :
  Forall quiet (fst (RegisterZoomStatic.handler_register Date_parse fetch c))
  \/ exists targetTime items st regUrl auth,
       Date_getTime Date_parse (sessionTimeSelected c) = inr targetTime
       /\ RegisterZoomStatic.iterate
            (RegisterZoomStatic.occurrences (get_prop (meetingData c) "occurrences"))
          = inr items
       /\ RegisterZoomStatic.match_occurrence Date_parse targetTime items = inr st
       /\ static_regUrl c st = inr regUrl
       /\ bearer (TOKEN c) = inr auth
       /\ register_outcome fetch (registration_request regUrl auth (regBody c))
            (fun regData => success_props regData st)
            (RegisterZoomStatic.handler_register Date_parse fetch c).
Proof.
  destruct (json_eq_null (meetingData c)) as [Hnull|Hmd].
  { left. unfold RegisterZoomStatic.handler_register. rewrite Hnull. cbn [prop].
    rewrite bind_lift_thrown. constructor. }
  destruct (Date_getTime Date_parse (sessionTimeSelected c)) as [e|targetTime] eqn:Ht.
  { left. unfold RegisterZoomStatic.handler_register.
    rewrite (prop_not_null _ _ Hmd), bind_lift, Ht, bind_lift_thrown. constructor. }
  destruct (RegisterZoomStatic.iterate
              (RegisterZoomStatic.occurrences (get_prop (meetingData c) "occurrences")))
    as [e|items] eqn:Hit.
  { left. unfold RegisterZoomStatic.handler_register.
    rewrite (prop_not_null _ _ Hmd), bind_lift, Ht, bind_lift. cbv zeta.
    rewrite Hit, bind_lift_thrown. constructor. }
  destruct (RegisterZoomStatic.match_occurrence Date_parse targetTime items)
    as [e|st] eqn:Hm.
  { left. unfold RegisterZoomStatic.handler_register.
    rewrite (prop_not_null _ _ Hmd), bind_lift, Ht, bind_lift. cbv zeta.
    rewrite Hit, bind_lift, Hm, bind_lift_thrown. constructor. }
  destruct (static_regUrl c st) as [e|regUrl] eqn:Hu.
  { left. unfold RegisterZoomStatic.handler_register.
    rewrite (prop_not_null _ _ Hmd), bind_lift, Ht, bind_lift. cbv zeta.
    rewrite Hit, bind_lift, Hm, bind_lift, static_regUrl_run, Hu, bind_lift_thrown.
    constructor. }
  destruct (bearer (TOKEN c)) as [e|auth] eqn:Ha.
  { left. unfold RegisterZoomStatic.handler_register.
    rewrite (prop_not_null _ _ Hmd), bind_lift, Ht, bind_lift. cbv zeta.
    rewrite Hit, bind_lift, Hm, bind_lift, static_regUrl_run, Hu, bind_lift, Ha,
      bind_lift_thrown.
    constructor. }
  right. exists targetTime, items, st, regUrl, auth. repeat split; try assumption.
  now apply static_register_outcome with (targetTime := targetTime) (items := items).
Qed.

Lemma quiet_catch (tr : list event) (e : exn) :
  Forall quiet tr -> Forall quiet (fst (try_catch (tr, Thrown e) handler_catch)).
Proof.
  intros Hq. rewrite try_catch_thrown. cbn [fst]. apply Forall_app. split; [exact Hq|].
  repeat constructor. discriminate.
Qed.

Lemma quiet_try_catch (m : M unit) :
  Forall quiet (fst m) -> Forall quiet (fst (try_catch m handler_catch)).
Proof.
  destruct m as [tr [u| |e]]; cbn [fst]; intros Hq; try exact Hq.
  now apply quiet_catch.
Qed.

(** From "Step 3" to the handler: what follows the registration call. *)
Lemma outcome_after (fetch : http_request -> E response) (rq : http_request)
    (props_of : json -> list (string * val)) (tr : list event) (run : M unit) :
  register_outcome fetch rq props_of run ->
  exists tail,
    try_catch (tr ++ fst run, snd run) handler_catch = (tr ++ EFetch rq :: tail, Returned)
    /\ after_registration fetch rq props_of tail.
Proof.
  intros [(r & regData & Hf & Hok & Hj & Hn & ->)
         |[(r & errText & Hf & Hok & Htext & ->)|(e & -> & Hcause)]]; cbn [fst snd].
  - eexists. split; [reflexivity|]. left. exists r, regData. now repeat split.
  - eexists. split; [reflexivity|]. right. left. exists r, errText. now repeat split.
  - rewrite try_catch_thrown, <- app_assoc. eexists. split; [reflexivity|].
    right. right. exists e. now split.
Qed.

(** A run of the OAuth handler: quiet effects only, or the effects up to
    the fetched meeting, the registration call and what follows it. *)
Lemma oauth_handler_shape (Date_parse : string -> option Z)
    (fetch : http_request -> E response) (env : environment) (req : request) :
  Forall quiet (fst (RegisterZoom.handler Date_parse fetch env req))
  \/ exists tr c target st regUrl auth tail,
       RegisterZoom.handler_prepare fetch env req = (tr, Val c)
       /\ Forall quiet tr
       /\ Date_getTime Date_parse (sessionTimeSelected c) = inr (Some target)
       /\ RegisterZoom.match_occurrence Date_parse (Some target)
            (RegisterZoom.occurrences (get_prop (meetingData c) "occurrences")) = inr st
       /\ truthy (bestOccurrence st) && num_gtb (bestDiff st) (Num MAX_DIFF_MS) = false
       /\ oauth_regUrl c st = inr regUrl
       /\ bearer (TOKEN c) = inr auth
       /\ RegisterZoom.handler Date_parse fetch env req
          = (tr ++ EFetch (registration_request regUrl auth (regBody c)) :: tail, Returned)
       /\ after_registration fetch (registration_request regUrl auth (regBody c))
            (fun regData => oauth_success_props regData st) tail.
Proof.
  destruct (String.eqb_spec (req_method req) "POST") as [Hpost|Hn].
  2: { left. unfold RegisterZoom.handler. rewrite (not_post _ Hn).
       repeat constructor. discriminate. }
  destruct (RegisterZoom.handler_prepare fetch env req) as [tr o] eqn:Hprep.
  pose proof (oauth_prepare_quiet fetch env req) as Hq. rewrite Hprep in Hq. cbn [fst] in Hq.
  destruct o as [c| |e].
  - rewrite (oauth_handler_after Date_parse _ _ _ _ _ Hpost Hprep).
    destruct (oauth_register_shape Date_parse fetch c)
      as [Hr | (target & st & regUrl & auth & Ht & Hm & Hg & Hu & Ha & Hout)].
    + left. apply quiet_try_catch. cbn [fst]. apply Forall_app. now split.
    + right. destruct (outcome_after _ _ _ tr _ Hout) as (tail & Hrun & Hafter).
      exists tr, c, target, st, regUrl, auth, tail. now repeat split.
  - left. unfold RegisterZoom.handler, RegisterZoom.handler_try. rewrite Hpost, Hprep.
    exact Hq.
  - left. unfold RegisterZoom.handler, RegisterZoom.handler_try. rewrite Hpost, Hprep.
    cbn [String.eqb Ascii.eqb Bool.eqb negb]. rewrite bind_thrown. now apply quiet_catch.
Qed.

(** A run of the static-token handler, likewise. *)
Lemma static_handler_shape (Date_parse : string -> option Z)
    (fetch : http_request -> E response) (env : environment) (req : request) :
  Forall quiet (fst (RegisterZoomStatic.handler Date_parse fetch env req))
  \/ exists tr c targetTime items st regUrl auth tail,
       RegisterZoomStatic.handler_prepare fetch env req = (tr, Val c)
       /\ Forall quiet tr
       /\ Date_getTime Date_parse (sessionTimeSelected c) = inr targetTime
       /\ RegisterZoomStatic.iterate
            (RegisterZoomStatic.occurrences (get_prop (meetingData c) "occurrences"))
          = inr items
       /\ RegisterZoomStatic.match_occurrence Date_parse targetTime items = inr st
       /\ static_regUrl c st = inr regUrl
       /\ bearer (TOKEN c) = inr auth
       /\ RegisterZoomStatic.handler Date_parse fetch env req
          = (tr ++ EFetch (registration_request regUrl auth (regBody c)) :: tail, Returned)
       /\ after_registration fetch (registration_request regUrl auth (regBody c))
            (fun regData => success_props regData st) tail.
Proof.
  destruct (String.eqb_spec (req_method req) "POST") as [Hpost|Hn].
  2: { left. unfold RegisterZoomStatic.handler. rewrite (not_post _ Hn).
       repeat constructor. discriminate. }
  destruct (RegisterZoomStatic.handler_prepare fetch env req) as [tr o] eqn:Hprep.
  pose proof (static_prepare_quiet fetch env req) as Hq. rewrite Hprep in Hq. cbn [fst] in Hq.
  destruct o as [c| |e].
  - rewrite (static_handler_after Date_parse _ _ _ _ _ Hpost Hprep).
    destruct (static_register_shape Date_parse fetch c)
      as [Hr | (targetTime & items & st & regUrl & auth & Ht & Hit & Hm & Hu & Ha & Hout)].
    + left. apply quiet_try_catch. cbn [fst]. apply Forall_app. now split.
    + right. destruct (outcome_after _ _ _ tr _ Hout) as (tail & Hrun & Hafter).
      exists tr, c, targetTime, items, st, regUrl, auth, tail. now repeat split.
  - left. unfold RegisterZoomStatic.handler, RegisterZoomStatic.handler_try.
    rewrite Hpost, Hprep. exact Hq.
  - left. unfold RegisterZoomStatic.handler, RegisterZoomStatic.handler_try.
    rewrite Hpost, Hprep. cbn [String.eqb Ascii.eqb Bool.eqb negb]. rewrite bind_thrown.
    now apply quiet_catch.
Qed.

Lemma quiet_no_registration (tr : list event) (rq : http_request) :
  Forall quiet tr -> In (EFetch rq) tr -> rq_body rq = None.
Proof. intros Hq Hin. rewrite Forall_forall in Hq. exact (Hq _ Hin). Qed.

Lemma quiet_no_success (tr : list event) (body : payload) :
  Forall quiet tr -> ~ In (ESend 200 body) tr.
Proof. intros Hq Hin. rewrite Forall_forall in Hq. now apply (Hq _ Hin). Qed.

Lemma after_registration_no_call (fetch : http_request -> E response)
    (rq0 rq : http_request) (props_of : json -> list (string * val)) (tail : list event) :
  after_registration fetch rq0 props_of tail -> ~ In (EFetch rq) tail.
Proof.
  intros [(r & regData & _ & _ & _ & _ & ->)|[(r & t & _ & _ & _ & ->)|(e & -> & _)]] Hin;
    cbn in Hin; intuition discriminate.
Qed.

Lemma registration_call_unique (fetch : http_request -> E response)
    (tr tail : list event) (rq0 rq : http_request) (props_of : json -> list (string * val)) :
  Forall quiet tr -> after_registration fetch rq0 props_of tail ->
  In (EFetch rq) (tr ++ EFetch rq0 :: tail) -> rq_body rq <> None -> rq = rq0.
Proof.
  intros Hq Hafter Hin Hbody. apply in_app_or in Hin. destruct Hin as [Hin|[Hin|Hin]].
  - now apply (quiet_no_registration _ _ Hq) in Hin.
  - now injection Hin.
  - now apply (after_registration_no_call _ _ _ _ _ Hafter) in Hin.
Qed.

Lemma success_tail (fetch : http_request -> E response) (tr tail : list event)
    (rq0 : http_request) (props_of : json -> list (string * val)) (body : payload) :
  Forall quiet tr -> after_registration fetch rq0 props_of tail ->
  In (ESend 200 body) (tr ++ EFetch rq0 :: tail) ->
  tail = [ESend 200 body]
  /\ exists r regData,
       fetch rq0 = inr r /\ ok r = true /\ json_body r = inr regData /\ regData <> JNull
       /\ body = BJson (props_of regData).
Proof.
  intros Hq Hafter Hin. apply in_app_or in Hin. destruct Hin as [Hin|[Hin|Hin]].
  - now apply (quiet_no_success _ _ Hq) in Hin.
  - discriminate.
  - destruct Hafter as [(r & regData & Hf & Hok & Hj & Hn & ->)
                       |[(r & t & _ & _ & _ & ->)|(e & -> & _)]].
    + destruct Hin as [Hin|[]]. injection Hin as <-. split; [reflexivity|].
      now exists r, regData.
    + cbn in Hin. intuition discriminate.
    + cbn in Hin. intuition discriminate.
Qed.

(** ** What the matching loop leaves in its variables *)

Section MatchingResult.

Variable Date_parse : string -> option Z.

Lemma num_ltb_left (a b : num) : num_ltb a b = true -> exists d, a = Num d.
Proof. destruct a; try discriminate. intros _. now eexists. Qed.

Lemma abs_diff_nonneg (a b : timeval) (d : Z) : abs_diff a b = Num d -> 0 <= d.
Proof.
  destruct a, b; cbn; try discriminate. intros H. injection H as <-. apply Z.abs_nonneg.
Qed.

(** What one turn of the loop can do. *)
Lemma match_step_inv (targetTime : timeval) (st st' : best) (occ : json) :
  RegisterZoom.match_step Date_parse targetTime st occ = inr st' ->
  st' = st
  \/ (parses Date_parse occ = true
      /\ exists d, diff_of Date_parse targetTime occ = Num d
                   /\ st' = {| bestOccurrence := Some occ; bestDiff := Num d |}).
Proof.
  destruct (json_eq_null occ) as [-> | Hn]; [discriminate|].
  unfold RegisterZoom.match_step, parses, diff_of, occTime_of.
  rewrite (prop_not_null occ) by assumption.
  destruct (Date_getTime Date_parse (get_prop occ "start_time")) as [e|[t|]] eqn:Ht;
    cbn [isFinite negb]; [discriminate | |].
  - destruct (num_ltb (abs_diff (Some t) targetTime) (bestDiff st)) eqn:Hlt;
      intros H; injection H as <-; [|now left].
    right. split; [reflexivity|].
    destruct (num_ltb_left _ _ Hlt) as [d Hd]. exists d. split; [exact Hd|]. f_equal. exact Hd.
  - intros H. injection H as <-. now left.
Qed.

Lemma match_loop_result (targetTime : timeval) (all l : list json) :
  (forall occ, In occ l -> In occ all) ->
  forall st st' : best,
    for_of (RegisterZoom.match_step Date_parse targetTime) l st = inr st' ->
    (bestOccurrence st = Some JNull /\ bestDiff st = Infinity
     \/ exists occ d, st = {| bestOccurrence := Some occ; bestDiff := Num d |}
                      /\ In occ all /\ parses Date_parse occ = true
                      /\ diff_of Date_parse targetTime occ = Num d) ->
    (bestOccurrence st' = Some JNull /\ bestDiff st' = Infinity
     \/ exists occ d, st' = {| bestOccurrence := Some occ; bestDiff := Num d |}
                      /\ In occ all /\ parses Date_parse occ = true
                      /\ diff_of Date_parse targetTime occ = Num d).
Proof.
  induction l as [|occ l IH]; intros Hl st st' Hrun Hst.
  - cbn in Hrun. now injection Hrun as <-.
  - cbn [for_of] in Hrun.
    destruct (RegisterZoom.match_step Date_parse targetTime st occ) as [e|st1] eqn:Hstep;
      [discriminate|].
    apply (IH (fun o Ho => Hl o (or_intror Ho)) st1 st' Hrun).
    destruct (match_step_inv _ _ _ _ Hstep) as [-> | (Hp & d & Hd & ->)];
      [exact Hst|].
    right. exists occ, d. repeat split; try assumption. apply Hl. now left.
Qed.

(** The result of either loop: nothing, or an entry of the list that
    parses, with its distance. *)
Lemma match_result (targetTime : timeval) (occs : list json) (st : best) :
  RegisterZoom.match_occurrence Date_parse targetTime occs = inr st
  \/ RegisterZoomStatic.match_occurrence Date_parse targetTime occs = inr st ->
  st = best_init
  \/ exists occ d, st = {| bestOccurrence := Some occ; bestDiff := Num d |}
                   /\ In occ occs /\ parses Date_parse occ = true
                   /\ diff_of Date_parse targetTime occ = Num d.
Proof.
  intros Hrun.
  assert (H : RegisterZoom.match_occurrence Date_parse targetTime occs = inr st)
    by (destruct Hrun as [H|H]; [exact H | now rewrite match_occurrence_agree]).
  destruct (match_loop_result targetTime occs occs (fun _ Ho => Ho) best_init st H)
    as [[Hb Hd]|Hsel].
  - now left.
  - left. destruct st as [b d]. cbn in Hb, Hd. now subst b d.
  - now right.
Qed.

(** A selected entry has a start time. *)
Lemma matched_start_time_defined (targetTime : timeval) (occs : list json) (st : best) :
  RegisterZoom.match_occurrence Date_parse targetTime occs = inr st ->
  exists start, matched_start_time_of st = Some start.
Proof.
  intros Hrun. destruct (match_result targetTime occs st (or_introl Hrun))
    as [-> | (occ & d & -> & _ & Hp & _)].
  - now exists (JStr "").
  - unfold matched_start_time_of. cbn [bestOccurrence].
    rewrite (parses_truthy Date_parse occ Hp). cbn [val_prop].
    unfold parses, occTime_of in Hp.
    destruct (get_prop occ "start_time") as [start|]; [now exists start | discriminate].
Qed.

End MatchingResult.

(** ** Token acquisition *)

(** C8 (as amended): [getZoomAccessToken] makes exactly one call, the POST
    to the token endpoint written out below (no retry), and never answers
    the request itself; it returns a value exactly when that call
    resolves with a success status and a JSON body, not [null], whose
    [access_token] is truthy, and returns that very value, whatever JSON
    value it is; on a non-success status it throws "Zoom token error:
    <status> <body>"; on a body whose [access_token] is missing or falsy
    (the empty string, [null], 0, [false]) it throws "Zoom token response
    missing access_token"; in the handler, for a POST that is through
    validation and configuration and whose fullName has a string, a throw
    of the token acquisition ends in the catch block: HTTP 500 with
    success:false, no further upstream call. *)
Theorem token_acquisition (Date_parse : string -> option Z)
    (fetch : http_request -> E response) (env : environment) (req : request) :
  let accountId := env_text (ZOOM_ACCOUNT_ID env) in
  let clientId := env_text (ZOOM_CLIENT_ID env) in
  let clientSecret := env_text (ZOOM_CLIENT_SECRET env) in
  let rq :=
    {| rq_url := "https://zoom.us/oauth/token?grant_type=account_credentials&account_id="
                 +++ encodeURIComponent accountId;
       rq_method := "POST";
       rq_headers := [("Authorization", "Basic " +++ base64 (clientId +++ ":" +++ clientSecret));
                      ("Content-Type", "application/x-www-form-urlencoded")];
       rq_body := None |} in
  let run := RegisterZoom.getZoomAccessToken fetch accountId clientId clientSecret in
  fst run = [EFetch rq]
  /\ snd run <> Returned
  /\ (forall v, snd run = Val v <->
                exists r data, fetch rq = inr r /\ ok r = true /\ json_body r = inr data
                               /\ data <> JNull
                               /\ get_prop data "access_token" = v /\ truthy v = true)
  /\ (forall r errText, fetch rq = inr r -> ok r = false -> text r = inr errText ->
        snd run = Thrown (Error ("Zoom token error: " +++ Number_toString (status r) +++ " "
                                 +++ errText)))
  /\ (forall r data, fetch rq = inr r -> ok r = true -> json_body r = inr data ->
        data <> JNull -> truthy (get_prop data "access_token") = false ->
        snd run = Thrown (Error "Zoom token response missing access_token"))
  /\ (forall e name, req_method req = "POST" ->
        val_to_string (field_of req "fullName") = inr name ->
        truthy (field_of req "fullName") = true ->
        truthy (field_of req "email") = true ->
        truthy (field_of req "sessionTimeSelected") = true ->
        truthy (env_val (ZOOM_MEETING_ID env)) = true ->
        truthy (env_val (ZOOM_ACCOUNT_ID env)) = true ->
        truthy (env_val (ZOOM_CLIENT_ID env)) = true ->
        truthy (env_val (ZOOM_CLIENT_SECRET env)) = true ->
        snd run = Thrown e ->
        RegisterZoom.handler Date_parse fetch env req
        = ([EFetch rq; EConsoleError "register-zoom error:";
            ESend 500 (BJson [("success", boolean false);
                              ("error", str (if String.eqb (message e) ""
                                             then "Internal server error"
                                             else message e))])],
           Returned)).
Proof.
  intros accountId clientId clientSecret rq run.
  change rq with (RegisterZoom.token_request accountId clientId clientSecret).
  clear rq. set (rq := RegisterZoom.token_request accountId clientId clientSecret).
  destruct (oauth_token_trace fetch accountId clientId clientSecret) as [Htr Hnr].
  fold rq run in Htr, Hnr.
  split; [exact Htr|]. split; [exact Hnr|]. split; [|split; [|split]].
  - intros v. split.
    + intros Hv. destruct run as [tr r0] eqn:Hrun. cbn in Hv. subst r0.
      apply oauth_token_inv in Hrun. destruct Hrun as [_ (r & data & Hf & Hok & Hj & Hp & Ht)].
      exists r, data. repeat split; try assumption.
      * intros ->. discriminate.
      * destruct data; try discriminate; now injection Hp.
    + intros (r & data & Hf & Hok & Hj & Hn & Hp & Ht).
      subst run. unfold RegisterZoom.getZoomAccessToken.
      fold rq. rewrite (bind_fetch_ok _ _ _ _ Hf), Hok. cbn [negb snd].
      now rewrite Hj, bind_lift, (prop_not_null _ _ Hn), bind_lift, Hp, Ht.
  - intros r errText Hf Hok Ht. subst run. unfold RegisterZoom.getZoomAccessToken.
    fold rq. rewrite (bind_fetch_ok _ _ _ _ Hf), Hok. cbn [negb snd].
    now rewrite Ht, bind_lift.
  - intros r data Hf Hok Hj Hn Ht. subst run. unfold RegisterZoom.getZoomAccessToken.
    fold rq. rewrite (bind_fetch_ok _ _ _ _ Hf), Hok. cbn [negb snd].
    now rewrite Hj, bind_lift, (prop_not_null _ _ Hn), bind_lift, Ht.
  - intros e name Hpost Hname Hfn Hem Hss Hmid Hacc Hcid Hsec Hthrown.
    unfold RegisterZoom.handler, RegisterZoom.handler_try, RegisterZoom.handler_prepare.
    rewrite Hpost. cbn [String.eqb Ascii.eqb Bool.eqb negb].
    destruct (destructure_body req) as [b Hb]. rewrite Hb, bind_lift.
    rewrite !(field_of_destructure req b _ Hb), Hfn, Hem, Hss, Hmid, Hacc, Hcid, Hsec.
    cbn [negb orb]. rewrite Hname, bind_lift. fold accountId clientId clientSecret. fold run.
    destruct run as [tr r0]. cbn [fst snd] in *. subst tr r0.
    rewrite !bind_thrown. apply try_catch_thrown.
Qed.

(** ** The relay *)

(** C7: on a POST the relay answers 500 "ZOHO_URL is not set" without any
    upstream call when the webhook URL is not configured; otherwise it
    makes one POST to that URL with the inbound body as JSON and answers
    with the upstream status and text, "ok" standing in for an empty (or
    unreadable) text; when the call throws it answers 500 with the
    message of the error ("Zoho proxy error" when the message is
    empty). *)
Theorem zoho_relay (fetch : http_request -> E response) (env : environment)
    (req : request) :
  req_method req = "POST" ->
  (truthy (env_val (ZOHO_URL env)) = false ->
   RegisterZoho.handler fetch env req
   = ([ESend 500 (BJson [("error", str "ZOHO_URL is not set")])], Returned))
  /\ (forall zohoUrl, ZOHO_URL env = Some zohoUrl -> zohoUrl <> "" ->
      let rq := {| rq_url := zohoUrl; rq_method := "POST";
                   rq_headers := [("Content-Type", "application/json")];
                   rq_body := req_body req |} in
      (forall r, fetch rq = inr r ->
         RegisterZoho.handler fetch env req
         = ([EFetch rq;
             ESend (status r)
               (BText match text r with
                      | inr t => if String.eqb t "" then "ok" else t
                      | inl _ => "ok"
                      end)],
            Returned))
      /\ (forall e, fetch rq = inl e ->
            RegisterZoho.handler fetch env req
            = ([EFetch rq;
                ESend 500
                  (BJson [("error",
                           str (if String.eqb (message e) ""
                                then "Zoho proxy error" else message e))])],
               Returned))).
Proof.
  intros Hpost. unfold RegisterZoho.handler. rewrite Hpost.
  cbn [String.eqb Ascii.eqb Bool.eqb negb]. split.
  - intros Hurl. now rewrite Hurl.
  - intros zohoUrl Hurl Hne.
    assert (Ht : truthy (env_val (ZOHO_URL env)) = true).
    { rewrite Hurl. cbn. destruct (String.eqb_spec zohoUrl ""); [contradiction | reflexivity]. }
    cbv zeta. rewrite Ht. cbn [negb]. unfold RegisterZoho.handler_try. rewrite Hurl.
    cbn [env_text]. split.
    + intros r Hf. rewrite (bind_fetch_ok _ _ _ _ Hf).
      destruct (text r) as [e|t]; [reflexivity|]. now destruct (String.eqb t "").
    + intros e Hf. unfold bind, do_fetch. rewrite Hf.
      unfold try_catch, RegisterZoho.handler_catch, return_json, js_or, str, truthy.
      cbn [fst snd app]. now destruct (String.eqb (message e) "").
Qed.

(** ** Responses of the Zoom handlers *)

Lemma sends_none_in (tr : list event) (code : Z) (body : payload) :
  sends tr = [] -> ~ In (ESend code body) tr.
Proof.
  intros Hs Hin. assert (H : In (ESend code body) (sends tr)).
  { apply filter_In. now split. }
  now rewrite Hs in H.
Qed.

Lemma sends_last (pre : list event) (ev : event) :
  sends pre = [] -> is_send ev = true -> sends (pre ++ [ev]) = [ev].
Proof. intros Hp He. rewrite sends_app, Hp. cbn. now rewrite He. Qed.

Lemma js_or_defined (a : val) (s : string) : exists j, js_or a (str s) = Some j.
Proof.
  unfold js_or. destruct (truthy a) eqn:Ha; [|now eexists].
  destruct a as [j|]; [now exists j | discriminate].
Qed.

(** The properties that [JSON.stringify] keeps of the success object. *)
Lemma success_props_keys (regData : json) (st : best) :
  map fst (success_props regData st)
  = ["success"; "join_url"; "registrant_id"; "occurrence_id"]
  /\ field "success" (success_props regData st) = boolean true
  /\ field "occurrence_id" (success_props regData st) = occurrence_id_of st
  /\ map fst (stringify_props (success_props regData st))
     = match occurrence_id_of st with
       | Some _ => ["success"; "join_url"; "registrant_id"; "occurrence_id"]
       | None => ["success"; "join_url"; "registrant_id"]
       end.
Proof.
  unfold success_props. repeat split.
  cbn [stringify_props boolean].
  destruct (js_or_defined (get_prop regData "join_url") "") as [j ->].
  destruct (js_or_defined
              (js_or (get_prop regData "registrant_id")
                     (if truthy (get_prop regData "registrant_id")
                      then undefined else get_prop regData "id")) "") as [i ->].
  now destruct (occurrence_id_of st).
Qed.

Lemma oauth_success_props_keys (regData : json) (st : best) (start : json) :
  matched_start_time_of st = Some start ->
  map fst (oauth_success_props regData st)
  = ["success"; "join_url"; "registrant_id"; "occurrence_id"; "matched_start_time"]
  /\ field "success" (oauth_success_props regData st) = boolean true
  /\ field "occurrence_id" (oauth_success_props regData st) = occurrence_id_of st
  /\ map fst (stringify_props (oauth_success_props regData st))
     = match occurrence_id_of st with
       | Some _ => ["success"; "join_url"; "registrant_id"; "occurrence_id";
                    "matched_start_time"]
       | None => ["success"; "join_url"; "registrant_id"; "matched_start_time"]
       end.
Proof.
  intros Hstart. unfold oauth_success_props, success_props. rewrite Hstart. repeat split.
  cbn [stringify_props boolean app].
  destruct (js_or_defined (get_prop regData "join_url") "") as [j ->].
  destruct (js_or_defined
              (js_or (get_prop regData "registrant_id")
                     (if truthy (get_prop regData "registrant_id")
                      then undefined else get_prop regData "id")) "") as [i ->].
  now destruct (occurrence_id_of st).
Qed.

(** C9 (as amended): whenever a Zoom handler answers with status 200, the
    object given to [res.json] has the properties success (true),
    join_url, registrant_id and occurrence_id, in this order, followed in
    the OAuth variant by matched_start_time; occurrence_id is the selected
    entry's own, or the empty string when none is selected.  The body
    sent is that object as [JSON.stringify] writes it: with all these
    properties, except that occurrence_id is left out when it is
    [undefined], that is when the selected entry has none. *)
Theorem success_body_fields (Date_parse : string -> option Z)
    (fetch : http_request -> E response) (env : environment) (req : request)
    (code : Z) (body : payload) :
  code = 200 ->
  (In (ESend code body) (fst (RegisterZoomStatic.handler Date_parse fetch env req)) ->
   exists tr c targetTime items st props,
     RegisterZoomStatic.handler_prepare fetch env req = (tr, Val c)
     /\ Date_getTime Date_parse (sessionTimeSelected c) = inr targetTime
     /\ RegisterZoomStatic.iterate
          (RegisterZoomStatic.occurrences (get_prop (meetingData c) "occurrences"))
        = inr items
     /\ RegisterZoomStatic.match_occurrence Date_parse targetTime items = inr st
     /\ body = BJson props
     /\ map fst props = ["success"; "join_url"; "registrant_id"; "occurrence_id"]
     /\ field "success" props = boolean true
     /\ field "occurrence_id" props
        = (if truthy (bestOccurrence st) then val_prop (bestOccurrence st) "occurrence_id"
           else str "")
     /\ map fst (stringify_props props)
        = match field "occurrence_id" props with
          | Some _ => ["success"; "join_url"; "registrant_id"; "occurrence_id"]
          | None => ["success"; "join_url"; "registrant_id"]
          end)
  /\ (In (ESend code body) (fst (RegisterZoom.handler Date_parse fetch env req)) ->
      exists tr c target st props,
        RegisterZoom.handler_prepare fetch env req = (tr, Val c)
        /\ Date_getTime Date_parse (sessionTimeSelected c) = inr (Some target)
        /\ RegisterZoom.match_occurrence Date_parse (Some target)
             (RegisterZoom.occurrences (get_prop (meetingData c) "occurrences")) = inr st
        /\ body = BJson props
        /\ map fst props = ["success"; "join_url"; "registrant_id"; "occurrence_id";
                            "matched_start_time"]
        /\ field "success" props = boolean true
        /\ field "occurrence_id" props
           = (if truthy (bestOccurrence st) then val_prop (bestOccurrence st) "occurrence_id"
              else str "")
        /\ map fst (stringify_props props)
           = match field "occurrence_id" props with
             | Some _ => ["success"; "join_url"; "registrant_id"; "occurrence_id";
                          "matched_start_time"]
             | None => ["success"; "join_url"; "registrant_id"; "matched_start_time"]
             end).
Proof.
  intros ->. split; intros Hin.
  - destruct (static_handler_shape Date_parse fetch env req)
      as [Hq|(tr & c & targetTime & items & st & regUrl & auth & tail & Hprep & Hq & Ht
              & Hit & Hm & _ & _ & Hrun & Hafter)].
    + now apply (quiet_no_success _ _ Hq) in Hin.
    + rewrite Hrun in Hin. cbn [fst] in Hin.
      destruct (success_tail _ _ _ _ _ _ Hq Hafter Hin)
        as [_ (r & regData & _ & _ & _ & _ & ->)].
      destruct (success_props_keys regData st) as (Hk & Hs & Hid & Hsent).
      exists tr, c, targetTime, items, st, (success_props regData st).
      repeat split; assumption.
  - destruct (oauth_handler_shape Date_parse fetch env req)
      as [Hq|(tr & c & target & st & regUrl & auth & tail & Hprep & Hq & Ht & Hm & _ & _ & _
              & Hrun & Hafter)].
    + now apply (quiet_no_success _ _ Hq) in Hin.
    + rewrite Hrun in Hin. cbn [fst] in Hin.
      destruct (success_tail _ _ _ _ _ _ Hq Hafter Hin)
        as [_ (r & regData & _ & _ & _ & _ & ->)].
      destruct (matched_start_time_defined Date_parse _ _ _ Hm) as [start Hstart].
      destruct (oauth_success_props_keys regData st start Hstart) as (Hk & Hs & Hid & Hsent).
      exists tr, c, target, st, (oauth_success_props regData st).
      repeat split; assumption.
Qed.

Lemma one_response (keys : list string) (m : M unit) :
  run_ok (zoom_response keys) False False m ->
  exists pre code props,
    m = (pre ++ [ESend code (BJson props)], Returned)
    /\ sends (fst m) = [ESend code (BJson props)]
    /\ (code = 200 \/ code = 400 \/ code = 405 \/ code = 500)
    /\ field "success" props = boolean (code =? 200).
Proof.
  intros Hrun. apply run_ok_end in Hrun.
  destruct Hrun as (pre & code & props & -> & Hpre & Hgood).
  exists pre, code, props. split; [reflexivity|]. split; [now apply sends_last|].
  destruct Hgood as [(Hc & _ & Hs)|(Hc & _ & Hs)]; (split; [tauto|]).
  - now subst code.
  - destruct Hc as [Hc|[Hc|Hc]]; now subst code.
Qed.

(** C10: every run of either Zoom handler returns after exactly one
    response, its last effect; the status is 200, 400, 405 or 500 and the
    [success] property of the body is [true] exactly under 200; the catch
    block answers 500 with success:false for whatever was thrown. *)
Theorem one_response_success_iff_200 (Date_parse : string -> option Z)
    (fetch : http_request -> E response) (env : environment) (req : request) :
  (exists pre code props,
      RegisterZoom.handler Date_parse fetch env req
      = (pre ++ [ESend code (BJson props)], Returned)
      /\ sends (fst (RegisterZoom.handler Date_parse fetch env req))
         = [ESend code (BJson props)]
      /\ (code = 200 \/ code = 400 \/ code = 405 \/ code = 500)
      /\ field "success" props = boolean (code =? 200))
  /\ (exists pre code props,
         RegisterZoomStatic.handler Date_parse fetch env req
         = (pre ++ [ESend code (BJson props)], Returned)
         /\ sends (fst (RegisterZoomStatic.handler Date_parse fetch env req))
            = [ESend code (BJson props)]
         /\ (code = 200 \/ code = 400 \/ code = 405 \/ code = 500)
         /\ field "success" props = boolean (code =? 200))
  /\ (forall err : exn,
         handler_catch err
         = ([EConsoleError "register-zoom error:";
             ESend 500 (BJson [("success", boolean false);
                               ("error", js_or (str (message err))
                                               (str "Internal server error"))])],
            Returned)).
Proof.
  split; [|split].
  - exact (one_response _ _ (oauth_handler_run Date_parse fetch env req)).
  - exact (one_response _ _ (static_handler_run Date_parse fetch env req)).
  - reflexivity.
Qed.

(** ** The request through the Zoom handlers *)

Lemma oauth_missing_field (Date_parse : string -> option Z)
    (fetch : http_request -> E response) (env : environment) (req : request) :
  req_method req = "POST" ->
  negb (truthy (field_of req "fullName")) || negb (truthy (field_of req "email"))
  || negb (truthy (field_of req "sessionTimeSelected")) = true ->
  RegisterZoom.handler Date_parse fetch env req
  = ([ESend 400 (BJson missing_fields)], Returned).
Proof.
  intros Hpost Hc.
  unfold RegisterZoom.handler, RegisterZoom.handler_try, RegisterZoom.handler_prepare.
  rewrite Hpost. cbn [String.eqb Ascii.eqb Bool.eqb negb].
  destruct (destructure_body req) as [b Hb]. rewrite Hb, bind_lift.
  rewrite !(field_of_destructure req b _ Hb), Hc. reflexivity.
Qed.

Lemma static_missing_field (Date_parse : string -> option Z)
    (fetch : http_request -> E response) (env : environment) (req : request) (b : json) :
  req_method req = "POST" ->
  req_body req = Some b -> b <> JNull ->
  negb (truthy (field_of req "fullName")) || negb (truthy (field_of req "email"))
  || negb (truthy (field_of req "sessionTimeSelected")) = true ->
  RegisterZoomStatic.handler Date_parse fetch env req
  = ([ESend 400 (BJson missing_fields)], Returned).
Proof.
  intros Hpost Hbody Hn Hc.
  unfold RegisterZoomStatic.handler, RegisterZoomStatic.handler_try,
    RegisterZoomStatic.handler_prepare.
  rewrite Hpost. cbn [String.eqb Ascii.eqb Bool.eqb negb].
  unfold field_of in Hc. rewrite Hbody in *.
  rewrite (destructure_not_null b Hn), bind_lift, Hc. reflexivity.
Qed.

(** The static-token handler on a POST without a body. *)
Lemma static_no_body (Date_parse : string -> option Z)
    (fetch : http_request -> E response) (env : environment) (req : request) :
  req_method req = "POST" ->
  req_body req = None \/ req_body req = Some JNull ->
  exists msg,
    RegisterZoomStatic.handler Date_parse fetch env req
    = ([EConsoleError "register-zoom error:";
        ESend 500 (BJson [("success", boolean false); ("error", str msg)])],
       Returned).
Proof.
  intros Hpost Hbody.
  unfold RegisterZoomStatic.handler, RegisterZoomStatic.handler_try,
    RegisterZoomStatic.handler_prepare.
  rewrite Hpost. destruct Hbody as [-> | ->]; eexists; reflexivity.
Qed.

(** "Step 2" on a target that does not parse. *)
Lemma oauth_register_invalid_target (Date_parse : string -> option Z)
    (fetch : http_request -> E response) (c : locals) :
  meetingData c <> JNull ->
  Date_getTime Date_parse (sessionTimeSelected c) = inr None ->
  RegisterZoom.handler_register Date_parse fetch c
  = ([ESend 400 (BJson (failure "Invalid sessionTimeSelected timestamp"))], Returned).
Proof.
  intros Hmd Ht. unfold RegisterZoom.handler_register.
  rewrite (prop_not_null _ _ Hmd), bind_lift, Ht, bind_lift. reflexivity.
Qed.

(** "Step 2" on a target whose conversion throws. *)
Lemma oauth_register_target_throws (Date_parse : string -> option Z)
    (fetch : http_request -> E response) (c : locals) (e : exn) :
  meetingData c <> JNull ->
  Date_getTime Date_parse (sessionTimeSelected c) = inl e ->
  RegisterZoom.handler_register Date_parse fetch c = ([], Thrown e).
Proof.
  intros Hmd Ht. unfold RegisterZoom.handler_register.
  now rewrite (prop_not_null _ _ Hmd), bind_lift, Ht.
Qed.

Lemma static_register_target_throws (Date_parse : string -> option Z)
    (fetch : http_request -> E response) (c : locals) (e : exn) :
  meetingData c <> JNull ->
  Date_getTime Date_parse (sessionTimeSelected c) = inl e ->
  RegisterZoomStatic.handler_register Date_parse fetch c = ([], Thrown e).
Proof.
  intros Hmd Ht. unfold RegisterZoomStatic.handler_register.
  now rewrite (prop_not_null _ _ Hmd), bind_lift, Ht.
Qed.




(** The loop throws. *)
Lemma oauth_register_loop_throws (Date_parse : string -> option Z)
    (fetch : http_request -> E response) (c : locals) (target : Z) (e : exn) :
  meetingData c <> JNull ->
  Date_getTime Date_parse (sessionTimeSelected c) = inr (Some target) ->
  RegisterZoom.match_occurrence Date_parse (Some target)
    (RegisterZoom.occurrences (get_prop (meetingData c) "occurrences")) = inl e ->
  RegisterZoom.handler_register Date_parse fetch c = ([], Thrown e).
Proof.
  intros Hmd Ht Hm. unfold RegisterZoom.handler_register.
  rewrite (prop_not_null _ _ Hmd), bind_lift, Ht, bind_lift. cbn [isFinite negb].
  now rewrite Hm.
Qed.

Lemma static_register_loop_throws (Date_parse : string -> option Z)
    (fetch : http_request -> E response) (c : locals) (targetTime : timeval)
    (items : list json) (e : exn) :
  meetingData c <> JNull ->
  Date_getTime Date_parse (sessionTimeSelected c) = inr targetTime ->
  RegisterZoomStatic.iterate
    (RegisterZoomStatic.occurrences (get_prop (meetingData c) "occurrences")) = inr items ->
  RegisterZoomStatic.match_occurrence Date_parse targetTime items = inl e ->
  RegisterZoomStatic.handler_register Date_parse fetch c = ([], Thrown e).
Proof.
  intros Hmd Ht Hit Hm. unfold RegisterZoomStatic.handler_register.
  rewrite (prop_not_null _ _ Hmd), bind_lift, Ht, bind_lift. cbv zeta.
  rewrite Hit, bind_lift. now rewrite Hm.
Qed.

(** A throw of "Step 2" or "Step 3" before any of its effects. *)
Lemma handler_thrown (tr : list event) (R : M unit) (e : exn) :
  R = ([], Thrown e) ->
  try_catch (tr ++ fst R, snd R) handler_catch
  = (tr ++ [EConsoleError "register-zoom error:";
            ESend 500 (BJson [("success", boolean false);
                              ("error", str (if String.eqb (message e) ""
                                             then "Internal server error"
                                             else message e))])],
     Returned).
Proof. intros ->. cbn [fst snd]. rewrite app_nil_r. apply try_catch_thrown. Qed.

Lemma handler_returned (tr out : list event) (R : M unit) :
  R = (out, Returned) ->
  try_catch (tr ++ fst R, snd R) handler_catch = (tr ++ out, Returned).
Proof. now intros ->. Qed.

(** The registration call as the next effect of the handler. *)
Lemma handler_reaches (fetch : http_request -> E response) (rq : http_request)
    (props_of : json -> list (string * val)) (tr : list event) (R : M unit) :
  register_outcome fetch rq props_of R ->
  exists rest, fst (try_catch (tr ++ fst R, snd R) handler_catch) = tr ++ EFetch rq :: rest.
Proof.
  intros Hout. destruct (register_outcome_first _ _ _ _ Hout) as [rest Hfst].
  exact (handler_prefix tr R _ _ Hfst).
Qed.

(** The handler when the registration call succeeds. *)
Lemma handler_registered (fetch : http_request -> E response) (rq : http_request)
    (props_of : json -> list (string * val)) (tr : list event) (R : M unit)
    (r : response) (regData : json) :
  register_outcome fetch rq props_of R ->
  fetch rq = inr r -> ok r = true -> json_body r = inr regData -> regData <> JNull ->
  try_catch (tr ++ fst R, snd R) handler_catch
  = (tr ++ [EFetch rq; ESend 200 (BJson (props_of regData))], Returned).
Proof.
  intros [(r' & regData' & Hf' & _ & Hj' & _ & ->)
         |[(r' & t & Hf' & Hok' & _ & _)|(e & _ & Hcause)]] Hf Hok Hj Hn.
  - rewrite Hf in Hf'. injection Hf' as <-. rewrite Hj in Hj'. injection Hj' as <-.
    reflexivity.
  - rewrite Hf in Hf'. injection Hf' as <-. congruence.
  - exfalso. destruct Hcause as [He|(r' & Hf' & Hc)]; [congruence|].
    rewrite Hf in Hf'. injection Hf' as <-.
    destruct Hc as [[Hok' _]|[_ [Hj'|[Hj' _]]]]; congruence.
Qed.

(** [regBody] written out. *)
Lemma regBody_fields (c : locals) (e : json) :
  email c = Some e ->
  regBody c
  = JObj ([("email", e); ("first_name", JStr (first_name c));
           ("last_name", JStr (last_name c))]
          ++ match role c with
             | Some r =>
               if truthy (Some r)
               then [("custom_questions", JArr [JObj [("title", JStr "Role"); ("value", r)]])]
               else []
             | None => []
             end).
Proof.
  intros He. unfold regBody. rewrite He.
  destruct (role c) as [r|]; [|reflexivity]. now destruct (truthy (Some r)).
Qed.

Lemma truthy_defined (v : val) : truthy v = true -> exists j, v = Some j.
Proof. destruct v as [j|]; [now exists j | discriminate]. Qed.

Lemma has_query_app (a b : string) : has_query (a +++ b) = has_query a || has_query b.
Proof.
  induction a as [|ch a IH]; [reflexivity|]. cbn [String.append has_query].
  now rewrite IH, orb_assoc.
Qed.

Lemma encode_char_no_query (ch : ascii) :
  has_query (if uri_unreserved (code ch) then String ch ""
             else "%" +++ hex_digit (code ch / 16) +++ hex_digit (code ch mod 16)) = false.
Proof. destruct ch as [[] [] [] [] [] [] [] []]; vm_compute; reflexivity. Qed.

Lemma encode_no_query (s : string) : has_query (encodeURIComponent s) = false.
Proof.
  induction s as [|ch s IH]; [reflexivity|]. cbn [encodeURIComponent].
  now rewrite has_query_app, encode_char_no_query, IH.
Qed.

Lemma oauth_registrants_no_query (id : option string) :
  has_query (RegisterZoom.registrants_url id) = false.
Proof.
  unfold RegisterZoom.registrants_url. now rewrite !has_query_app, encode_no_query.
Qed.

(** C1 (as amended): on a POST, (1) a sessionTimeSelected that is absent
    or empty (falsy) makes the OAuth variant answer 400 with success:false
    as its only effect, before any upstream call; so does the static-token
    variant when the request has a body, and without one (or with the body
    [null]) it answers 500 with success:false from its catch block, also
    without any upstream call; (2) in the OAuth variant a sessionTimeSelected
    that is present gets to the timestamp test only after the token call and
    the meeting call: if it does not parse the answer is 400 with
    success:false, if its conversion throws the answer is 500 with
    success:false, in both cases right after these two calls, without a
    registration call; (3) the static-token variant has no such test: after
    its meeting call, against a target that is [NaN], the matching loop
    selects nothing and the next effect is the registration call to the
    registrants endpoint itself; if the conversion throws it answers 500
    with success:false. *)
Theorem unparsable_session_time (Date_parse : string -> option Z)
    (fetch : http_request -> E response) (env : environment) (req : request) :
  req_method req = "POST" ->
  (truthy (field_of req "sessionTimeSelected") = false ->
   RegisterZoom.handler Date_parse fetch env req
   = ([ESend 400
         (BJson [("success", boolean false);
                 ("error", str "Missing required fields: fullName, email, sessionTimeSelected")])],
      Returned)
   /\ (forall b, req_body req = Some b -> b <> JNull ->
         RegisterZoomStatic.handler Date_parse fetch env req
         = ([ESend 400
               (BJson [("success", boolean false);
                       ("error",
                        str "Missing required fields: fullName, email, sessionTimeSelected")])],
            Returned))
   /\ (req_body req = None \/ req_body req = Some JNull ->
       exists msg,
         RegisterZoomStatic.handler Date_parse fetch env req
         = ([EConsoleError "register-zoom error:";
             ESend 500 (BJson [("success", boolean false); ("error", str msg)])],
            Returned)))
  /\ (forall tr c,
        RegisterZoom.handler_prepare fetch env req = (tr, Val c) ->
        meetingData c <> JNull ->
        (exists auth,
            tr = [EFetch
                    {| rq_url := "https://zoom.us/oauth/token?grant_type=account_credentials&account_id="
                                 +++ encodeURIComponent (env_text (ZOOM_ACCOUNT_ID env));
                       rq_method := "POST";
                       rq_headers :=
                         [("Authorization",
                           "Basic " +++ base64 (env_text (ZOOM_CLIENT_ID env) +++ ":"
                                                +++ env_text (ZOOM_CLIENT_SECRET env)));
                          ("Content-Type", "application/x-www-form-urlencoded")];
                       rq_body := None |};
                  EFetch
                    {| rq_url := "https://api.zoom.us/v2/meetings/"
                                 +++ encodeURIComponent (env_text (ZOOM_MEETING_ID env));
                       rq_method := "GET";
                       rq_headers := [("Authorization", auth)];
                       rq_body := None |}])
        /\ (Date_getTime Date_parse (field_of req "sessionTimeSelected") = inr None ->
            RegisterZoom.handler Date_parse fetch env req
            = (tr ++ [ESend 400
                        (BJson [("success", boolean false);
                                ("error", str "Invalid sessionTimeSelected timestamp")])],
               Returned))
        /\ (forall e,
              Date_getTime Date_parse (field_of req "sessionTimeSelected") = inl e ->
              RegisterZoom.handler Date_parse fetch env req
              = (tr ++ [EConsoleError "register-zoom error:";
                        ESend 500 (BJson [("success", boolean false);
                                          ("error", str (if String.eqb (message e) ""
                                                         then "Internal server error"
                                                         else message e))])],
                 Returned)))
  /\ (forall tr c,
        RegisterZoomStatic.handler_prepare fetch env req = (tr, Val c) ->
        meetingData c <> JNull ->
        tr = [EFetch
                {| rq_url := "https://api.zoom.us/v2/meetings/"
                             +++ env_text (ZOOM_MEETING_ID env);
                   rq_method := "GET";
                   rq_headers := [("Authorization",
                                   "Bearer " +++ env_text (ZOOM_ACCESS_TOKEN env))];
                   rq_body := None |}]
        /\ (Date_getTime Date_parse (field_of req "sessionTimeSelected") = inr None ->
            forall items,
              RegisterZoomStatic.iterate
                (RegisterZoomStatic.occurrences (get_prop (meetingData c) "occurrences"))
              = inr items ->
              Forall (fun occ => readable Date_parse occ = true) items ->
              RegisterZoomStatic.match_occurrence Date_parse None items = inr best_init
              /\ exists rest,
                   fst (RegisterZoomStatic.handler Date_parse fetch env req)
                   = tr ++ EFetch
                             {| rq_url := "https://api.zoom.us/v2/meetings/"
                                          +++ env_text (ZOOM_MEETING_ID env)
                                          +++ "/registrants";
                                rq_method := "POST";
                                rq_headers :=
                                  [("Authorization",
                                    "Bearer " +++ env_text (ZOOM_ACCESS_TOKEN env));
                                   ("Content-Type", "application/json")];
                                rq_body := Some (regBody c) |} :: rest)
        /\ (forall e,
              Date_getTime Date_parse (field_of req "sessionTimeSelected") = inl e ->
              RegisterZoomStatic.handler Date_parse fetch env req
              = (tr ++ [EConsoleError "register-zoom error:";
                        ESend 500 (BJson [("success", boolean false);
                                          ("error", str (if String.eqb (message e) ""
                                                         then "Internal server error"
                                                         else message e))])],
                 Returned))).
Proof.
  intros Hpost. split; [|split].
  - intros Hss.
    assert (Hc : negb (truthy (field_of req "fullName"))
                 || negb (truthy (field_of req "email"))
                 || negb (truthy (field_of req "sessionTimeSelected")) = true)
      by (rewrite Hss; cbn [negb]; now rewrite orb_true_r).
    split; [now apply oauth_missing_field|]. split.
    + intros b Hb Hn. now apply static_missing_field with (b := b).
    + now apply static_no_body.
  - intros tr c Hprep Hmd.
    destruct (oauth_prepare_inv _ _ _ _ _ Hprep)
      as (_ & _ & Hs & Hid & _ & _ & _ & auth & _ & Htr).
    rewrite (oauth_handler_after Date_parse _ _ _ _ _ Hpost Hprep), <- Hs.
    split; [exists auth; rewrite Htr, Hid; reflexivity|]. split.
    + intros Ht. exact (handler_returned tr _ _ (oauth_register_invalid_target _ _ _ Hmd Ht)).
    + intros e Ht. exact (handler_thrown tr _ _ (oauth_register_target_throws _ _ _ _ Hmd Ht)).
  - intros tr c Hprep Hmd.
    destruct (static_prepare_inv _ _ _ _ _ Hprep)
      as (_ & _ & Hs & Hid & _ & _ & _ & _ & Ha & Htr).
    rewrite (static_handler_after Date_parse _ _ _ _ _ Hpost Hprep), <- Hs.
    split; [rewrite Htr, Hid; reflexivity|]. split.
    + intros Ht items Hit Hall.
      assert (Hm : RegisterZoomStatic.match_occurrence Date_parse None items = inr best_init)
        by (now apply match_nan_target).
      split; [exact Hm|]. rewrite <- Hid.
      exact (handler_reaches _ _ _ tr _
               (static_register_outcome Date_parse fetch c None items best_init _ _
                  Hmd Ht Hit Hm eq_refl Ha)).
    + intros e Ht.
      exact (handler_thrown tr _ _ (static_register_target_throws _ _ _ _ Hmd Ht)).
Qed.


(** C4 (as amended): in a list of occurrence entries that are readable
    (none is [null], no start time throws when it is converted, as with
    the strings the Zoom API sends), the entries whose start time does
    not parse are never the selected one and never make the loop throw,
    and the loop ends as it does on the list without them; this holds in
    both variants, whatever the target.  An entry that is not readable
    makes the loop of either variant throw, and the request then ends
    with 500 and success:false, without a registration call. *)
Theorem unparsable_entries_skipped (Date_parse : string -> option Z)
    (fetch : http_request -> E response) (env : environment) (req : request)
    (targetTime : timeval) (occs : list json) :
  (Forall (fun occ => readable Date_parse occ = true) occs ->
   exists st : best,
     RegisterZoom.match_occurrence Date_parse targetTime occs = inr st
     /\ RegisterZoomStatic.match_occurrence Date_parse targetTime occs = inr st
     /\ RegisterZoom.match_occurrence Date_parse targetTime (filter (parses Date_parse) occs)
        = inr st
     /\ RegisterZoomStatic.match_occurrence Date_parse targetTime
          (filter (parses Date_parse) occs) = inr st
     /\ (bestOccurrence st = Some JNull
         \/ exists occ, bestOccurrence st = Some occ /\ In occ occs
                        /\ parses Date_parse occ = true))
  /\ (Exists (fun occ => readable Date_parse occ = false) occs ->
      (exists e,
          RegisterZoom.match_occurrence Date_parse targetTime occs = inl e
          /\ RegisterZoomStatic.match_occurrence Date_parse targetTime occs = inl e)
      /\ (req_method req = "POST" ->
          (forall tr c target,
              RegisterZoom.handler_prepare fetch env req = (tr, Val c) ->
              get_prop (meetingData c) "occurrences" = Some (JArr occs) ->
              Date_getTime Date_parse (sessionTimeSelected c) = inr (Some target) ->
              exists msg,
                RegisterZoom.handler Date_parse fetch env req
                = (tr ++ [EConsoleError "register-zoom error:";
                          ESend 500 (BJson [("success", boolean false); ("error", str msg)])],
                   Returned))
          /\ (forall tr c,
                RegisterZoomStatic.handler_prepare fetch env req = (tr, Val c) ->
                get_prop (meetingData c) "occurrences" = Some (JArr occs) ->
                exists msg,
                  RegisterZoomStatic.handler Date_parse fetch env req
                  = (tr ++ [EConsoleError "register-zoom error:";
                            ESend 500 (BJson [("success", boolean false);
                                              ("error", str msg)])],
                     Returned)))).
Proof.
  split; [apply match_loop_readable|]. intros Hbad. split; [|intros Hpost; split].
  - destruct (match_loop_unreadable Date_parse targetTime occs Hbad best_init) as [e He].
    exists e. rewrite <- match_occurrence_agree. now split.
  - intros tr c target Hprep Hocc Ht.
    rewrite (oauth_handler_after Date_parse _ _ _ _ _ Hpost Hprep).
    destruct (match_loop_unreadable Date_parse (Some target) occs Hbad best_init) as [e He].
    eexists. apply (handler_thrown tr _ e).
    apply oauth_register_loop_throws with (target := target);
      [exact (get_prop_some_not_null _ _ _ Hocc) | exact Ht | now rewrite Hocc].
  - intros tr c Hprep Hocc.
    rewrite (static_handler_after Date_parse _ _ _ _ _ Hpost Hprep).
    pose proof (get_prop_some_not_null _ _ _ Hocc) as Hmd.
    destruct (Date_getTime Date_parse (sessionTimeSelected c)) as [e|targetTime'] eqn:Ht.
    + eexists. exact (handler_thrown tr _ e (static_register_target_throws _ _ _ _ Hmd Ht)).
    + destruct (match_loop_unreadable Date_parse targetTime' occs Hbad best_init) as [e He].
      eexists. apply (handler_thrown tr _ e).
      apply static_register_loop_throws with (targetTime := targetTime') (items := occs);
        [exact Hmd | exact Ht | now rewrite Hocc |].
      rewrite <- match_occurrence_agree. exact He.
Qed.

(** C6: once a POST is through validation, configuration, token and
    meeting fetch, a meeting whose occurrence list is absent or empty has
    no occurrence selected and the next effect is the registration call,
    the POST written out below to the registrants endpoint itself, whose
    URL has no query part; when that call succeeds with a JSON body the
    handler answers 200 with success:true and the empty string as
    occurrence_id.  This holds in both variants, in the OAuth variant for
    a target that parses (which is what lets it get there), in the
    static-token variant for a sessionTimeSelected whose conversion does
    not throw. *)
Theorem no_occurrence_registers_meeting (Date_parse : string -> option Z)
    (fetch : http_request -> E response) (env : environment) (req : request) :
  req_method req = "POST" ->
  (forall tr c target,
      RegisterZoom.handler_prepare fetch env req = (tr, Val c) ->
      meetingData c <> JNull ->
      get_prop (meetingData c) "occurrences" = None
      \/ get_prop (meetingData c) "occurrences" = Some (JArr []) ->
      Date_getTime Date_parse (sessionTimeSelected c) = inr (Some target) ->
      exists token e,
        val_to_string (TOKEN c) = inr token
        /\ email c = Some e
        /\ let rq :=
             {| rq_url := "https://api.zoom.us/v2/meetings/"
                          +++ encodeURIComponent (env_text (ZOOM_MEETING_ID env))
                          +++ "/registrants";
                rq_method := "POST";
                rq_headers := [("Authorization", "Bearer " +++ token);
                               ("Content-Type", "application/json")];
                rq_body :=
                  Some (JObj ([("email", e); ("first_name", JStr (first_name c));
                               ("last_name", JStr (last_name c))]
                              ++ match role c with
                                 | Some r =>
                                   if truthy (Some r)
                                   then [("custom_questions",
                                          JArr [JObj [("title", JStr "Role"); ("value", r)]])]
                                   else []
                                 | None => []
                                 end)) |} in
           RegisterZoom.match_occurrence Date_parse (Some target)
             (RegisterZoom.occurrences (get_prop (meetingData c) "occurrences"))
           = inr best_init
           /\ bestOccurrence best_init = Some JNull
           /\ has_query (rq_url rq) = false
           /\ (exists rest,
                  fst (RegisterZoom.handler Date_parse fetch env req) = tr ++ EFetch rq :: rest)
           /\ (forall r regData,
                 fetch rq = inr r -> ok r = true -> json_body r = inr regData ->
                 regData <> JNull ->
                 exists props,
                   RegisterZoom.handler Date_parse fetch env req
                   = (tr ++ [EFetch rq; ESend 200 (BJson props)], Returned)
                   /\ field "success" props = boolean true
                   /\ field "occurrence_id" props = str ""
                   /\ In ("occurrence_id", JStr "") (stringify_props props)))
  /\ (forall tr c targetTime,
        RegisterZoomStatic.handler_prepare fetch env req = (tr, Val c) ->
        meetingData c <> JNull ->
        get_prop (meetingData c) "occurrences" = None
        \/ get_prop (meetingData c) "occurrences" = Some (JArr []) ->
        Date_getTime Date_parse (sessionTimeSelected c) = inr targetTime ->
        exists e,
          email c = Some e
          /\ let rq :=
               {| rq_url := "https://api.zoom.us/v2/meetings/"
                            +++ env_text (ZOOM_MEETING_ID env) +++ "/registrants";
                  rq_method := "POST";
                  rq_headers := [("Authorization",
                                  "Bearer " +++ env_text (ZOOM_ACCESS_TOKEN env));
                                 ("Content-Type", "application/json")];
                  rq_body :=
                    Some (JObj ([("email", e); ("first_name", JStr (first_name c));
                                 ("last_name", JStr (last_name c))]
                                ++ match role c with
                                   | Some r =>
                                     if truthy (Some r)
                                     then [("custom_questions",
                                            JArr [JObj [("title", JStr "Role");
                                                        ("value", r)]])]
                                     else []
                                   | None => []
                                   end)) |} in
             RegisterZoomStatic.iterate
               (RegisterZoomStatic.occurrences (get_prop (meetingData c) "occurrences"))
             = inr []
             /\ RegisterZoomStatic.match_occurrence Date_parse targetTime [] = inr best_init
             /\ (exists rest,
                    fst (RegisterZoomStatic.handler Date_parse fetch env req)
                    = tr ++ EFetch rq :: rest)
             /\ (forall r regData,
                   fetch rq = inr r -> ok r = true -> json_body r = inr regData ->
                   regData <> JNull ->
                   exists props,
                     RegisterZoomStatic.handler Date_parse fetch env req
                     = (tr ++ [EFetch rq; ESend 200 (BJson props)], Returned)
                     /\ field "success" props = boolean true
                     /\ field "occurrence_id" props = str ""
                     /\ In ("occurrence_id", JStr "") (stringify_props props))).
Proof.
  intros Hpost. split.
  - intros tr c target Hprep Hmd Hocc Ht.
    destruct (oauth_prepare_inv _ _ _ _ _ Hprep)
      as (_ & _ & _ & Hid & Hem & _ & _ & auth & Ha & _).
    destruct (truthy_defined _ Hem) as [e He].
    destruct (bearer_inv _ _ Ha) as (token & Htoken & ->).
    exists token, e. split; [exact Htoken|]. split; [exact He|]. cbv zeta.
    assert (Hnil : RegisterZoom.occurrences (get_prop (meetingData c) "occurrences") = [])
      by (destruct Hocc as [-> | ->]; reflexivity).
    assert (Hm : RegisterZoom.match_occurrence Date_parse (Some target)
                   (RegisterZoom.occurrences (get_prop (meetingData c) "occurrences"))
                 = inr best_init) by (now rewrite Hnil).
    pose proof (oauth_register_outcome Date_parse fetch c target best_init _ _
                  Hmd Ht Hm eq_refl eq_refl Ha) as Hout.
    rewrite (regBody_fields c e He) in Hout. unfold RegisterZoom.registrants_url in Hout.
    rewrite Hid in Hout.
    rewrite (oauth_handler_after Date_parse _ _ _ _ _ Hpost Hprep).
    split; [exact Hm|]. split; [reflexivity|].
    split; [apply (oauth_registrants_no_query (ZOOM_MEETING_ID env))|]. split.
    + exact (handler_reaches _ _ _ tr _ Hout).
    + intros r regData Hf Hr Hj Hn.
      rewrite (handler_registered _ _ _ tr _ r regData Hout Hf Hr Hj Hn).
      eexists. split; [reflexivity|]. split; [reflexivity|]. split; [reflexivity|].
      cbn [oauth_success_props success_props app stringify_props boolean].
      destruct (js_or_defined (get_prop regData "join_url") "") as [j ->].
      destruct (js_or_defined
                  (js_or (get_prop regData "registrant_id")
                         (if truthy (get_prop regData "registrant_id")
                          then undefined else get_prop regData "id")) "") as [i ->].
      cbn. tauto.
  - intros tr c targetTime Hprep Hmd Hocc Ht.
    destruct (static_prepare_inv _ _ _ _ _ Hprep)
      as (_ & _ & _ & Hid & _ & Hem & _ & _ & Ha & _).
    destruct (truthy_defined _ Hem) as [e He].
    exists e. split; [exact He|]. cbv zeta.
    assert (Hnil : RegisterZoomStatic.iterate
                     (RegisterZoomStatic.occurrences (get_prop (meetingData c) "occurrences"))
                   = inr [])
      by (destruct Hocc as [-> | ->]; reflexivity).
    pose proof (static_register_outcome Date_parse fetch c targetTime [] best_init _ _
                  Hmd Ht Hnil eq_refl eq_refl Ha) as Hout.
    rewrite (regBody_fields c e He) in Hout.
    unfold RegisterZoomStatic.registrants_url in Hout. rewrite Hid in Hout.
    rewrite (static_handler_after Date_parse _ _ _ _ _ Hpost Hprep).
    split; [exact Hnil|]. split; [reflexivity|]. split.
    + exact (handler_reaches _ _ _ tr _ Hout).
    + intros r regData Hf Hr Hj Hn.
      rewrite (handler_registered _ _ _ tr _ r regData Hout Hf Hr Hj Hn).
      eexists. split; [reflexivity|]. split; [reflexivity|]. split; [reflexivity|].
      cbn [success_props stringify_props boolean].
      destruct (js_or_defined (get_prop regData "join_url") "") as [j ->].
      destruct (js_or_defined
                  (js_or (get_prop regData "registrant_id")
                         (if truthy (get_prop regData "registrant_id")
                          then undefined else get_prop regData "id")) "") as [i ->].
      cbn. tauto.
Qed.

(** ** The scenarios of the specification, run *)

Example scenario_closest_occurrence :
  RegisterZoom.match_occurrence iso_utc_parse (iso_utc_parse "2024-05-01T10:00:00Z")
    two_occurrences
  = inr {| bestOccurrence := Some (occurrence "1" "2024-05-01T09:59:00Z");
           bestDiff := Num 60000 |}
  /\ urls (fst (RegisterZoom.handler iso_utc_parse (oauth_world two_occurrences)
                   sample_env ann_lee))
     = ["https://zoom.us/oauth/token?grant_type=account_credentials&account_id=acct";
        "https://api.zoom.us/v2/meetings/123";
        "https://api.zoom.us/v2/meetings/123/registrants?occurrence_ids=1"]
  /\ sends (fst (RegisterZoom.handler iso_utc_parse (oauth_world two_occurrences)
                    sample_env ann_lee))
     = [ESend 200
          (BJson [("success", boolean true);
                  ("join_url", str "https://zoom.example/j/1");
                  ("registrant_id", str "r-1");
                  ("occurrence_id", str "1");
                  ("matched_start_time", str "2024-05-01T09:59:00Z")])].
Proof. repeat split; vm_compute; reflexivity. Qed.

Example scenario_missing_session_time :
  RegisterZoom.handler iso_utc_parse (oauth_world two_occurrences) sample_env no_session_time
  = ([ESend 400 (BJson [("success", boolean false);
                        ("error", str "Missing required fields: fullName, email, sessionTimeSelected")])],
     Returned)
  /\ RegisterZoomStatic.handler iso_utc_parse (oauth_world two_occurrences) sample_env
       no_session_time
     = ([ESend 400 (BJson [("success", boolean false);
                           ("error", str "Missing required fields: fullName, email, sessionTimeSelected")])],
        Returned).
Proof. split; vm_compute; reflexivity. Qed.

Example scenario_meeting_not_found :
  sends (fst (RegisterZoom.handler iso_utc_parse meeting_not_found sample_env ann_lee))
  = [ESend 500 (BJson [("success", boolean false);
                       ("error", str "Failed to fetch Zoom meeting details")])]
  /\ sends (fst (RegisterZoomStatic.handler iso_utc_parse meeting_not_found sample_env ann_lee))
     = [ESend 500 (BJson [("success", boolean false);
                          ("error", str "Failed to fetch Zoom meeting details")])].
Proof. split; vm_compute; reflexivity. Qed.

Example scenario_not_post :
  RegisterZoom.handler iso_utc_parse (oauth_world two_occurrences) sample_env
    {| req_method := "GET"; req_body := None |}
  = ([ESend 405 (BJson [("success", boolean false); ("error", str "Method not allowed")])],
     Returned)
  /\ RegisterZoho.handler (oauth_world []) sample_env {| req_method := "GET"; req_body := None |}
     = ([ESetHeader "Allow" "POST"; ESend 405 (BJson [("error", str "Method not allowed")])],
        Returned).
Proof. split; vm_compute; reflexivity. Qed.

(** Beyond 2^53 the difference is rounded: two entries one millisecond
    apart can be at the same computed distance, and the earlier one is
    kept. *)
Example rounded_difference :
  abs_diff (Some 8639999999999997) (Some (-8640000000000000)) = Num 17279999999999996
  /\ abs_diff (Some 8639999999999996) (Some (-8640000000000000)) = Num 17279999999999996.
Proof. split; vm_compute; reflexivity. Qed.

(** Conversions to a string: numbers as the engine prints them, an array
    by its elements, an object with an own [toString] not at all. *)
Example conversions :
  map Number_toString [42; -7; 2 ^ 53 + 1; 2 ^ 64; 10 ^ 21; 2 ^ 70]
  = ["42"; "-7"; "9007199254740992"; "18446744073709552000"; "1e+21";
     "1.1805916207174113e+21"]
  /\ to_string (JArr [JNum 1; JNull; JArr [JStr "a"; JBool true]; JObj []])
     = inr "1,,a,true,[object Object]"
  /\ to_string no_string = inl (TypeError "Cannot convert object to primitive value")
  /\ to_string (JArr [JNum 1; no_string])
     = inl (TypeError "Cannot convert object to primitive value")
  /\ Date_getTime iso_utc_parse (Some no_string)
     = inl (TypeError "Cannot convert object to primitive value")
  /\ Date_getTime iso_utc_parse (Some (JArr [JStr "2024-05-01T10:00:00Z"]))
     = inr (Some 1714557600000)
  /\ Date_getTime iso_utc_parse (Some JNull) = inr (Some 0)
  /\ Date_getTime iso_utc_parse undefined = inr None.
Proof. repeat split; vm_compute; reflexivity. Qed.

(** ** The statements at concrete requests *)

(** A present but unparsable session time: the OAuth variant answers 400
    only after two upstream calls, the static-token variant registers and
    answers 200. *)
Lemma unparsable_session_time_counterexample :
  Date_getTime iso_utc_parse (field_of garbage_time "sessionTimeSelected") = inr None
  /\ urls (fst (RegisterZoom.handler iso_utc_parse (oauth_world two_occurrences)
                  sample_env garbage_time))
     = ["https://zoom.us/oauth/token?grant_type=account_credentials&account_id=acct";
        "https://api.zoom.us/v2/meetings/123"]
  /\ sends (fst (RegisterZoom.handler iso_utc_parse (oauth_world two_occurrences)
                   sample_env garbage_time))
     = [ESend 400 (BJson [("success", boolean false);
                          ("error", str "Invalid sessionTimeSelected timestamp")])]
  /\ urls (fst (RegisterZoomStatic.handler iso_utc_parse (oauth_world two_occurrences)
                  sample_env garbage_time))
     = ["https://api.zoom.us/v2/meetings/123";
        "https://api.zoom.us/v2/meetings/123/registrants"]
  /\ sends (fst (RegisterZoomStatic.handler iso_utc_parse (oauth_world two_occurrences)
                   sample_env garbage_time))
     = [ESend 200
          (BJson [("success", boolean true);
                  ("join_url", str "https://zoom.example/j/1");
                  ("registrant_id", str "r-1");
                  ("occurrence_id", str "")])].
Proof. repeat split; vm_compute; reflexivity. Qed.

Lemma unparsable_session_time_witness :
  req_method garbage_time = "POST"
  /\ Date_getTime iso_utc_parse (field_of garbage_time "sessionTimeSelected") = inr None
  /\ (exists tr,
         List.length tr = 2%nat
         /\ RegisterZoom.handler iso_utc_parse (oauth_world two_occurrences) sample_env
              garbage_time
            = (tr ++ [ESend 400 (BJson [("success", boolean false);
                                        ("error", str "Invalid sessionTimeSelected timestamp")])],
               Returned))
  /\ exists tr,
       List.length tr = 2%nat
       /\ RegisterZoom.handler iso_utc_parse (oauth_world two_occurrences) sample_env
            odd_session_time
          = (tr ++ [EConsoleError "register-zoom error:";
                    ESend 500 (BJson [("success", boolean false);
                                      ("error",
                                       str "Cannot convert object to primitive value")])],
             Returned).
Proof.
  split; [reflexivity|]. split; [reflexivity|]. split.
  - destruct (unparsable_session_time iso_utc_parse (oauth_world two_occurrences) sample_env
                garbage_time eq_refl) as (_ & Hb & _).
    edestruct Hb as (_ & Hrun & _).
    + reflexivity.
    + discriminate.
    + eexists. split; [|exact (Hrun eq_refl)]. reflexivity.
  - destruct (unparsable_session_time iso_utc_parse (oauth_world two_occurrences) sample_env
                odd_session_time eq_refl) as (_ & Hb & _).
    edestruct Hb as (_ & _ & Hrun).
    + reflexivity.
    + discriminate.
    + eexists. split; [|exact (Hrun _ eq_refl)]. reflexivity.
Defined.

Lemma match_selects_first_closest_witness :
  Forall (fun occ => parses iso_utc_parse occ = true) two_occurrences
  /\ exists i occ d,
       RegisterZoomStatic.match_occurrence iso_utc_parse (Some 1714557600000) two_occurrences
       = inr {| bestOccurrence := Some occ; bestDiff := Num d |}
       /\ closest iso_utc_parse 1714557600000 two_occurrences i occ d.
Proof.
  assert (H : Forall (fun occ => parses iso_utc_parse occ = true) two_occurrences)
    by (repeat constructor).
  split; [exact H|].
  destruct (match_selects_first_closest iso_utc_parse 1714557600000 two_occurrences H)
    as (Heq & _ & i & occ & d & Hrun & Hc & _).
  exists i, occ, d. split; [now rewrite Heq | exact Hc].
Defined.



(** An entry whose start time does not parse, and a [null] entry, each
    make the request fail: 500 after the meeting call, no registration
    call, where the same list without the entry leads to 200. *)
Lemma unparsable_entries_skipped_counterexample :
  map (parses iso_utc_parse) odd_start_time = [true; false]
  /\ sends (fst (RegisterZoom.handler iso_utc_parse (oauth_world odd_start_time)
                   sample_env ann_lee))
     = [ESend 500 (BJson [("success", boolean false);
                          ("error", str "Cannot convert object to primitive value")])]
  /\ urls (fst (RegisterZoom.handler iso_utc_parse (oauth_world odd_start_time)
                  sample_env ann_lee))
     = ["https://zoom.us/oauth/token?grant_type=account_credentials&account_id=acct";
        "https://api.zoom.us/v2/meetings/123"]
  /\ sends (fst (RegisterZoomStatic.handler iso_utc_parse (oauth_world odd_start_time)
                   sample_env ann_lee))
     = [ESend 500 (BJson [("success", boolean false);
                          ("error", str "Cannot convert object to primitive value")])]
  /\ map (parses iso_utc_parse) with_null = [true; false]
  /\ sends (fst (RegisterZoom.handler iso_utc_parse (oauth_world with_null)
                   sample_env ann_lee))
     = [ESend 500
          (BJson [("success", boolean false);
                  ("error", str "Cannot read properties of null (reading 'start_time')")])]
  /\ sends (fst (RegisterZoom.handler iso_utc_parse
                   (oauth_world (filter (parses iso_utc_parse) odd_start_time))
                   sample_env ann_lee))
     = [ESend 200
          (BJson [("success", boolean true);
                  ("join_url", str "https://zoom.example/j/1");
                  ("registrant_id", str "r-1");
                  ("occurrence_id", str "1");
                  ("matched_start_time", str "2024-05-01T09:59:00Z")])].
Proof. repeat split; vm_compute; reflexivity. Qed.

Lemma unparsable_entries_skipped_witness :
  (Forall (fun occ => readable iso_utc_parse occ = true) with_unparsable
   /\ filter (parses iso_utc_parse) with_unparsable = [occurrence "1" "2024-05-01T09:59:00Z"]
   /\ exists st,
        RegisterZoomStatic.match_occurrence iso_utc_parse (Some 1714557600000) with_unparsable
        = inr st
        /\ RegisterZoom.match_occurrence iso_utc_parse (Some 1714557600000)
             (filter (parses iso_utc_parse) with_unparsable) = inr st)
  /\ (Exists (fun occ => readable iso_utc_parse occ = false) odd_start_time
      /\ exists msg,
           RegisterZoom.handler iso_utc_parse (oauth_world odd_start_time) sample_env ann_lee
           = ([EFetch (RegisterZoom.token_request "acct" "cid" "secret");
               EFetch (meeting_request "https://api.zoom.us/v2/meetings/123" "Bearer tok")]
              ++ [EConsoleError "register-zoom error:";
                  ESend 500 (BJson [("success", boolean false); ("error", str msg)])],
              Returned)).
Proof.
  split.
  - assert (H : Forall (fun occ => readable iso_utc_parse occ = true) with_unparsable)
      by (repeat constructor).
    split; [exact H|]. split; [reflexivity|].
    destruct (unparsable_entries_skipped iso_utc_parse (oauth_world []) sample_env ann_lee
                (Some 1714557600000) with_unparsable) as [Hgood _].
    destruct (Hgood H) as (st & _ & H2 & H3 & _).
    exists st. now split.
  - assert (H : Exists (fun occ => readable iso_utc_parse occ = false) odd_start_time)
      by (right; left; reflexivity).
    split; [exact H|].
    destruct (unparsable_entries_skipped iso_utc_parse (oauth_world odd_start_time) sample_env
                ann_lee (Some 1714557600000) odd_start_time) as [_ Hbad].
    destruct (Hbad H) as [_ Hreq]. destruct (Hreq eq_refl) as [Hoauth _].
    exact (Hoauth _ (ann_lee_locals "tok" (meeting odd_start_time)) 1714557600000
             eq_refl eq_refl eq_refl).
Defined.

Lemma no_occurrence_registers_meeting_witness :
  (exists tr props,
      RegisterZoom.handler iso_utc_parse (oauth_world []) sample_env ann_lee
      = (tr ++ [EFetch {| rq_url := "https://api.zoom.us/v2/meetings/123/registrants";
                          rq_method := "POST";
                          rq_headers := [("Authorization", "Bearer tok");
                                         ("Content-Type", "application/json")];
                          rq_body := Some (JObj [("email", JStr "a@x.com");
                                                 ("first_name", JStr "Ann");
                                                 ("last_name", JStr "Lee")]) |};
                ESend 200 (BJson props)],
         Returned)
      /\ field "occurrence_id" props = str "")
  /\ (exists tr props,
         RegisterZoomStatic.handler iso_utc_parse (oauth_world []) sample_env ann_lee
         = (tr ++ [EFetch {| rq_url := "https://api.zoom.us/v2/meetings/123/registrants";
                             rq_method := "POST";
                             rq_headers := [("Authorization", "Bearer static-token");
                                            ("Content-Type", "application/json")];
                             rq_body := Some (JObj [("email", JStr "a@x.com");
                                                    ("first_name", JStr "Ann");
                                                    ("last_name", JStr "Lee")]) |};
                   ESend 200 (BJson props)],
            Returned)
         /\ field "occurrence_id" props = str "").
Proof.
  destruct (no_occurrence_registers_meeting iso_utc_parse (oauth_world []) sample_env ann_lee
              eq_refl) as [Hoauth Hstatic].
  split.
  - destruct (Hoauth _ (ann_lee_locals "tok" (meeting [])) 1714557600000 eq_refl)
      as (token & e & Ha & He & _ & _ & _ & _ & Hok);
      [discriminate | right; reflexivity | reflexivity |].
    injection Ha as <-. injection He as <-.
    destruct (Hok registered _ eq_refl eq_refl eq_refl) as (props & Hrun & _ & Hid & _);
      [discriminate|].
    eexists _, props. split; [exact Hrun | exact Hid].
  - destruct (Hstatic _ (ann_lee_locals "static-token" (meeting [])) (Some 1714557600000)
                eq_refl)
      as (e & He & _ & _ & _ & Hok);
      [discriminate | right; reflexivity | reflexivity |].
    injection He as <-.
    destruct (Hok registered _ eq_refl eq_refl eq_refl) as (props & Hrun & _ & Hid & _);
      [discriminate|].
    eexists _, props. split; [exact Hrun | exact Hid].
Defined.

Lemma zoho_relay_witness :
  RegisterZoho.handler (oauth_world []) sample_env ann_lee
  = ([EFetch {| rq_url := "https://flow.zoho.example/hook"; rq_method := "POST";
                rq_headers := [("Content-Type", "application/json")];
                rq_body := req_body ann_lee |};
      ESend 201 (BText "{..}")],
     Returned)
  /\ RegisterZoho.handler unreachable sample_env ann_lee
     = ([EFetch {| rq_url := "https://flow.zoho.example/hook"; rq_method := "POST";
                   rq_headers := [("Content-Type", "application/json")];
                   rq_body := req_body ann_lee |};
         ESend 500 (BJson [("error", str "fetch failed")])],
        Returned).
Proof.
  split.
  - destruct (zoho_relay (oauth_world []) sample_env ann_lee eq_refl) as [_ H].
    destruct (H "https://flow.zoho.example/hook" eq_refl) as [Hok _]; [discriminate|].
    exact (Hok registered eq_refl).
  - destruct (zoho_relay unreachable sample_env ann_lee eq_refl) as [_ H].
    destruct (H "https://flow.zoho.example/hook" eq_refl) as [_ Herr]; [discriminate|].
    exact (Herr (Error "fetch failed") eq_refl).
Defined.

(** A token response that holds the field [access_token], empty, makes the
    acquisition throw; one that holds a number makes it return the
    number, which is no string. *)
Lemma token_acquisition_counterexample :
  ok token_empty = true
  /\ (exists data, json_body token_empty = inr data
                   /\ get_prop data "access_token" = Some (JStr ""))
  /\ RegisterZoom.getZoomAccessToken (sample_fetch token_empty (meeting []) registered)
       "acct" "cid" "secret"
     = ([EFetch (RegisterZoom.token_request "acct" "cid" "secret")],
        Thrown (Error "Zoom token response missing access_token"))
  /\ RegisterZoom.getZoomAccessToken (sample_fetch token_numeric (meeting []) registered)
       "acct" "cid" "secret"
     = ([EFetch (RegisterZoom.token_request "acct" "cid" "secret")], Val (Some (JNum 42)))
  /\ forall s, Some (JNum 42) <> Some (JStr s).
Proof.
  split; [reflexivity|]. split; [eexists; split; reflexivity|].
  split; [reflexivity|]. split; [reflexivity | discriminate].
Qed.

Lemma token_acquisition_witness :
  RegisterZoom.handler iso_utc_parse (sample_fetch token_denied (meeting []) registered)
    sample_env ann_lee
  = ([EFetch {| rq_url := "https://zoom.us/oauth/token?grant_type=account_credentials&account_id=acct";
                rq_method := "POST";
                rq_headers := [("Authorization", "Basic Y2lkOnNlY3JldA==");
                               ("Content-Type", "application/x-www-form-urlencoded")];
                rq_body := None |};
      EConsoleError "register-zoom error:";
      ESend 500 (BJson [("success", boolean false);
                        ("error", str "Zoom token error: 401 unauthorized")])],
     Returned).
Proof.
  destruct (token_acquisition iso_utc_parse (sample_fetch token_denied (meeting []) registered)
              sample_env ann_lee) as (_ & _ & _ & Hdenied & _ & Hhandler).
  exact (Hhandler (Error "Zoom token error: 401 unauthorized") "Ann Lee"
           eq_refl eq_refl eq_refl eq_refl eq_refl eq_refl eq_refl eq_refl eq_refl
           (Hdenied token_denied "unauthorized" eq_refl eq_refl eq_refl)).
Defined.

(** The success object of the OAuth variant has a fifth property; the
    body sent by either variant lacks occurrence_id when the selected
    entry has none. *)
Lemma success_body_fields_counterexample :
  (exists props,
      sends (fst (RegisterZoom.handler iso_utc_parse (oauth_world two_occurrences)
                    sample_env ann_lee))
      = [ESend 200 (BJson props)]
      /\ map fst (stringify_props props)
         = ["success"; "join_url"; "registrant_id"; "occurrence_id"; "matched_start_time"]
      /\ map fst (stringify_props props)
         <> ["success"; "join_url"; "registrant_id"; "occurrence_id"])
  /\ (exists props,
         sends (fst (RegisterZoomStatic.handler iso_utc_parse (oauth_world without_id)
                       sample_env ann_lee))
         = [ESend 200 (BJson props)]
         /\ map fst (stringify_props props) = ["success"; "join_url"; "registrant_id"]
         /\ map fst (stringify_props props)
            <> ["success"; "join_url"; "registrant_id"; "occurrence_id"]).
Proof.
  split; eexists; (split; [vm_compute; reflexivity|]); (split; [reflexivity | discriminate]).
Qed.

Lemma success_body_fields_witness :
  (exists body props,
      In (ESend 200 body)
         (fst (RegisterZoomStatic.handler iso_utc_parse (oauth_world two_occurrences)
                 sample_env ann_lee))
      /\ body = BJson props
      /\ map fst (stringify_props props)
         = ["success"; "join_url"; "registrant_id"; "occurrence_id"])
  /\ (exists body props,
         In (ESend 200 body)
            (fst (RegisterZoom.handler iso_utc_parse (oauth_world without_id)
                    sample_env ann_lee))
         /\ body = BJson props
         /\ map fst (stringify_props props)
            = ["success"; "join_url"; "registrant_id"; "matched_start_time"]).
Proof.
  split.
  - pose (body := BJson [("success", boolean true);
                         ("join_url", str "https://zoom.example/j/1");
                         ("registrant_id", str "r-1");
                         ("occurrence_id", str "1")]).
    assert (Hin : In (ESend 200 body)
                     (fst (RegisterZoomStatic.handler iso_utc_parse
                             (oauth_world two_occurrences) sample_env ann_lee)))
      by (vm_compute; right; right; left; reflexivity).
    destruct (success_body_fields iso_utc_parse (oauth_world two_occurrences) sample_env
                ann_lee 200 body eq_refl) as [Hstatic _].
    destruct (Hstatic Hin) as (tr & c & t & items & st & props & _ & _ & _ & _ & Hbody & _ & _
                               & _ & Hsent).
    exists body, props. split; [exact Hin|]. split; [exact Hbody|].
    injection Hbody as <-. exact Hsent.
  - pose (body := BJson [("success", boolean true);
                         ("join_url", str "https://zoom.example/j/1");
                         ("registrant_id", str "r-1");
                         ("occurrence_id", undefined);
                         ("matched_start_time", str "2024-05-01T09:59:00Z")]).
    assert (Hin : In (ESend 200 body)
                     (fst (RegisterZoom.handler iso_utc_parse (oauth_world without_id)
                             sample_env ann_lee)))
      by (vm_compute; right; right; right; left; reflexivity).
    destruct (success_body_fields iso_utc_parse (oauth_world without_id) sample_env
                ann_lee 200 body eq_refl) as [_ Hoauth].
    destruct (Hoauth Hin) as (tr & c & t & st & props & _ & _ & _ & Hbody & _ & _ & _ & Hsent).
    exists body, props. split; [exact Hin|]. split; [exact Hbody|].
    injection Hbody as <-. exact Hsent.
Defined.

(** * Further properties of the handlers *)

(** ** Rejections before any upstream call *)

(** X1: a request whose method is not POST gets 405 and nothing else
    happens: no upstream call in any of the three handlers; the relay
    first sets the header Allow: POST. *)
Theorem method_not_allowed (Date_parse : string -> option Z)
    (fetch : http_request -> E response) (env : environment) (req : request) :
  req_method req <> "POST" ->
  RegisterZoom.handler Date_parse fetch env req
  = ([ESend 405 (BJson [("success", boolean false); ("error", str "Method not allowed")])],
     Returned)
  /\ RegisterZoomStatic.handler Date_parse fetch env req
     = ([ESend 405 (BJson [("success", boolean false); ("error", str "Method not allowed")])],
        Returned)
  /\ RegisterZoho.handler fetch env req
     = ([ESetHeader "Allow" "POST"; ESend 405 (BJson [("error", str "Method not allowed")])],
        Returned).
Proof.
  intros Hm. apply not_post in Hm.
  unfold RegisterZoom.handler, RegisterZoomStatic.handler, RegisterZoho.handler.
  rewrite Hm. repeat split.
Qed.

(** X2: a POST in which fullName, email or sessionTimeSelected is missing
    or falsy (empty string, null, 0, false) gets 400 "Missing required
    fields ..." as the only effect, whatever the configuration: in the
    OAuth variant for every body, in the static-token variant for every
    body other than [null]. *)
Theorem missing_required_field (Date_parse : string -> option Z)
    (fetch : http_request -> E response) (env : environment) (req : request) :
  req_method req = "POST" ->
  truthy (field_of req "fullName") = false
  \/ truthy (field_of req "email") = false
  \/ truthy (field_of req "sessionTimeSelected") = false ->
  RegisterZoom.handler Date_parse fetch env req
  = ([ESend 400
        (BJson [("success", boolean false);
                ("error", str "Missing required fields: fullName, email, sessionTimeSelected")])],
     Returned)
  /\ (forall b, req_body req = Some b -> b <> JNull ->
        RegisterZoomStatic.handler Date_parse fetch env req
        = ([ESend 400
              (BJson [("success", boolean false);
                      ("error",
                       str "Missing required fields: fullName, email, sessionTimeSelected")])],
           Returned)).
Proof.
  intros Hpost Hmiss.
  assert (Hc : negb (truthy (field_of req "fullName")) || negb (truthy (field_of req "email"))
               || negb (truthy (field_of req "sessionTimeSelected")) = true).
  { destruct Hmiss as [H|[H|H]]; rewrite H; cbn [negb]; rewrite ?orb_true_r; reflexivity. }
  split.
  - now apply oauth_missing_field.
  - intros b Hb Hn. now apply static_missing_field with (b := b).
Qed.

(** X3: a POST without a body (or with the body [null]): the OAuth variant
    reads the fields from [{}] and answers 400 "Missing required fields
    ..."; the static-token variant throws on the destructuring and its
    catch block answers 500 with success:false; neither makes an upstream
    call. *)
Theorem absent_body (Date_parse : string -> option Z)
    (fetch : http_request -> E response) (env : environment) (req : request) :
  req_method req = "POST" ->
  req_body req = None \/ req_body req = Some JNull ->
  RegisterZoom.handler Date_parse fetch env req
  = ([ESend 400
        (BJson [("success", boolean false);
                ("error", str "Missing required fields: fullName, email, sessionTimeSelected")])],
     Returned)
  /\ exists msg,
       RegisterZoomStatic.handler Date_parse fetch env req
       = ([EConsoleError "register-zoom error:";
           ESend 500 (BJson [("success", boolean false); ("error", str msg)])],
          Returned).
Proof.
  intros Hpost Hbody. split.
  - unfold RegisterZoom.handler, RegisterZoom.handler_try, RegisterZoom.handler_prepare.
    rewrite Hpost. destruct Hbody as [-> | ->]; reflexivity.
  - now apply static_no_body.
Qed.

(** The static-token handler on a POST with the three fields present. *)
Ltac static_validated Hpost Hfn Hem Hss :=
  unfold RegisterZoomStatic.handler, RegisterZoomStatic.handler_try,
    RegisterZoomStatic.handler_prepare;
  rewrite Hpost; cbn [String.eqb Ascii.eqb Bool.eqb negb];
  let b := fresh "b" in
  let Hb := fresh "Hb" in
  let Hn := fresh "Hn" in
  let Hd := fresh "Hd" in
  destruct (field_truthy_body _ _ Hfn) as (b & Hb & Hn & Hd);
  rewrite Hd, bind_lift;
  unfold field_of in Hfn, Hem, Hss; rewrite Hb in Hfn, Hem, Hss;
  rewrite Hfn, Hem, Hss; cbn [negb orb].

(** The OAuth handler on a POST with the three fields present. *)
Ltac oauth_validated req Hpost Hfn Hem Hss :=
  unfold RegisterZoom.handler, RegisterZoom.handler_try, RegisterZoom.handler_prepare;
  rewrite Hpost; cbn [String.eqb Ascii.eqb Bool.eqb negb];
  let b := fresh "b" in
  let Hb := fresh "Hb" in
  destruct (destructure_body req) as [b Hb];
  rewrite Hb, bind_lift;
  rewrite !(field_of_destructure req b _ Hb), Hfn, Hem, Hss; cbn [negb orb].

(** X4: a valid POST on a deployment that lacks configuration gets 500
    "Server configuration error", after one console.error and without
    any upstream call: in the OAuth variant when any of ZOOM_MEETING_ID,
    ZOOM_ACCOUNT_ID, ZOOM_CLIENT_ID, ZOOM_CLIENT_SECRET is unset or
    empty, in the static-token variant when ZOOM_MEETING_ID or
    ZOOM_ACCESS_TOKEN is. *)
Theorem missing_configuration (Date_parse : string -> option Z)
    (fetch : http_request -> E response) (env : environment) (req : request) :
  req_method req = "POST" ->
  truthy (field_of req "fullName") = true ->
  truthy (field_of req "email") = true ->
  truthy (field_of req "sessionTimeSelected") = true ->
  (truthy (env_val (ZOOM_MEETING_ID env)) = false
   \/ truthy (env_val (ZOOM_ACCOUNT_ID env)) = false
   \/ truthy (env_val (ZOOM_CLIENT_ID env)) = false
   \/ truthy (env_val (ZOOM_CLIENT_SECRET env)) = false ->
   RegisterZoom.handler Date_parse fetch env req
   = ([EConsoleError "Missing Zoom env vars";
       ESend 500 (BJson [("success", boolean false);
                         ("error", str "Server configuration error")])],
      Returned))
  /\ (truthy (env_val (ZOOM_MEETING_ID env)) = false
      \/ truthy (env_val (ZOOM_ACCESS_TOKEN env)) = false ->
      RegisterZoomStatic.handler Date_parse fetch env req
      = ([EConsoleError "Missing ZOOM_MEETING_ID or ZOOM_ACCESS_TOKEN env vars";
          ESend 500 (BJson [("success", boolean false);
                            ("error", str "Server configuration error")])],
         Returned)).
Proof.
  intros Hpost Hfn Hem Hss. split; intros Hcfg.
  - oauth_validated req Hpost Hfn Hem Hss.
    replace (negb (truthy (env_val (ZOOM_MEETING_ID env)))
             || negb (truthy (env_val (ZOOM_ACCOUNT_ID env)))
             || negb (truthy (env_val (ZOOM_CLIENT_ID env)))
             || negb (truthy (env_val (ZOOM_CLIENT_SECRET env)))) with true; [reflexivity|].
    destruct Hcfg as [H|[H|[H|H]]]; rewrite H; cbn [negb]; now rewrite ?orb_true_r.
  - static_validated Hpost Hfn Hem Hss.
    replace (negb (truthy (env_val (ZOOM_MEETING_ID env)))
             || negb (truthy (env_val (ZOOM_ACCESS_TOKEN env)))) with true; [reflexivity|].
    destruct Hcfg as [H|H]; rewrite H; cbn [negb]; now rewrite ?orb_true_r.
Qed.

(** X5: a fullName that is present but not a string (a number, [true],
    an array, an object): the static-token variant calls [.trim] on it,
    which throws, and answers 500 with success:false before any upstream
    call; the OAuth variant converts it with [String(..)]: when that
    yields a string it goes on to the token call, the POST written out
    below, and when the conversion throws (an object with an own
    [toString], an array that holds one) it answers 500 with
    success:false, also before any upstream call. *)
Theorem full_name_not_a_string (Date_parse : string -> option Z)
    (fetch : http_request -> E response) (env : environment) (req : request) :
  req_method req = "POST" ->
  truthy (field_of req "fullName") = true ->
  truthy (field_of req "email") = true ->
  truthy (field_of req "sessionTimeSelected") = true ->
  (forall s, field_of req "fullName" <> Some (JStr s)) ->
  (truthy (env_val (ZOOM_MEETING_ID env)) = true ->
   truthy (env_val (ZOOM_ACCESS_TOKEN env)) = true ->
   exists msg,
     RegisterZoomStatic.handler Date_parse fetch env req
     = ([EConsoleError "register-zoom error:";
         ESend 500 (BJson [("success", boolean false); ("error", str msg)])],
        Returned))
  /\ (truthy (env_val (ZOOM_MEETING_ID env)) = true ->
      truthy (env_val (ZOOM_ACCOUNT_ID env)) = true ->
      truthy (env_val (ZOOM_CLIENT_ID env)) = true ->
      truthy (env_val (ZOOM_CLIENT_SECRET env)) = true ->
      (forall name,
          val_to_string (field_of req "fullName") = inr name ->
          exists rest,
            fst (RegisterZoom.handler Date_parse fetch env req)
            = EFetch
                {| rq_url := "https://zoom.us/oauth/token?grant_type=account_credentials&account_id="
                             +++ encodeURIComponent (env_text (ZOOM_ACCOUNT_ID env));
                   rq_method := "POST";
                   rq_headers :=
                     [("Authorization",
                       "Basic " +++ base64 (env_text (ZOOM_CLIENT_ID env) +++ ":"
                                            +++ env_text (ZOOM_CLIENT_SECRET env)));
                      ("Content-Type", "application/x-www-form-urlencoded")];
                   rq_body := None |} :: rest)
      /\ (forall e,
            val_to_string (field_of req "fullName") = inl e ->
            RegisterZoom.handler Date_parse fetch env req
            = ([EConsoleError "register-zoom error:";
                ESend 500 (BJson [("success", boolean false);
                                  ("error", str (if String.eqb (message e) ""
                                                 then "Internal server error"
                                                 else message e))])],
               Returned))).
Proof.
  intros Hpost Hfn Hem Hss Hns. split.
  - intros Hmid Htok. pose proof Hfn as Hfn'. static_validated Hpost Hfn Hem Hss.
    rewrite Hmid, Htok. cbn [negb orb].
    unfold field_of in Hns, Hfn'. rewrite Hb in Hns, Hfn'.
    destruct (get_prop b "fullName") as [[|bb|n|s|l|f]|] eqn:Hname;
      try discriminate Hfn'.
    + destruct bb; [eexists; reflexivity | discriminate Hfn'].
    + eexists; reflexivity.
    + now destruct (Hns s).
    + eexists; reflexivity.
    + eexists; reflexivity.
  - intros Hmid Hacc Hcid Hsec. split.
    + intros name Hname. oauth_validated req Hpost Hfn Hem Hss.
      rewrite Hmid, Hacc, Hcid, Hsec. cbn [negb orb]. rewrite Hname, bind_lift.
      destruct (oauth_token_trace fetch
                  (env_text (ZOOM_ACCOUNT_ID env))
                  (env_text (ZOOM_CLIENT_ID env))
                  (env_text (ZOOM_CLIENT_SECRET env))) as [Htr _].
      match goal with
      | |- context [try_catch ?m ?h] =>
        destruct (try_catch_prefix m h) as [r1 H1]; rewrite H1
      end.
      match goal with
      | |- context [fst (bind ?m ?k)] => destruct (bind_prefix m k) as [r2 H2]; rewrite H2
      end.
      match goal with
      | |- context [fst (bind ?m ?k)] => destruct (bind_prefix m k) as [r3 H3]; rewrite H3
      end.
      rewrite Htr. eexists. reflexivity.
    + intros e Hname. oauth_validated req Hpost Hfn Hem Hss.
      rewrite Hmid, Hacc, Hcid, Hsec. cbn [negb orb]. rewrite Hname, bind_lift_thrown.
      apply (try_catch_thrown [] e).
Qed.

(** ** Upstream failures *)



(** ** The matching loop on arbitrary lists *)

Section MatchingAnyList.

Variable Date_parse : string -> option Z.

(** X7: whenever the matching loop of either variant ends, for whatever
    list and target, its two loop variables agree: either nothing is
    selected and bestDiff is still Infinity, or the selected entry is an
    entry of the list whose start time parses, it is an object (so it
    passes the handlers' truthiness tests), and bestDiff is its distance
    to the target, a number that is not negative (never NaN). *)
Theorem loop_variables_agree (targetTime : timeval) (occs : list json) (st : best) :
  RegisterZoom.match_occurrence Date_parse targetTime occs = inr st
  \/ RegisterZoomStatic.match_occurrence Date_parse targetTime occs = inr st ->
  (st = best_init /\ truthy (bestOccurrence st) = false)
  \/ exists occ d,
       st = {| bestOccurrence := Some occ; bestDiff := Num d |}
       /\ In occ occs
       /\ parses Date_parse occ = true
       /\ truthy (bestOccurrence st) = true
       /\ diff_of Date_parse targetTime occ = Num d
       /\ 0 <= d.
Proof.
  intros Hrun.
  destruct (match_result Date_parse targetTime occs st Hrun)
    as [-> | (occ & d & -> & Hin & Hp & Hdiff)].
  - now left.
  - right. exists occ, d. repeat split; try assumption.
    + now apply parses_truthy with (Date_parse := Date_parse).
    + unfold diff_of in Hdiff. now apply abs_diff_nonneg in Hdiff.
Qed.

(** X8: on any list of occurrence entries that the loop can read (none of
    them [null], and no start time whose conversion to a date throws) and
    a parsable target, the loop of either variant ends without throwing;
    if no entry's start time parses nothing is selected; otherwise the
    selected entry is the first, among the entries that parse, at the
    least distance to the target: no parsable entry of the list is
    closer. *)
Theorem match_on_any_list (target : Z) (occs : list json) :
  Forall (fun occ => readable Date_parse occ = true) occs ->
  exists st,
    RegisterZoom.match_occurrence Date_parse (Some target) occs = inr st
    /\ RegisterZoomStatic.match_occurrence Date_parse (Some target) occs = inr st
    /\ ((forall occ, In occ occs -> parses Date_parse occ = false) /\ st = best_init
        \/ exists i occ d,
             st = {| bestOccurrence := Some occ; bestDiff := Num d |}
             /\ In occ occs
             /\ closest Date_parse target (filter (parses Date_parse) occs) i occ d
             /\ forall occ', In occ' occs -> parses Date_parse occ' = true ->
                  exists d', diff_of Date_parse (Some target) occ' = Num d' /\ d <= d').
Proof.
  intros Hall.
  assert (Hf : Forall (fun occ => parses Date_parse occ = true) (filter (parses Date_parse) occs)).
  { apply Forall_forall. intros occ Hin. now apply filter_In in Hin. }
  destruct (visited_loop Date_parse target _ Hf [] best_init eq_refl) as (st & Hloop & Hv).
  exists st. rewrite <- match_occurrence_agree. unfold RegisterZoom.match_occurrence.
  rewrite match_loop_filter by assumption. split; [exact Hloop|]. split; [exact Hloop|].
  cbn [app] in Hv. destruct (filter (parses Date_parse) occs) as [|o l] eqn:Hfl.
  - left. split; [|exact Hv]. intros occ Hin.
    destruct (parses Date_parse occ) eqn:Hp; [|reflexivity].
    assert (Hin' : In occ (filter (parses Date_parse) occs)) by (apply filter_In; now split).
    now rewrite Hfl in Hin'.
  - right. destruct Hv as (i & occ & d & -> & Hc). exists i, occ, d.
    split; [reflexivity|]. destruct Hc as (Hi & Hd & Hmin). split; [|split].
    + apply nth_error_In in Hi. rewrite <- Hfl in Hi. now apply filter_In in Hi.
    + now repeat split.
    + intros occ' Hin Hp.
      assert (Hin' : In occ' (o :: l)) by (rewrite <- Hfl; apply filter_In; now split).
      apply In_nth_error in Hin'. destruct Hin' as [j Hj].
      destruct (Hmin j occ' Hj) as (d' & Hd' & Hle & _). now exists d'.
Qed.

Lemma match_loop_null (targetTime : timeval) (l : list json) :
  In JNull l ->
  forall st : best,
    exists e, for_of (RegisterZoom.match_step Date_parse targetTime) l st = inl e.
Proof.
  intros Hin. apply match_loop_unreadable. apply Exists_exists. now exists JNull.
Qed.

Lemma match_loop_strings (targetTime : timeval) (chars : list ascii) (st : best) :
  for_of (RegisterZoomStatic.match_step Date_parse targetTime)
    (map (fun ch => JStr (String ch "")) chars) st = inr st.
Proof.
  induction chars as [|ch chars IH]; [reflexivity|].
  cbn [map for_of]. rewrite <- match_step_agree.
  rewrite match_step_skipped by reflexivity. exact IH.
Qed.

End MatchingAnyList.

(** ** Malformed occurrence data *)

(** X9: an occurrence list that holds a [null] entry makes the matching
    loop throw on [occ.start_time]; the request ends in the catch block
    with 500 and success:false, and no registration call is made. This
    holds in both variants (in the OAuth variant for a target that
    parses, which is what lets the loop start). *)
Theorem null_occurrence_entry (Date_parse : string -> option Z)
    (fetch : http_request -> E response) (env : environment) (req : request)
    (occs : list json) :
  req_method req = "POST" ->
  In JNull occs ->
  (forall tr c target,
      RegisterZoom.handler_prepare fetch env req = (tr, Val c) ->
      get_prop (meetingData c) "occurrences" = Some (JArr occs) ->
      Date_getTime Date_parse (sessionTimeSelected c) = inr (Some target) ->
      exists msg,
        RegisterZoom.handler Date_parse fetch env req
        = (tr ++ [EConsoleError "register-zoom error:";
                  ESend 500 (BJson [("success", boolean false); ("error", str msg)])],
           Returned))
  /\ (forall tr c,
        RegisterZoomStatic.handler_prepare fetch env req = (tr, Val c) ->
        get_prop (meetingData c) "occurrences" = Some (JArr occs) ->
        exists msg,
          RegisterZoomStatic.handler Date_parse fetch env req
          = (tr ++ [EConsoleError "register-zoom error:";
                    ESend 500 (BJson [("success", boolean false); ("error", str msg)])],
             Returned)).
Proof.
  intros Hpost Hnull. split.
  - intros tr c target Hprep Hocc Ht.
    rewrite (oauth_handler_after Date_parse _ _ _ _ _ Hpost Hprep).
    pose proof (get_prop_some_not_null _ _ _ Hocc) as Hmd.
    destruct (match_loop_null Date_parse (Some target) occs Hnull best_init) as [e He].
    eexists. apply handler_thrown.
    apply (oauth_register_loop_throws Date_parse fetch c target e Hmd Ht).
    rewrite Hocc. exact He.
  - intros tr c Hprep Hocc.
    rewrite (static_handler_after Date_parse _ _ _ _ _ Hpost Hprep).
    pose proof (get_prop_some_not_null _ _ _ Hocc) as Hmd.
    destruct (Date_getTime Date_parse (sessionTimeSelected c)) as [e|targetTime] eqn:Ht.
    + eexists. apply handler_thrown.
      now apply (static_register_target_throws Date_parse fetch c e).
    + destruct (match_loop_null Date_parse targetTime occs Hnull best_init) as [e He].
      eexists. apply handler_thrown.
      apply (static_register_loop_throws Date_parse fetch c targetTime occs e Hmd Ht).
      * now rewrite Hocc.
      * rewrite <- match_occurrence_agree. exact He.
Qed.

(** X10: when the meeting data carry an [occurrences] value that is not an
    array, the OAuth variant ([Array.isArray]) treats it as no list at all
    and, for a session time that parses, goes on to register without
    occurrence id; the static-token variant ([|| []]) does the same, for
    a session time that is converted without a throw, only when the value
    is falsy or a string, and for any other value (an object, a non-zero
    number, [true]) it throws before the registration and answers 500
    with success:false, no registration call made.  The registration
    call is the POST written out below. *)
Theorem occurrences_not_an_array (Date_parse : string -> option Z)
    (fetch : http_request -> E response) (env : environment) (req : request) (v : json) :
  req_method req = "POST" ->
  (forall items, v <> JArr items) ->
  (forall tr c target,
      RegisterZoom.handler_prepare fetch env req = (tr, Val c) ->
      get_prop (meetingData c) "occurrences" = Some v ->
      Date_getTime Date_parse (sessionTimeSelected c) = inr (Some target) ->
      exists auth rest,
        bearer (TOKEN c) = inr auth
        /\ fst (RegisterZoom.handler Date_parse fetch env req)
           = tr ++ EFetch
                     {| rq_url := "https://api.zoom.us/v2/meetings/"
                                  +++ encodeURIComponent (env_text (ZOOM_MEETING_ID env))
                                  +++ "/registrants";
                        rq_method := "POST";
                        rq_headers := [("Authorization", auth);
                                       ("Content-Type", "application/json")];
                        rq_body := Some (regBody c) |} :: rest)
  /\ (forall tr c,
        RegisterZoomStatic.handler_prepare fetch env req = (tr, Val c) ->
        get_prop (meetingData c) "occurrences" = Some v ->
        (forall targetTime,
            Date_getTime Date_parse (sessionTimeSelected c) = inr targetTime ->
            (truthy (Some v) = false \/ exists s, v = JStr s) ->
            exists rest,
              fst (RegisterZoomStatic.handler Date_parse fetch env req)
              = tr ++ EFetch
                        {| rq_url := "https://api.zoom.us/v2/meetings/"
                                     +++ env_text (ZOOM_MEETING_ID env) +++ "/registrants";
                           rq_method := "POST";
                           rq_headers :=
                             [("Authorization",
                               "Bearer " +++ env_text (ZOOM_ACCESS_TOKEN env));
                              ("Content-Type", "application/json")];
                           rq_body := Some (regBody c) |} :: rest)
        /\ (truthy (Some v) = true -> (forall s, v <> JStr s) ->
            exists msg,
              RegisterZoomStatic.handler Date_parse fetch env req
              = (tr ++ [EConsoleError "register-zoom error:";
                        ESend 500 (BJson [("success", boolean false); ("error", str msg)])],
                 Returned))).
Proof.
  intros Hpost Hna. split.
  - intros tr c target Hprep Hocc Ht.
    rewrite (oauth_handler_after Date_parse _ _ _ _ _ Hpost Hprep).
    pose proof (get_prop_some_not_null _ _ _ Hocc) as Hmd.
    destruct (oauth_prepare_inv _ _ _ _ _ Hprep)
      as (_ & _ & _ & Hmid & _ & _ & _ & auth & Hauth & _).
    exists auth.
    assert (Hm : RegisterZoom.match_occurrence Date_parse (Some target)
                   (RegisterZoom.occurrences (get_prop (meetingData c) "occurrences"))
                 = inr best_init).
    { rewrite Hocc. destruct v; try reflexivity. now destruct (Hna items). }
    pose proof (oauth_register_outcome Date_parse fetch c target best_init
                  (RegisterZoom.registrants_url (MEETING_ID c)) auth
                  Hmd Ht Hm eq_refl eq_refl Hauth) as Hout.
    destruct (handler_reaches _ _ _ tr _ Hout) as [rest Hrest].
    exists rest. split; [exact Hauth|]. rewrite Hrest, Hmid. reflexivity.
  - intros tr c Hprep Hocc.
    rewrite (static_handler_after Date_parse _ _ _ _ _ Hpost Hprep).
    pose proof (get_prop_some_not_null _ _ _ Hocc) as Hmd.
    destruct (static_prepare_inv _ _ _ _ _ Hprep)
      as (_ & _ & _ & Hmid & _ & _ & _ & _ & Hauth & _).
    split.
    + intros targetTime Ht Hv.
      assert (Hsel : exists items,
                 RegisterZoomStatic.iterate
                   (RegisterZoomStatic.occurrences (get_prop (meetingData c) "occurrences"))
                 = inr items
                 /\ RegisterZoomStatic.match_occurrence Date_parse targetTime items
                    = inr best_init).
      { rewrite Hocc. unfold RegisterZoomStatic.occurrences, js_or.
        destruct Hv as [Hf|[s ->]].
        - rewrite Hf. exists []. now split.
        - destruct (truthy (Some (JStr s))); cbn [RegisterZoomStatic.iterate].
          + eexists. split; [reflexivity|]. apply match_loop_strings.
          + exists []. now split. }
      destruct Hsel as (items & Hit & Hm).
      pose proof (static_register_outcome Date_parse fetch c targetTime items best_init
                    (RegisterZoomStatic.registrants_url (MEETING_ID c))
                    ("Bearer " +++ env_text (ZOOM_ACCESS_TOKEN env))
                    Hmd Ht Hit Hm eq_refl Hauth) as Hout.
      destruct (handler_reaches _ _ _ tr _ Hout) as [rest Hrest].
      exists rest. rewrite Hrest, Hmid. reflexivity.
    + intros Ht Hns.
      assert (Hr : exists e,
                 RegisterZoomStatic.handler_register Date_parse fetch c = ([], Thrown e)).
      { destruct (Date_getTime Date_parse (sessionTimeSelected c)) as [e|targetTime] eqn:Hd.
        - exists e. now apply static_register_target_throws.
        - unfold RegisterZoomStatic.handler_register.
          rewrite (prop_not_null _ _ Hmd), bind_lift, Hocc. cbv zeta. rewrite Hd, bind_lift.
          unfold RegisterZoomStatic.occurrences, js_or. rewrite Ht.
          destruct v as [|b|n|s|items|fields]; try discriminate Ht;
            try (eexists; reflexivity).
          + now destruct (Hns s).
          + now destruct (Hna items). }
      destruct Hr as [e Hr]. eexists. exact (handler_thrown tr _ e Hr).
Qed.

(** ** Names *)

Lemma split_ws_not_nil (l : list jchar) (in_sep : bool) (acc : string) :
  split_ws in_sep acc l <> [].
Proof.
  revert in_sep acc. induction l as [|c l IH]; intros in_sep acc; [discriminate|].
  destruct c; cbn [split_ws]; [destruct in_sep; [apply IH | discriminate] | apply IH].
Qed.

Lemma nonempty_true (s : string) : nonempty s = true -> s <> "".
Proof. intros H ->. discriminate. Qed.

(** X11: the first name is empty exactly when fullName holds no
    whitespace-delimited token, that is when it is empty or made of
    whitespace only, and then the last name is empty too; such a fullName,
    unless it is the empty string, still passes the required-fields test
    (it is truthy). *)
Theorem blank_full_name (s : string) :
  (first_name_of s = "" <-> tokens s = [])
  /\ (tokens s = [] -> last_name_of s = "")
  /\ (s <> "" -> truthy (Some (JStr s)) = true).
Proof.
  assert (Hcases : (tokens s = [] /\ nameParts s = [""])
                   \/ (exists t ts, nameParts s = t :: ts /\ tokens s = t :: ts /\ t <> "")).
  { destruct (trim (lex s)) as [|c t] eqn:Ht.
    - left. destruct (nameParts_blank s Ht) as [Hp Hk]. now split.
    - right. assert (Hne : trim (lex s) <> []) by (rewrite Ht; discriminate).
      pose proof (nameParts_tokens s Hne) as Heq.
      destruct (tokens s) as [|t0 ts] eqn:Hk.
      + exfalso. unfold nameParts in Heq. now apply split_ws_not_nil in Heq.
      + exists t0, ts. repeat split; [exact Heq|].
        assert (Hin : In t0 (tokens s)) by (rewrite Hk; now left).
        unfold tokens in Hin. apply filter_In in Hin. now apply nonempty_true. }
  unfold first_name_of, last_name_of. split; [|split].
  - destruct Hcases as [[Hk Hp]|(t & ts & Hp & Hk & Hne)]; rewrite Hp, Hk; cbn.
    + now split.
    + split; [intros H; now destruct Hne | discriminate].
  - intros Hk. destruct Hcases as [[_ Hp]|(t & ts & _ & Hk' & _)]; [now rewrite Hp|].
    rewrite Hk in Hk'. discriminate.
  - intros Hne. cbn. now destruct (String.eqb_spec s "").
Qed.

(** ** URLs *)

Lemma all_bytes_app (p : Z -> bool) (a b : string) :
  all_bytes p (a +++ b) = all_bytes p a && all_bytes p b.
Proof.
  induction a as [|ch a IH]; [reflexivity|]. cbn [String.append all_bytes].
  now rewrite IH, andb_assoc.
Qed.

Lemma count_byte_app (k : Z) (a b : string) :
  count_byte k (a +++ b) = (count_byte k a + count_byte k b)%nat.
Proof.
  induction a as [|ch a IH]; [reflexivity|]. cbn [String.append count_byte].
  rewrite IH. lia.
Qed.

Lemma all_bytes_count (p : Z -> bool) (k : Z) (s : string) :
  p k = false -> all_bytes p s = true -> count_byte k s = 0%nat.
Proof.
  intros Hk. induction s as [|ch s IH]; [reflexivity|]. cbn [all_bytes count_byte].
  intros H. apply andb_prop in H. destruct H as [Hc Hs].
  destruct (Z.eqb_spec (code ch) k) as [Heq|_]; [rewrite Heq in Hc; congruence|].
  now rewrite IH.
Qed.

Lemma encode_char_safe (ch : ascii) :
  all_bytes uri_safe (if uri_unreserved (code ch) then String ch ""
                      else "%" +++ hex_digit (code ch / 16) +++ hex_digit (code ch mod 16))
  = true.
Proof. destruct ch as [[] [] [] [] [] [] [] []]; vm_compute; reflexivity. Qed.

Lemma encode_safe (s : string) : all_bytes uri_safe (encodeURIComponent s) = true.
Proof.
  induction s as [|ch s IH]; [reflexivity|]. cbn [encodeURIComponent].
  now rewrite all_bytes_app, encode_char_safe, IH.
Qed.

Lemma encode_unreserved (s : string) :
  all_bytes uri_unreserved s = true -> encodeURIComponent s = s.
Proof.
  induction s as [|ch s IH]; [reflexivity|]. cbn [all_bytes encodeURIComponent].
  intros H. apply andb_prop in H. destruct H as [Hc Hs]. rewrite Hc, IH by assumption.
  reflexivity.
Qed.

(** X12: [encodeURIComponent] yields only unreserved bytes and percent
    signs and leaves a string of unreserved bytes as it is; hence, in the
    OAuth variant, whatever the meeting id (set or not) and the text of
    the occurrence id are, the meeting URL holds no '?', '&' or '#', and
    the registration URL holds exactly one '?' (the one before
    occurrence_ids) and no '&' or '#': neither id can add a parameter or
    a fragment to the URL. *)
Theorem url_components_escaped (s : string) (id : option string) (occurrence_id : string) :
  all_bytes uri_safe (encodeURIComponent s) = true
  /\ (all_bytes uri_unreserved s = true -> encodeURIComponent s = s)
  /\ count_byte 63 (RegisterZoom.meeting_url id) = 0%nat
  /\ count_byte 38 (RegisterZoom.meeting_url id) = 0%nat
  /\ count_byte 35 (RegisterZoom.meeting_url id) = 0%nat
  /\ count_byte 63 (RegisterZoom.registrants_url id +++ "?occurrence_ids="
                    +++ encodeURIComponent occurrence_id) = 1%nat
  /\ count_byte 38 (RegisterZoom.registrants_url id +++ "?occurrence_ids="
                    +++ encodeURIComponent occurrence_id) = 0%nat
  /\ count_byte 35 (RegisterZoom.registrants_url id +++ "?occurrence_ids="
                    +++ encodeURIComponent occurrence_id) = 0%nat.
Proof.
  assert (Hc : forall k x, uri_safe k = false -> count_byte k (encodeURIComponent x) = 0%nat)
    by (intros k x Hk; apply (all_bytes_count uri_safe); [exact Hk | apply encode_safe]).
  split; [apply encode_safe|]. split; [apply encode_unreserved|].
  unfold RegisterZoom.meeting_url, RegisterZoom.registrants_url.
  repeat split; rewrite !count_byte_app, !Hc by reflexivity; reflexivity.
Qed.

(** ** The registration payload *)

(** X13: the one call of a request that carries a body, the registration
    call, is a POST whose body is built from the request alone: the email
    given in the request, then the first and the last name taken from the
    text of its fullName, in this order, and one more property,
    custom_questions with the single entry titled "Role", exactly when
    the request has a truthy role, the entry's value being that role.
    This holds in both variants, for every such call in the handler's
    trace; in the static-token variant fullName is a string. *)
Theorem registration_payload (Date_parse : string -> option Z)
    (fetch : http_request -> E response) (env : environment) (req : request)
    (rq : http_request) :
  rq_body rq <> None ->
  (In (EFetch rq) (fst (RegisterZoom.handler Date_parse fetch env req)) ->
   exists e name,
     field_of req "email" = Some e
     /\ val_to_string (field_of req "fullName") = inr name
     /\ rq_method rq = "POST"
     /\ rq_body rq
        = Some (JObj ([("email", e); ("first_name", JStr (first_name_of name));
                       ("last_name", JStr (last_name_of name))]
                      ++ match field_of req "role" with
                         | Some r =>
                           if truthy (Some r)
                           then [("custom_questions",
                                  JArr [JObj [("title", JStr "Role"); ("value", r)]])]
                           else []
                         | None => []
                         end)))
  /\ (In (EFetch rq) (fst (RegisterZoomStatic.handler Date_parse fetch env req)) ->
      exists e name,
        field_of req "email" = Some e
        /\ field_of req "fullName" = Some (JStr name)
        /\ rq_method rq = "POST"
        /\ rq_body rq
           = Some (JObj ([("email", e); ("first_name", JStr (first_name_of name));
                          ("last_name", JStr (last_name_of name))]
                         ++ match field_of req "role" with
                            | Some r =>
                              if truthy (Some r)
                              then [("custom_questions",
                                     JArr [JObj [("title", JStr "Role"); ("value", r)]])]
                              else []
                            | None => []
                            end))).
Proof.
  intros Hb. split; intros Hin.
  - destruct (oauth_handler_shape Date_parse fetch env req)
      as [Hq | (tr & c & target & st & regUrl & auth & tail & Hprep & Hqt & _ & _ & _ & _ & _
                & Hrun & Hafter)].
    + destruct Hb. exact (quiet_no_registration _ _ Hq Hin).
    + rewrite Hrun in Hin. cbn [fst] in Hin.
      pose proof (registration_call_unique _ _ _ _ _ _ Hqt Hafter Hin Hb) as ->.
      destruct (oauth_prepare_inv _ _ _ _ _ Hprep)
        as (Hem & Hrole & _ & _ & Hte & _ & (name & Hname & Hfirst & Hlast) & _).
      destruct (truthy_defined _ Hte) as [e He].
      exists e, name. split; [now rewrite <- Hem|]. split; [exact Hname|].
      split; [reflexivity|]. cbn [registration_request rq_body].
      now rewrite (regBody_fields c e He), Hfirst, Hlast, Hrole.
  - destruct (static_handler_shape Date_parse fetch env req)
      as [Hq | (tr & c & targetTime & items & st & regUrl & auth & tail & Hprep & Hqt & _ & _
                & _ & _ & _ & Hrun & Hafter)].
    + destruct Hb. exact (quiet_no_registration _ _ Hq Hin).
    + rewrite Hrun in Hin. cbn [fst] in Hin.
      pose proof (registration_call_unique _ _ _ _ _ _ Hqt Hafter Hin Hb) as ->.
      destruct (static_prepare_inv _ _ _ _ _ Hprep)
        as (Hem & Hrole & _ & _ & _ & Hte & _ & (name & Hname & Hfirst & Hlast) & _).
      destruct (truthy_defined _ Hte) as [e He].
      exists e, name. split; [now rewrite <- Hem|]. split; [exact Hname|].
      split; [reflexivity|]. cbn [registration_request rq_body].
      now rewrite (regBody_fields c e He), Hfirst, Hlast, Hrole.
Qed.

(** ** The computed distance *)

Lemma time_clip_range (t a : Z) : time_clip t = Some a -> Z.abs a <= 8640000000000000.
Proof.
  unfold time_clip. destruct (Z.leb_spec (Z.abs t) 8640000000000000) as [Hle|Hgt];
    [|discriminate].
  intros Heq. now injection Heq as <-.
Qed.

Lemma Date_getTime_range (Date_parse : string -> option Z) (v : val) (a : Z) :
  Date_getTime Date_parse v = inr (Some a) -> Z.abs a <= 8640000000000000.
Proof.
  unfold Date_getTime. intros H.
  assert (Hc : forall t, inr (time_clip t) = @inr exn timeval (Some a) ->
                         Z.abs a <= 8640000000000000).
  { intros t Ht. injection Ht as Ht. now apply time_clip_range in Ht. }
  destruct v as [[|b|n|s|l|f]|]; try discriminate H; try (now apply Hc in H);
    destruct (to_string _) as [e|s']; try discriminate H;
    destruct (Date_parse _); try discriminate H; now apply Hc in H.
Qed.

Lemma round_double_binade (x : Z) :
  2 ^ 53 <= Z.abs x <= 17280000000000000 ->
  Z.abs (round_double x) <= 17280000000000000
  /\ Z.abs (round_double x - x) <= 1.
Proof.
  intros Hx. unfold round_double.
  assert (Hlog : Z.log2 (Z.abs x) = 53).
  { apply Z.log2_unique; [lia|]. change (2 ^ (53 + 1)) with 18014398509481984.
    change (2 ^ 53) with 9007199254740992 in *. lia. }
  rewrite Hlog. change (53 <? 53) with false. change (53 - 52) with 1.
  change (Z.shiftl 1 (1 - 1)) with 1. cbv zeta.
  rewrite Z.shiftr_div_pow2 by lia. change (2 ^ 1) with 2.
  set (q := Z.abs x / 2).
  assert (Hq : forall y, Z.shiftl y 1 = y * 2) by (intros y; now rewrite Z.shiftl_mul_pow2).
  rewrite !Hq.
  pose proof (Z.div_mod (Z.abs x) 2 ltac:(lia)) as Hdm. fold q in Hdm.
  pose proof (Z.mod_pos_bound (Z.abs x) 2 ltac:(lia)) as Hm.
  change (2 ^ 53) with 9007199254740992 in Hx.
  destruct ((1 <? Z.abs x - q * 2) || ((Z.abs x - q * 2 =? 1) && Z.odd q)) eqn:Hup.
  - assert (Hr : Z.abs x - q * 2 = 1).
    { apply orb_prop in Hup. destruct Hup as [H|H].
      - apply Z.ltb_lt in H. lia.
      - apply andb_prop in H. destruct H as [H _]. now apply Z.eqb_eq in H. }
    destruct (Z.abs_spec x) as [[Hs Ha]|[Hs Ha]].
    + rewrite (Z.sgn_pos x) by lia. lia.
    + rewrite (Z.sgn_neg x) by lia. lia.
  - destruct (Z.abs_spec x) as [[Hs Ha]|[Hs Ha]].
    + rewrite (Z.sgn_pos x) by lia. lia.
    + rewrite (Z.sgn_neg x) by lia. lia.
Qed.

(** X14: for any two values whose dates parse, to the time values [a] and
    [b], the distance the loop computes, [Math.abs(occTime - targetTime)]
    in double arithmetic, is a finite number between 0 and 2 * 8.64e15,
    at most 1 ms off the exact |a - b|, and equal to it whenever that is
    below 2^53. *)
Theorem computed_distance (Date_parse : string -> option Z) (v1 v2 : val) (a b : Z) :
  Date_getTime Date_parse v1 = inr (Some a) ->
  Date_getTime Date_parse v2 = inr (Some b) ->
  exists d,
    abs_diff (Some a) (Some b) = Num d
    /\ 0 <= d <= 17280000000000000
    /\ Z.abs (d - Z.abs (a - b)) <= 1
    /\ (Z.abs (a - b) < 2 ^ 53 -> d = Z.abs (a - b)).
Proof.
  intros Ha Hb. cbn [abs_diff]. eexists. split; [reflexivity|].
  apply Date_getTime_range in Ha. apply Date_getTime_range in Hb.
  destruct (Z.lt_ge_cases (Z.abs (a - b)) (2 ^ 53)) as [Hlt|Hge].
  - rewrite round_double_exact by assumption.
    change (2 ^ 53) with 9007199254740992 in Hlt. repeat split; try lia.
  - destruct (round_double_binade (a - b)) as [Hbound Hnear]; [lia|].
    repeat split; try lia.
Qed.

(** ** Upstream calls *)

Lemma upstream_calls_app (t1 t2 : list event) :
  upstream_calls (t1 ++ t2) = (upstream_calls t1 + upstream_calls t2)%nat.
Proof. unfold upstream_calls, fetches. now rewrite filter_app, length_app. Qed.

Lemma calls_bind {A B} (a b : nat) (m : M A) (k : A -> M B) :
  calls_le a m -> (forall x, calls_le b (k x)) -> calls_le (a + b) (bind m k).
Proof.
  unfold calls_le, bind. intros Hm Hk. destruct m as [tr [x| |e]]; cbn [fst snd] in *.
  - rewrite upstream_calls_app. specialize (Hk x). lia.
  - lia.
  - lia.
Qed.

Lemma calls_try_catch {A} (a b : nat) (m : M A) (h : exn -> M A) :
  calls_le a m -> (forall e, calls_le b (h e)) -> calls_le (a + b) (try_catch m h).
Proof.
  unfold calls_le, try_catch. intros Hm Hh. destruct m as [tr [x| |e]]; cbn [fst snd] in *.
  - lia.
  - lia.
  - rewrite upstream_calls_app. specialize (Hh e). lia.
Qed.

Lemma calls_if {A} (a b : nat) (c : bool) (m1 m2 : M A) :
  calls_le a m1 -> calls_le b m2 -> calls_le (Nat.max a b) (if c then m1 else m2).
Proof. unfold calls_le. destruct c; lia. Qed.

Lemma calls_mono {A} (a n : nat) (m : M A) : calls_le a m -> (a <= n)%nat -> calls_le n m.
Proof. unfold calls_le. lia. Qed.

Lemma calls_lift {A} (c : E A) : calls_le 0 (lift c).
Proof. destruct c; apply Nat.le_refl. Qed.

Lemma calls_ret {A} (a : A) : calls_le 0 (ret a).
Proof. apply Nat.le_refl. Qed.

Lemma calls_throw {A} (e : exn) : calls_le (A := A) 0 (throw e).
Proof. apply Nat.le_refl. Qed.

Lemma calls_console_error (label : string) : calls_le 0 (console_error label).
Proof. apply Nat.le_refl. Qed.

Lemma calls_emit_header (k v : string) : calls_le 0 (emit (ESetHeader k v)).
Proof. apply Nat.le_refl. Qed.

Lemma calls_return_json {A} (code : Z) (props : list (string * val)) :
  calls_le (A := A) 0 (return_json code props).
Proof. apply Nat.le_refl. Qed.

Lemma calls_return_send {A} (code : Z) (s : string) :
  calls_le (A := A) 0 (return_send code s).
Proof. apply Nat.le_refl. Qed.

Lemma calls_do_fetch (fetch : http_request -> E response) (rq : http_request) :
  calls_le 1 (do_fetch fetch rq).
Proof. unfold calls_le, do_fetch. destruct (fetch rq); apply Nat.le_refl. Qed.

(** Counting the calls of a run, statement by statement. *)
Ltac calls :=
  cbv beta zeta;
  lazymatch goal with
  | |- calls_le _ (bind _ _) => eapply calls_bind; [calls | intro; calls]
  | |- calls_le _ (try_catch _ _) => eapply calls_try_catch; [calls | intro; calls]
  | |- calls_le _ (if _ then _ else _) => eapply calls_if; calls
  | |- calls_le _ (lift _) => apply calls_lift
  | |- calls_le _ (ret _) => apply calls_ret
  | |- calls_le _ (throw _) => apply calls_throw
  | |- calls_le _ (console_error _) => apply calls_console_error
  | |- calls_le _ (emit (ESetHeader _ _)) => apply calls_emit_header
  | |- calls_le _ (return_json _ _) => apply calls_return_json
  | |- calls_le _ (return_send _ _) => apply calls_return_send
  | |- calls_le _ (do_fetch _ _) => apply calls_do_fetch
  | |- calls_le _ (RegisterZoom.getZoomAccessToken _ _ _ _) =>
    unfold RegisterZoom.getZoomAccessToken; calls
  | |- calls_le _ (handler_catch _) => unfold handler_catch; calls
  | |- calls_le _ (RegisterZoho.handler_catch _) => unfold RegisterZoho.handler_catch; calls
  end.
(** X15: no handler ever repeats or adds an upstream call: a request makes
    at most three calls in the OAuth variant (token, meeting,
    registration), at most two in the static-token variant, at most one
    in the relay, whatever the upstream services answer and whether or
    not they fail. *)
Theorem upstream_calls_bounded (Date_parse : string -> option Z)
    (fetch : http_request -> E response) (env : environment) (req : request) :
  (upstream_calls (fst (RegisterZoom.handler Date_parse fetch env req)) <= 3)%nat
  /\ (upstream_calls (fst (RegisterZoomStatic.handler Date_parse fetch env req)) <= 2)%nat
  /\ (upstream_calls (fst (RegisterZoho.handler fetch env req)) <= 1)%nat.
Proof.
  split; [|split].
  - change (calls_le 3 (RegisterZoom.handler Date_parse fetch env req)).
    eapply calls_mono.
    + unfold RegisterZoom.handler, RegisterZoom.handler_try, RegisterZoom.handler_prepare,
        RegisterZoom.handler_register. calls.
    + cbn. lia.
  - change (calls_le 2 (RegisterZoomStatic.handler Date_parse fetch env req)).
    eapply calls_mono.
    + unfold RegisterZoomStatic.handler, RegisterZoomStatic.handler_try,
        RegisterZoomStatic.handler_prepare, RegisterZoomStatic.handler_register. calls.
    + cbn. lia.
  - change (calls_le 1 (RegisterZoho.handler fetch env req)).
    eapply calls_mono.
    + unfold RegisterZoho.handler, RegisterZoho.handler_try. calls.
    + cbn. lia.
Qed.

(** ** The registration call and the response *)

(** X16: a Zoom handler answers 200 only right after a registration call
    that resolved with a success status: the run is then the effects up to
    the fetched meeting, that one call (the POST written out below) and
    the response, three upstream calls in all in the OAuth variant and
    two in the static-token variant; success is never reported without
    it. *)
Theorem success_only_after_registration (Date_parse : string -> option Z)
    (fetch : http_request -> E response) (env : environment) (req : request)
    (body : payload) :
  (In (ESend 200 body) (fst (RegisterZoom.handler Date_parse fetch env req)) ->
   exists tr c regUrl auth r,
     RegisterZoom.handler_prepare fetch env req = (tr, Val c)
     /\ bearer (TOKEN c) = inr auth
     /\ let rq := {| rq_url := regUrl;
                     rq_method := "POST";
                     rq_headers := [("Authorization", auth);
                                    ("Content-Type", "application/json")];
                     rq_body := Some (regBody c) |} in
        fetch rq = inr r /\ ok r = true
        /\ RegisterZoom.handler Date_parse fetch env req
           = (tr ++ [EFetch rq; ESend 200 body], Returned)
        /\ upstream_calls (fst (RegisterZoom.handler Date_parse fetch env req)) = 3%nat)
  /\ (In (ESend 200 body) (fst (RegisterZoomStatic.handler Date_parse fetch env req)) ->
      exists tr c regUrl r,
        RegisterZoomStatic.handler_prepare fetch env req = (tr, Val c)
        /\ let rq := {| rq_url := regUrl;
                        rq_method := "POST";
                        rq_headers := [("Authorization",
                                        "Bearer " +++ env_text (ZOOM_ACCESS_TOKEN env));
                                       ("Content-Type", "application/json")];
                        rq_body := Some (regBody c) |} in
           fetch rq = inr r /\ ok r = true
           /\ RegisterZoomStatic.handler Date_parse fetch env req
              = (tr ++ [EFetch rq; ESend 200 body], Returned)
           /\ upstream_calls (fst (RegisterZoomStatic.handler Date_parse fetch env req))
              = 2%nat).
Proof.
  split; intros Hin.
  - destruct (oauth_handler_shape Date_parse fetch env req)
      as [Hq|(tr & c & target & st & regUrl & auth & tail & Hprep & Hq & _ & _ & _ & _ & Ha
              & Hrun & Hafter)].
    + now apply (quiet_no_success _ _ Hq) in Hin.
    + rewrite Hrun in Hin |- *. cbn [fst] in Hin |- *.
      destruct (success_tail _ _ _ _ _ _ Hq Hafter Hin)
        as [-> (r & regData & Hf & Hok & _)].
      exists tr, c, regUrl, auth, r. split; [exact Hprep|]. split; [exact Ha|].
      cbv zeta. split; [exact Hf|]. split; [exact Hok|]. split; [reflexivity|].
      destruct (oauth_prepare_inv _ _ _ _ _ Hprep)
        as (_ & _ & _ & _ & _ & _ & _ & auth' & _ & ->).
      reflexivity.
  - destruct (static_handler_shape Date_parse fetch env req)
      as [Hq|(tr & c & targetTime & items & st & regUrl & auth & tail & Hprep & Hq & _ & _
              & _ & _ & Ha & Hrun & Hafter)].
    + now apply (quiet_no_success _ _ Hq) in Hin.
    + rewrite Hrun in Hin |- *. cbn [fst] in Hin |- *.
      destruct (success_tail _ _ _ _ _ _ Hq Hafter Hin)
        as [-> (r & regData & Hf & Hok & _)].
      destruct (static_prepare_inv _ _ _ _ _ Hprep)
        as (_ & _ & _ & _ & _ & _ & _ & _ & Ha' & Htr).
      rewrite Ha' in Ha. injection Ha as <-.
      exists tr, c, regUrl, r. split; [exact Hprep|].
      cbv zeta. split; [exact Hf|]. split; [exact Hok|]. split; [reflexivity|].
      rewrite Htr. reflexivity.
Qed.

(** X17: the OAuth variant never sends a registration for an occurrence
    more than six hours from the requested time: whenever it makes the
    registration call, the target parsed and the loop ended, and either
    nothing was selected and the call goes to the registrants endpoint
    itself, or the selected entry is at a distance of at most
    6*60*60*1000 ms. *)
Theorem registers_within_six_hours (Date_parse : string -> option Z)
    (fetch : http_request -> E response) (env : environment) (req : request)
    (rq : http_request) :
  In (EFetch rq) (fst (RegisterZoom.handler Date_parse fetch env req)) ->
  rq_body rq <> None ->
  exists tr c target st regUrl auth,
    RegisterZoom.handler_prepare fetch env req = (tr, Val c)
    /\ Date_getTime Date_parse (sessionTimeSelected c) = inr (Some target)
    /\ RegisterZoom.match_occurrence Date_parse (Some target)
         (RegisterZoom.occurrences (get_prop (meetingData c) "occurrences")) = inr st
    /\ oauth_regUrl c st = inr regUrl
    /\ bearer (TOKEN c) = inr auth
    /\ rq = {| rq_url := regUrl;
               rq_method := "POST";
               rq_headers := [("Authorization", auth); ("Content-Type", "application/json")];
               rq_body := Some (regBody c) |}
    /\ ((st = best_init /\ rq_url rq = RegisterZoom.registrants_url (MEETING_ID c))
        \/ exists occ d,
             st = {| bestOccurrence := Some occ; bestDiff := Num d |}
             /\ In occ (RegisterZoom.occurrences (get_prop (meetingData c) "occurrences"))
             /\ diff_of Date_parse (Some target) occ = Num d
             /\ d <= 21600000).
Proof.
  intros Hin Hbody.
  destruct (oauth_handler_shape Date_parse fetch env req)
    as [Hq|(tr & c & target & st & regUrl & auth & tail & Hprep & Hq & Ht & Hm & Hg & Hu & Ha
            & Hrun & Hafter)].
  - now apply (quiet_no_registration _ _ Hq) in Hin.
  - rewrite Hrun in Hin. cbn [fst] in Hin.
    pose proof (registration_call_unique _ _ _ _ _ _ Hq Hafter Hin Hbody) as ->.
    exists tr, c, target, st, regUrl, auth. repeat split; try assumption.
    destruct (match_result Date_parse (Some target) _ st (or_introl Hm))
      as [-> | (occ & d & -> & Hino & Hp & Hdiff)].
    + left. split; [reflexivity|]. cbn [registration_request rq_url].
      unfold oauth_regUrl in Hu. cbn in Hu. now injection Hu as <-.
    + right. exists occ, d. repeat split; try assumption.
      cbn [bestOccurrence bestDiff] in Hg.
      rewrite (parses_truthy Date_parse occ Hp) in Hg. cbn [andb] in Hg.
      unfold num_gtb in Hg. cbn [num_ltb] in Hg. apply Z.ltb_ge in Hg.
      exact Hg.
Qed.


(** ** From the loop result to the registration URL *)


(** ** Unreachable upstream services *)

(** X20: when every upstream call fails to resolve (the network is down),
    a valid POST on a configured deployment makes exactly one call, the
    first of the pipeline (the token call in the OAuth variant, for a
    fullName that has a string; the meeting call in the static-token
    variant, for a fullName that is a string; the webhook call in the
    relay), and is answered 500 with the message of the failure, or with
    the handler's fallback text when that message is empty. *)
Theorem upstream_unreachable (Date_parse : string -> option Z)
    (fetch : http_request -> E response) (env : environment) (req : request) (e : exn) :
  (forall rq, fetch rq = inl e) ->
  req_method req = "POST" ->
  truthy (field_of req "fullName") = true ->
  truthy (field_of req "email") = true ->
  truthy (field_of req "sessionTimeSelected") = true ->
  truthy (env_val (ZOOM_MEETING_ID env)) = true ->
  (forall name,
      val_to_string (field_of req "fullName") = inr name ->
      truthy (env_val (ZOOM_ACCOUNT_ID env)) = true ->
      truthy (env_val (ZOOM_CLIENT_ID env)) = true ->
      truthy (env_val (ZOOM_CLIENT_SECRET env)) = true ->
      RegisterZoom.handler Date_parse fetch env req
      = ([EFetch
            {| rq_url := "https://zoom.us/oauth/token?grant_type=account_credentials&account_id="
                         +++ encodeURIComponent (env_text (ZOOM_ACCOUNT_ID env));
               rq_method := "POST";
               rq_headers :=
                 [("Authorization",
                   "Basic " +++ base64 (env_text (ZOOM_CLIENT_ID env) +++ ":"
                                        +++ env_text (ZOOM_CLIENT_SECRET env)));
                  ("Content-Type", "application/x-www-form-urlencoded")];
               rq_body := None |};
          EConsoleError "register-zoom error:";
          ESend 500 (BJson [("success", boolean false);
                            ("error", str (if String.eqb (message e) ""
                                           then "Internal server error" else message e))])],
         Returned))
  /\ (forall name,
        field_of req "fullName" = Some (JStr name) ->
        truthy (env_val (ZOOM_ACCESS_TOKEN env)) = true ->
        RegisterZoomStatic.handler Date_parse fetch env req
        = ([EFetch
              {| rq_url := "https://api.zoom.us/v2/meetings/" +++ env_text (ZOOM_MEETING_ID env);
                 rq_method := "GET";
                 rq_headers := [("Authorization",
                                 "Bearer " +++ env_text (ZOOM_ACCESS_TOKEN env))];
                 rq_body := None |};
            EConsoleError "register-zoom error:";
            ESend 500 (BJson [("success", boolean false);
                              ("error", str (if String.eqb (message e) ""
                                             then "Internal server error" else message e))])],
           Returned))
  /\ (truthy (env_val (ZOHO_URL env)) = true ->
      RegisterZoho.handler fetch env req
      = ([EFetch {| rq_url := env_text (ZOHO_URL env); rq_method := "POST";
                    rq_headers := [("Content-Type", "application/json")];
                    rq_body := req_body req |};
          ESend 500 (BJson [("error", str (if String.eqb (message e) ""
                                           then "Zoho proxy error" else message e))])],
         Returned)).
Proof.
  intros Hdown Hpost Hfn Hem Hss Hmid.
  assert (Hmsg : forall d, js_or (str (message e)) (str d)
                           = str (if String.eqb (message e) "" then d else message e)).
  { intros d. unfold js_or, str, truthy. now destruct (String.eqb (message e) ""). }
  split; [|split].
  - intros name Hname Hacc Hcid Hsec. oauth_validated req Hpost Hfn Hem Hss.
    rewrite Hmid, Hacc, Hcid, Hsec. cbn [negb orb]. rewrite Hname, bind_lift.
    unfold RegisterZoom.getZoomAccessToken.
    rewrite (bind_fetch_thrown _ _ _ _ (Hdown _)), !bind_thrown.
    exact (try_catch_thrown [_] e).
  - intros name Hname Htok. pose proof Hname as Hname'.
    static_validated Hpost Hfn Hem Hss. rewrite Hmid, Htok. cbn [negb orb].
    unfold field_of in Hname'. rewrite Hb in Hname'. rewrite Hname'.
    cbn [RegisterZoomStatic.trim_receiver]. rewrite bind_lift.
    rewrite (bearer_env _ Htok), bind_lift.
    rewrite (bind_fetch_thrown _ _ _ _ (Hdown _)), !bind_thrown.
    exact (try_catch_thrown [_] e).
  - intros Hurl. unfold RegisterZoho.handler, RegisterZoho.handler_try.
    rewrite Hpost. cbv zeta. rewrite Hurl. cbn [String.eqb Ascii.eqb Bool.eqb negb].
    rewrite (bind_fetch_thrown _ _ _ _ (Hdown _)).
    unfold try_catch, RegisterZoho.handler_catch, return_json. cbn [fst snd app].
    now rewrite Hmsg.
Qed.

(** ** The further properties at concrete requests *)

Lemma method_not_allowed_witness :
  req_method get_request <> "POST"
  /\ RegisterZoho.handler (oauth_world []) sample_env get_request
     = ([ESetHeader "Allow" "POST"; ESend 405 (BJson [("error", str "Method not allowed")])],
        Returned).
Proof.
  assert (H : req_method get_request <> "POST") by discriminate.
  split; [exact H|].
  exact (proj2 (proj2 (method_not_allowed iso_utc_parse (oauth_world []) sample_env
                         get_request H))).
Defined.

Lemma missing_required_field_witness :
  RegisterZoom.handler iso_utc_parse (oauth_world two_occurrences) sample_env no_session_time
  = ([ESend 400
        (BJson [("success", boolean false);
                ("error", str "Missing required fields: fullName, email, sessionTimeSelected")])],
     Returned)
  /\ RegisterZoomStatic.handler iso_utc_parse (oauth_world two_occurrences) sample_env
       no_session_time
     = ([ESend 400
           (BJson [("success", boolean false);
                   ("error",
                    str "Missing required fields: fullName, email, sessionTimeSelected")])],
        Returned).
Proof.
  destruct (missing_required_field iso_utc_parse (oauth_world two_occurrences) sample_env
              no_session_time eq_refl (or_intror (or_intror eq_refl))) as [H1 H2].
  split; [exact H1|]. apply (H2 _ eq_refl). discriminate.
Defined.

Lemma absent_body_witness :
  RegisterZoom.handler iso_utc_parse (oauth_world []) sample_env post_no_body
  = ([ESend 400
        (BJson [("success", boolean false);
                ("error", str "Missing required fields: fullName, email, sessionTimeSelected")])],
     Returned)
  /\ upstream_calls (fst (RegisterZoomStatic.handler iso_utc_parse (oauth_world []) sample_env
                            post_no_body)) = 0%nat.
Proof.
  destruct (absent_body iso_utc_parse (oauth_world []) sample_env post_no_body eq_refl
              (or_introl eq_refl)) as [H1 [msg H2]].
  split; [exact H1|]. now rewrite H2.
Defined.

Lemma missing_configuration_witness :
  RegisterZoom.handler iso_utc_parse (oauth_world []) unconfigured ann_lee
  = ([EConsoleError "Missing Zoom env vars";
      ESend 500 (BJson [("success", boolean false);
                        ("error", str "Server configuration error")])],
     Returned)
  /\ RegisterZoomStatic.handler iso_utc_parse (oauth_world []) unconfigured ann_lee
     = ([EConsoleError "Missing ZOOM_MEETING_ID or ZOOM_ACCESS_TOKEN env vars";
         ESend 500 (BJson [("success", boolean false);
                           ("error", str "Server configuration error")])],
        Returned).
Proof.
  destruct (missing_configuration iso_utc_parse (oauth_world []) unconfigured ann_lee
              eq_refl eq_refl eq_refl eq_refl) as [H1 H2].
  split; [apply H1; right; left; reflexivity | apply H2; right; reflexivity].
Defined.

Lemma full_name_not_a_string_witness :
  upstream_calls (fst (RegisterZoomStatic.handler iso_utc_parse (oauth_world []) sample_env
                         numeric_name)) = 0%nat
  /\ (exists rest,
         urls (fst (RegisterZoom.handler iso_utc_parse (oauth_world []) sample_env
                      numeric_name))
         = "https://zoom.us/oauth/token?grant_type=account_credentials&account_id=acct"
           :: rest)
  /\ RegisterZoom.handler iso_utc_parse (oauth_world []) sample_env odd_name
     = ([EConsoleError "register-zoom error:";
         ESend 500 (BJson [("success", boolean false);
                           ("error", str "Cannot convert object to primitive value")])],
        Returned).
Proof.
  assert (Hns : forall s, field_of numeric_name "fullName" <> Some (JStr s)) by discriminate.
  assert (Hno : forall s, field_of odd_name "fullName" <> Some (JStr s)) by discriminate.
  destruct (full_name_not_a_string iso_utc_parse (oauth_world []) sample_env numeric_name
              eq_refl eq_refl eq_refl eq_refl Hns) as [H1 H2].
  destruct (full_name_not_a_string iso_utc_parse (oauth_world []) sample_env odd_name
              eq_refl eq_refl eq_refl eq_refl Hno) as [_ H3].
  split; [|split].
  - destruct (H1 eq_refl eq_refl) as [msg Hrun]. now rewrite Hrun.
  - destruct (H2 eq_refl eq_refl eq_refl eq_refl) as [Hcall _].
    destruct (Hcall "42" eq_refl) as [rest Hrest]. rewrite Hrest. now eexists.
  - destruct (H3 eq_refl eq_refl eq_refl eq_refl) as [_ Hthrow].
    exact (Hthrow (TypeError "Cannot convert object to primitive value") eq_refl).
Defined.


Lemma loop_variables_agree_witness :
  exists occ d,
    In occ two_occurrences
    /\ diff_of iso_utc_parse (Some 1714557600000) occ = Num d
    /\ 0 <= d.
Proof.
  destruct (loop_variables_agree iso_utc_parse (Some 1714557600000) two_occurrences
              {| bestOccurrence := Some (occurrence "1" "2024-05-01T09:59:00Z");
                 bestDiff := Num 60000 |} (or_introl eq_refl))
    as [[H _]|(occ & d & _ & Hin & _ & _ & Hd & Hpos)]; [discriminate|].
  now exists occ, d.
Defined.

Lemma match_on_any_list_witness :
  Forall (fun occ => readable iso_utc_parse occ = true) with_unparsable
  /\ exists st,
       RegisterZoom.match_occurrence iso_utc_parse (Some 1714557600000) with_unparsable
       = inr st
       /\ RegisterZoomStatic.match_occurrence iso_utc_parse (Some 1714557600000) with_unparsable
          = inr st.
Proof.
  assert (H : Forall (fun occ => readable iso_utc_parse occ = true) with_unparsable)
    by (repeat constructor).
  split; [exact H|].
  destruct (match_on_any_list iso_utc_parse 1714557600000 with_unparsable H)
    as (st & H1 & H2 & _).
  now exists st.
Defined.

Lemma null_occurrence_entry_witness :
  upstream_calls (fst (RegisterZoom.handler iso_utc_parse (oauth_world with_null) sample_env
                         ann_lee)) = 2%nat
  /\ upstream_calls (fst (RegisterZoomStatic.handler iso_utc_parse (oauth_world with_null)
                            sample_env ann_lee)) = 1%nat.
Proof.
  destruct (null_occurrence_entry iso_utc_parse (oauth_world with_null) sample_env ann_lee
              with_null eq_refl (or_intror (or_introl eq_refl))) as [H1 H2].
  split.
  - destruct (H1 _ (ann_lee_locals "tok" (meeting with_null)) 1714557600000
                eq_refl eq_refl eq_refl) as [msg Hrun].
    now rewrite Hrun.
  - destruct (H2 _ (ann_lee_locals "static-token" (meeting with_null)) eq_refl eq_refl)
      as [msg Hrun].
    now rewrite Hrun.
Defined.

Lemma occurrences_not_an_array_witness :
  (exists rest,
      urls (fst (RegisterZoom.handler iso_utc_parse odd_world sample_env ann_lee))
      = ["https://zoom.us/oauth/token?grant_type=account_credentials&account_id=acct";
         "https://api.zoom.us/v2/meetings/123";
         "https://api.zoom.us/v2/meetings/123/registrants"] ++ rest)
  /\ (exists msg,
         RegisterZoomStatic.handler iso_utc_parse odd_world sample_env ann_lee
         = ([EFetch (meeting_request "https://api.zoom.us/v2/meetings/123"
                       "Bearer static-token")]
            ++ [EConsoleError "register-zoom error:";
                ESend 500 (BJson [("success", boolean false); ("error", str msg)])],
            Returned)).
Proof.
  assert (Hna : forall items, JObj [] <> JArr items) by discriminate.
  destruct (occurrences_not_an_array iso_utc_parse odd_world sample_env ann_lee (JObj [])
              eq_refl Hna) as [H1 H2].
  split.
  - destruct (H1 _ (ann_lee_locals "tok" odd_meeting) 1714557600000 eq_refl eq_refl eq_refl)
      as (auth & rest & _ & Hrun).
    rewrite Hrun. exists (urls rest). reflexivity.
  - destruct (H2 _ (ann_lee_locals "static-token" odd_meeting) eq_refl eq_refl) as [_ H3].
    assert (Hns : forall s, JObj [] <> JStr s) by discriminate.
    exact (H3 eq_refl Hns).
Defined.

Lemma blank_full_name_witness :
  truthy (Some (JStr "   ")) = true
  /\ first_name_of "   " = ""
  /\ last_name_of "   " = "".
Proof.
  destruct (blank_full_name "   ") as (Hfirst & Hlast & Htruthy).
  split; [apply Htruthy; discriminate|].
  split; [apply Hfirst; reflexivity | apply Hlast; reflexivity].
Defined.

Lemma url_components_escaped_witness :
  all_bytes uri_unreserved "85746065" = true
  /\ encodeURIComponent "85746065" = "85746065".
Proof.
  split; [reflexivity|].
  exact (proj1 (proj2 (url_components_escaped "85746065" None "")) eq_refl).
Defined.

Lemma registration_payload_witness :
  exists rq,
    In (EFetch rq)
       (fst (RegisterZoom.handler iso_utc_parse (oauth_world []) sample_env ann_lee_teacher))
    /\ rq_body rq
       = Some (JObj [("email", JStr "a@x.com"); ("first_name", JStr "Ann");
                     ("last_name", JStr "Lee");
                     ("custom_questions",
                      JArr [JObj [("title", JStr "Role"); ("value", JStr "Teacher")]])]).
Proof.
  pose (rq := {| rq_url := "https://api.zoom.us/v2/meetings/123/registrants";
                 rq_method := "POST";
                 rq_headers := [("Authorization", "Bearer tok");
                                ("Content-Type", "application/json")];
                 rq_body := Some (JObj [("email", JStr "a@x.com");
                                        ("first_name", JStr "Ann");
                                        ("last_name", JStr "Lee");
                                        ("custom_questions",
                                         JArr [JObj [("title", JStr "Role");
                                                     ("value", JStr "Teacher")]])]) |}).
  assert (Hbody : rq_body rq <> None) by discriminate.
  assert (Hin : In (EFetch rq)
                   (fst (RegisterZoom.handler iso_utc_parse (oauth_world []) sample_env
                           ann_lee_teacher)))
    by (vm_compute; right; right; left; reflexivity).
  destruct (registration_payload iso_utc_parse (oauth_world []) sample_env ann_lee_teacher
              rq Hbody) as [Hoauth _].
  destruct (Hoauth Hin) as (e & name & He & Hname & _ & Hb).
  exists rq. split; [exact Hin|]. reflexivity.
Defined.

Lemma computed_distance_witness :
  exists d,
    abs_diff (Some 1714557540000) (Some 1714557600000) = Num d
    /\ d = 60000.
Proof.
  destruct (computed_distance iso_utc_parse (str "2024-05-01T09:59:00Z")
              (str "2024-05-01T10:00:00Z") 1714557540000 1714557600000 eq_refl eq_refl)
    as (d & Hd & _ & _ & Hexact).
  exists d. split; [exact Hd|]. apply Hexact. reflexivity.
Defined.

Lemma success_only_after_registration_witness :
  exists tr c r,
    RegisterZoom.handler_prepare (oauth_world two_occurrences) sample_env ann_lee = (tr, Val c)
    /\ ok r = true
    /\ upstream_calls (fst (RegisterZoom.handler iso_utc_parse (oauth_world two_occurrences)
                              sample_env ann_lee)) = 3%nat.
Proof.
  pose (body := BJson [("success", boolean true);
                       ("join_url", str "https://zoom.example/j/1");
                       ("registrant_id", str "r-1");
                       ("occurrence_id", str "1");
                       ("matched_start_time", str "2024-05-01T09:59:00Z")]).
  assert (Hin : In (ESend 200 body)
                   (fst (RegisterZoom.handler iso_utc_parse (oauth_world two_occurrences)
                           sample_env ann_lee)))
    by (vm_compute; right; right; right; left; reflexivity).
  destruct (success_only_after_registration iso_utc_parse (oauth_world two_occurrences)
              sample_env ann_lee body) as [Hoauth _].
  destruct (Hoauth Hin) as (tr & c & regUrl & auth & r & Hprep & _ & _ & Hok & _ & Hcalls).
  exists tr, c, r. repeat split; assumption.
Defined.

Lemma registers_within_six_hours_witness :
  exists target occ d,
    diff_of iso_utc_parse (Some target) occ = Num d /\ d <= 21600000.
Proof.
  pose (rq := registration_request
                "https://api.zoom.us/v2/meetings/123/registrants?occurrence_ids=1"
                "Bearer tok"
                (regBody (ann_lee_locals "tok" (meeting two_occurrences)))).
  assert (Hin : In (EFetch rq)
                   (fst (RegisterZoom.handler iso_utc_parse (oauth_world two_occurrences)
                           sample_env ann_lee)))
    by (vm_compute; right; right; left; reflexivity).
  assert (Hbody : rq_body rq <> None) by discriminate.
  destruct (registers_within_six_hours iso_utc_parse (oauth_world two_occurrences)
              sample_env ann_lee rq Hin Hbody)
    as (tr & c & target & st & regUrl & auth & Hprep & Ht & Hm & _ & _ & _ & Hst).
  destruct Hst as [[Hinit _]|(occ & d & _ & _ & Hd & Hle)].
  - exfalso. subst st. injection Hprep as <- <-.
    vm_compute in Ht. injection Ht as <-. vm_compute in Hm. discriminate Hm.
  - exists target, occ, d. split; assumption.
Defined.



Lemma upstream_unreachable_witness :
  RegisterZoom.handler iso_utc_parse unreachable sample_env ann_lee
  = ([EFetch (RegisterZoom.token_request "acct" "cid" "secret");
      EConsoleError "register-zoom error:";
      ESend 500 (BJson [("success", boolean false); ("error", str "fetch failed")])],
     Returned)
  /\ RegisterZoomStatic.handler iso_utc_parse unreachable sample_env ann_lee
     = ([EFetch (meeting_request "https://api.zoom.us/v2/meetings/123" "Bearer static-token");
         EConsoleError "register-zoom error:";
         ESend 500 (BJson [("success", boolean false); ("error", str "fetch failed")])],
        Returned).
Proof.
  assert (Hdown : forall rq, unreachable rq = inl (Error "fetch failed"))
    by (intro; reflexivity).
  destruct (upstream_unreachable iso_utc_parse unreachable sample_env ann_lee
              (Error "fetch failed") Hdown eq_refl eq_refl eq_refl eq_refl eq_refl)
    as (H1 & H2 & _).
  split; [exact (H1 "Ann Lee" eq_refl eq_refl eq_refl eq_refl)
         | exact (H2 "Ann Lee" eq_refl eq_refl)].
Defined.
